(** * Prime Bank dashboard back end: analytics, ranking and pagination

    A shallow embedding of the aggregation core of the repository:
    - [src/json_files/dashboard_analytics.py]  (class DashboardAnalytics),
    - [src/json_files/flask_dashboard_api.py]  (scraper trigger, legacy full data),
    - [src/app/main.py]                        (read-only JSON API, pagination).

    Python values are modelled as the code has them: [int] is [Z], [float] is
    an IEEE-754 binary64 number ([spec_float] at precision 53), [str] is
    [string] (of bytes: [lower] and [strip] act on ASCII), a [dict] is a
    [gmap], or a list of entries where the order of the keys matters, an
    exception is a value of [exn] carried by the [res] monad. The JSON
    document that the read-only handlers share lives in a store of objects
    with addresses, so that copies and aliases are told apart.

    The definitions come first, the facts about them after. *)

From Stdlib Require Import ZArith List Ascii String Permutation Sorted Lia.
From Stdlib Require Import Floats.SpecFloat.
From Stdlib Require Import Numbers.DecimalString.
From Stdlib Require Import Numbers.DecimalPos.
From stdpp Require Import base option list gmap strings fin_maps.

Open Scope string_scope.
Open Scope list_scope.
Open Scope Z_scope.

(* ===================================================================== *)
(** * Python primitives                                                   *)
(* ===================================================================== *)

Module Py.

(** ** Exceptions and the error monad *)

Inductive exn : Type :=
| ValueError (msg : string)
| TypeError
| AttributeError
| KeyError (key : string)
| OverflowError
| ZeroDivisionError
| HTTPException (code : Z)
| RuntimeError.

Inductive res (A : Type) : Type :=
| Ok (a : A)
| Raise (e : exn).
Arguments Ok {A} a.
Arguments Raise {A} e.

Definition bind {A B} (m : res A) (k : A -> res B) : res B :=
  match m with
  | Ok a => k a
  | Raise e => Raise e
  end.

(** [try m except: h] for a handler that catches every exception. *)
Definition try_except {A} (m : res A) (h : exn -> A) : A :=
  match m with
  | Ok a => a
  | Raise e => h e
  end.

(** ** Strings *)

(** Characters that [str.strip()] and [int()] treat as white space
    (the ASCII ones: TAB..CR, FS..US and the blank). *)
Definition is_space (c : ascii) : bool :=
  let n := Z.of_nat (nat_of_ascii c) in
  ((9 <=? n) && (n <=? 13)) || ((28 <=? n) && (n <=? 32)).

Definition is_digit (c : ascii) : bool :=
  let n := Z.of_nat (nat_of_ascii c) in (48 <=? n) && (n <=? 57).

Definition digit_value (c : ascii) : Z := Z.of_nat (nat_of_ascii c) - 48.

Definition lower_char (c : ascii) : ascii :=
  let n := nat_of_ascii c in
  if ((65 <=? Z.of_nat n) && (Z.of_nat n <=? 90))%Z
  then ascii_of_nat (n + 32) else c.

(** [s.lower()] *)
Fixpoint lower (s : string) : string :=
  match s with
  | EmptyString => EmptyString
  | String c s' => String (lower_char c) (lower s')
  end.

Fixpoint lstrip (s : string) : string :=
  match s with
  | EmptyString => EmptyString
  | String c s' => if is_space c then lstrip s' else s
  end.

Fixpoint rstrip (s : string) : string :=
  match s with
  | EmptyString => EmptyString
  | String c s' =>
      match rstrip s' with
      | EmptyString => if is_space c then EmptyString else String c EmptyString
      | r => String c r
      end
  end.

(** [s.strip()] *)
Definition strip (s : string) : string := rstrip (lstrip s).

(** [sub in s] *)
Fixpoint contains (sub s : string) : bool :=
  if String.prefix sub s then true
  else match s with
       | EmptyString => false
       | String _ s' => contains sub s'
       end.

(** [s.replace(old, new)] for a one-character [old]. *)
Fixpoint replace_char (old : ascii) (new : string) (s : string) : string :=
  match s with
  | EmptyString => EmptyString
  | String c s' =>
      if Ascii.eqb c old then new +:+ replace_char old new s'
      else String c (replace_char old new s')
  end.

(** [str(n)] for an integer. *)
Definition str_of_int (n : Z) : string := NilZero.string_of_int (Z.to_int n).

(** ** [int(s)] for a string *)

(** Decimal digits with single underscores between digits, to the end of the
    string; [seen] tells whether the previous character was a digit. *)
Fixpoint int_digits (s : string) (acc : Z) (seen : bool) : option Z :=
  match s with
  | EmptyString => if seen then Some acc else None
  | String c s' =>
      if is_digit c then int_digits s' (10 * acc + digit_value c) true
      else if Ascii.eqb c "_" then
             (if seen then int_digits s' acc false else None)
      else None
  end.

Definition invalid_literal (s : string) : exn :=
  ValueError ("invalid literal for int() with base 10: '" +:+ s +:+ "'").

Definition int_of_str (s : string) : res Z :=
  let body := strip s in
  let parsed :=
    match body with
    | String "-" d => option_map Z.opp (int_digits d 0 false)
    | String "+" d => int_digits d 0 false
    | d => int_digits d 0 false
    end in
  match parsed with
  | Some z => Ok z
  | None => Raise (invalid_literal s)
  end.

(** [str(e)] *)
Definition str_of_exn (e : exn) : string :=
  match e with
  | ValueError msg => msg
  | KeyError k => "'" +:+ k +:+ "'"
  | _ => ""
  end.

(** ** Slices *)

(** A slice bound as [PySlice_AdjustIndices] clamps it into [0, len]. *)
Definition clamp_index (len i : Z) : Z :=
  if i <? 0 then Z.max 0 (len + i) else Z.min i len.

(** [l[a:b]] *)
Definition slice {A} (l : list A) (a b : Z) : list A :=
  let len := Z.of_nat (length l) in
  let a' := clamp_index len a in
  let b' := clamp_index len b in
  firstn (Z.to_nat (b' - a')) (skipn (Z.to_nat a') l).

(** [l[:b]] *)
Definition slice_to {A} (l : list A) (b : Z) : list A := slice l 0 b.

#[global] Instance res_ret : MRet res := @Ok.
#[global] Instance res_bind : MBind res := fun A B k m => bind m k.
#[global] Instance res_fmap : FMap res := fun A B f m =>
  match m with
  | Ok a => Ok (f a)
  | Raise e => Raise e
  end.

(** ** Floats: IEEE-754 binary64 *)

Definition prec : Z := 53.
Definition emax : Z := 1024.

Abbreviation float := spec_float.

Definition fadd : float -> float -> float := SFadd prec emax.
Definition fmul : float -> float -> float := SFmul prec emax.
Definition fdiv : float -> float -> float := SFdiv prec emax.
Definition flt : float -> float -> bool := SFltb.

Definition is_nan (f : float) : bool :=
  match f with S754_nan => true | _ => false end.

(** The correctly rounded quotient [n / d] of a natural number by a positive
    one; the operands need not fit 53 bits. *)
Definition float_of_ratio (n d : Z) : float :=
  match n with
  | Zpos p => fdiv (S754_finite false p 0) (S754_finite false (Z.to_pos d) 0)
  | _ => S754_zero false
  end.

(** The float nearest to [m * 10 ^ e] for [m >= 0]. *)
Definition float_of_decimal (m e : Z) : float :=
  if m =? 0 then S754_zero false
  else if 0 <=? e then binary_normalize prec emax (m * 10 ^ e) 0 false
  else float_of_ratio m (10 ^ (- e)).

(** [float(n)] for an integer. *)
Definition float_of_int (n : Z) : res float :=
  let f := binary_normalize prec emax n 0 false in
  match f with
  | S754_infinity _ => Raise OverflowError
  | _ => Ok f
  end.

(** Rounding [n / d] to the nearest integer, ties to even ([d > 0]). *)
Definition round_half_even (n d : Z) : Z :=
  let q := n / d in
  let r := n mod d in
  match 2 * r ?= d with
  | Lt => q
  | Gt => q + 1
  | Eq => if Z.even q then q else q + 1
  end.

(** [round(x)] for a float. *)
Definition round_float (x : float) : res Z :=
  match x with
  | S754_zero _ => Ok 0
  | S754_infinity _ => Raise OverflowError
  | S754_nan => Raise (ValueError "cannot convert float NaN to integer")
  | S754_finite s m e =>
      let v := if 0 <=? e then Zpos m * 2 ^ e
               else round_half_even (Zpos m) (2 ^ (- e)) in
      Ok (if s then - v else v)
  end.

(** [round(x, 2)] for a float: the float nearest to the decimal with two
    places nearest to [x], ties to even. *)
Definition round_float_2 (x : float) : float :=
  match x with
  | S754_finite s m e =>
      if 0 <=? e then x
      else
        let k := round_half_even (100 * Zpos m) (2 ^ (- e)) in
        if k =? 0 then S754_zero s
        else let r := float_of_ratio k 100 in if s then SFopp r else r
  | _ => x
  end.

(** [int(x)] for a float: truncation towards zero. *)
Definition int_of_float (x : float) : res Z :=
  match x with
  | S754_zero _ => Ok 0
  | S754_infinity _ => Raise OverflowError
  | S754_nan => Raise (ValueError "cannot convert float NaN to integer")
  | S754_finite s m e =>
      let v := if 0 <=? e then Zpos m * 2 ^ e else Zpos m / 2 ^ (- e) in
      Ok (if s then - v else v)
  end.

(** ** [float(s)] for a string *)

(** An underscore is accepted only between two digits. *)
Fixpoint underscores_ok (prev_digit : bool) (s : string) : bool :=
  match s with
  | EmptyString => true
  | String c s' =>
      if Ascii.eqb c "_" then
        prev_digit
        && match s' with String d _ => is_digit d | EmptyString => false end
        && underscores_ok false s'
      else underscores_ok (is_digit c) s'
  end.

Fixpoint remove_underscores (s : string) : string :=
  match s with
  | EmptyString => EmptyString
  | String c s' =>
      if Ascii.eqb c "_" then remove_underscores s'
      else String c (remove_underscores s')
  end.

(** Reads a run of digits: the value accumulated on [acc], the number of
    digits read added to [n], and the rest of the string. *)
Fixpoint scan_digits (s : string) (acc n : Z) : Z * Z * string :=
  match s with
  | EmptyString => (acc, n, EmptyString)
  | String c s' =>
      if is_digit c then scan_digits s' (10 * acc + digit_value c) (n + 1)
      else (acc, n, s)
  end.

Definition split_sign (s : string) : bool * string :=
  match s with
  | String "-" r => (true, r)
  | String "+" r => (false, r)
  | _ => (false, s)
  end.

(** [digits [. digits] [(e|E) [sign] digits]] with at least one digit before
    the exponent: the mantissa and the decimal exponent. *)
Definition decimal_literal (s : string) : option (Z * Z) :=
  let '(ip, ni, r1) := scan_digits s 0 0 in
  let '(m, nf, r2) :=
    match r1 with
    | String "." r => scan_digits r ip 0
    | _ => (ip, 0, r1)
    end in
  if ni + nf =? 0 then None
  else
    match r2 with
    | EmptyString => Some (m, - nf)
    | String c r3 =>
        if Ascii.eqb (lower_char c) "e" then
          let '(neg, r4) := split_sign r3 in
          let '(ev, ne, r5) := scan_digits r4 0 0 in
          if (0 <? ne) && String.eqb r5 EmptyString
          then Some (m, (if neg then - ev else ev) - nf)
          else None
        else None
    end.

Definition float_literal (s : string) : option float :=
  if underscores_ok false s then
    let '(neg, body) := split_sign (remove_underscores (strip s)) in
    let low := lower body in
    if String.eqb low "inf" || String.eqb low "infinity"
    then Some (S754_infinity neg)
    else if String.eqb low "nan" then Some S754_nan
    else
      match decimal_literal body with
      | Some (m, e) =>
          let f := float_of_decimal m e in
          Some (if neg then SFopp f else f)
      | None => None
      end
  else None.

Definition float_of_str (s : string) : res float :=
  match float_literal s with
  | Some f => Ok f
  | None =>
      Raise (ValueError ("could not convert string to float: '" +:+ s +:+ "'"))
  end.

(** ** Scalar values *)

(** The scalars that a CSV cell, an environment variable, a JSON leaf or a
    field of a result can hold. *)
Inductive pyval : Type :=
| PNone
| PBool (b : bool)
| PInt (z : Z)
| PFloat (f : float)
| PStr (s : string).

(** Truth value of a scalar, as [if v:] and [v or d] test it. *)
Definition truthy (v : pyval) : bool :=
  match v with
  | PNone => false
  | PBool b => b
  | PInt z => negb (z =? 0)
  | PFloat (S754_zero _) => false
  | PFloat _ => true
  | PStr s => negb (String.eqb s EmptyString)
  end.

(** [v or d] *)
Definition py_or (v d : pyval) : pyval := if truthy v then v else d.

(** [int(v)] *)
Definition int_of (v : pyval) : res Z :=
  match v with
  | PNone => Raise TypeError
  | PBool b => Ok (if b then 1 else 0)
  | PInt z => Ok z
  | PFloat f => int_of_float f
  | PStr s => int_of_str s
  end.

(** [float(v)] *)
Definition float_of (v : pyval) : res float :=
  match v with
  | PNone => Raise TypeError
  | PBool b => float_of_int (if b then 1 else 0)
  | PInt z => float_of_int z
  | PFloat f => Ok f
  | PStr s => float_of_str s
  end.

(** [v.lower()], defined on strings only. *)
Definition lower_of (v : pyval) : res string :=
  match v with
  | PStr s => Ok (lower s)
  | _ => Raise AttributeError
  end.

(** [a / b] on integers. *)
Definition true_div (a b : Z) : res float :=
  if b =? 0 then Raise ZeroDivisionError
  else
    let q := float_of_ratio (Z.abs a) (Z.abs b) in
    Ok (if Bool.eqb (a <? 0) (b <? 0) then q else SFopp q).

(** [f"{round((count / total) * 100)}%"] *)
Definition percentage (count total : Z) : res string :=
  q ← true_div count total;
  hundred ← float_of_int 100;
  r ← round_float (fmul q hundred);
  Ok (str_of_int r +:+ "%").

(** ** Numbers as sort keys *)

(** A value that is an [int] or a [float]. *)
Inductive num : Type :=
| NInt (z : Z)
| NFloat (f : float).

Definition num_of (v : pyval) : res num :=
  match v with
  | PInt z => Ok (NInt z)
  | PFloat f => Ok (NFloat f)
  | PBool b => Ok (NInt (if b then 1 else 0))
  | _ => Raise TypeError
  end.

Definition pyval_of_num (n : num) : pyval :=
  match n with NInt z => PInt z | NFloat f => PFloat f end.

(** The float that a mixed comparison or addition uses for a number; exact
    for the integers below [2 ^ 53] in absolute value. *)
Definition to_float (n : num) : float :=
  match n with
  | NInt z => binary_normalize prec emax z 0 false
  | NFloat f => f
  end.

(** [a < b] *)
Definition num_ltb (a b : num) : bool :=
  match a, b with
  | NInt x, NInt y => x <? y
  | _, _ => flt (to_float a) (to_float b)
  end.

(** [a + b] *)
Definition num_add (a b : num) : num :=
  match a, b with
  | NInt x, NInt y => NInt (x + y)
  | _, _ => NFloat (fadd (to_float a) (to_float b))
  end.

(** [- a] *)
Definition num_neg (a : num) : num :=
  match a with
  | NInt x => NInt (- x)
  | NFloat f => NFloat (SFopp f)
  end.

(** [round(a, 2)] *)
Definition num_round_2 (a : num) : num :=
  match a with
  | NInt x => NInt x
  | NFloat f => NFloat (round_float_2 f)
  end.

(** ** [list.sort(key=..., reverse=...)] *)

Section Sort.

Context {A K : Type}.
Variable lt : K -> K -> bool.

(** [x] stood before every element of [l] in the unsorted list: it goes
    behind the keys that are smaller and ahead of the others. *)
Fixpoint insert_keyed (x : K * A) (l : list (K * A)) : list (K * A) :=
  match l with
  | [] => [x]
  | y :: l' =>
      if lt (fst y) (fst x) then y :: insert_keyed x l' else x :: y :: l'
  end.

Fixpoint stable_sort (l : list (K * A)) : list (K * A) :=
  match l with
  | [] => []
  | x :: l' => insert_keyed x (stable_sort l')
  end.

(** The keys are computed once, the pairs are sorted on the key alone and
    stably; a reverse sort reverses the list before and after, which keeps
    equal keys in their original order. *)
Definition sort_by (key : A -> K) (reverse : bool) (l : list A) : list A :=
  let keyed := map (fun x => (key x, x)) l in
  let sorted :=
    if reverse then rev (stable_sort (rev keyed)) else stable_sort keyed in
  map snd sorted.

End Sort.

(** In a list of keyed items, [x] is not above [y]. *)
Definition ordered {A K} (lt : K -> K -> bool) (x y : K * A) : Prop :=
  lt (fst y) (fst x) = false.

(** Some occurrence of [x] stands before some occurrence of [y] in [l]. *)
Definition precedes {A} (x y : A) (l : list A) : Prop :=
  exists l1 l2 l3, l = l1 ++ x :: l2 ++ y :: l3.

(** [a < b] on pairs, as tuples compare: on the first component where they
    differ. *)
Definition pair_ltb {K1 K2} (eq1 lt1 : K1 -> K1 -> bool) (lt2 : K2 -> K2 -> bool)
    (a b : K1 * K2) : bool :=
  if eq1 (fst a) (fst b) then lt2 (snd a) (snd b) else lt1 (fst a) (fst b).

(** Monadic loops: [for x in l: acc = f(acc, x)] where [f] may raise. *)
Fixpoint foldlM {A B} (f : B -> A -> res B) (b : B) (l : list A) : res B :=
  match l with
  | [] => Ok b
  | x :: l' => b' ← f b x; foldlM f b' l'
  end.

(** [for x in l: out.append(f(x))] inside a [try] whose handler only logs:
    the items appended before an exception stay in [out]. *)
Fixpoint collect {A B} (f : A -> res B) (l : list A) : list B :=
  match l with
  | [] => []
  | x :: l' =>
      match f x with
      | Ok y => y :: collect f l'
      | Raise _ => []
      end
  end.

End Py.

Import Py.

(* ===================================================================== *)
(** * [src/app/main.py]: the paginated full-data views                    *)
(* ===================================================================== *)

Module Pagination.

Section FullData.

(** The elements of [FULL_DATA['Posts']] and [FULL_DATA['Comments']] are
    JSON objects that the paginator never inspects. *)
Context {item : Type}.

Record pagination : Type := {
  current_page : Z;
  total_pages : Z;
  number_of_pages : Z;
  items_per_page : Z;
  total_posts : Z;
  total_comments : Z
}.

Inductive response : Type :=
| Success (items : list item) (pg : pagination)   (* 200 *)
| BadRequest (error : string).                    (* 400 *)

(** The inner [try] of the three handlers:
    [page = int(page_no); if page < 1: raise ValueError(...)]. *)
Definition parse_page (page_no : string) : res Z :=
  page ← int_of_str page_no;
  if page <? 1 then Raise (ValueError "Page number must be positive")
  else Ok page.

(** [get_full_data(page_no)], 50 items per page, posts first. [FULL_DATA]
    holds the two lists, as [full_data.json] does, so nothing is left for
    the outer handler of unexpected exceptions to catch. *)
Definition get_full_data (posts comments : list item) (page_no : string)
  : response :=
  match parse_page page_no with
  | Raise e => BadRequest (str_of_exn e)
  | Ok page =>
      let items_per_page := 50 in
      let start_idx := (page - 1) * items_per_page in
      let end_idx := start_idx + items_per_page in
      let posts_len := Z.of_nat (length posts) in
      let comments_len := Z.of_nat (length comments) in
      let posts_slice :=
        if start_idx <? posts_len then slice posts start_idx end_idx else [] in
      let num_posts := Z.of_nat (length posts_slice) in
      let comments_slice :=
        if num_posts <? items_per_page then
          let remaining := items_per_page - num_posts in
          let comments_start := Z.max 0 (start_idx - posts_len) in
          let comments_end := comments_start + remaining in
          if comments_start <? comments_len
          then slice comments comments_start comments_end else []
        else [] in
      let comments_slice :=
        if num_posts =? 0 then
          let comments_start := start_idx - posts_len in
          let comments_end := comments_start + items_per_page in
          if comments_start <? comments_len
          then slice comments comments_start comments_end else []
        else comments_slice in
      let combined_items := posts_slice ++ comments_slice in
      let total_items := posts_len + comments_len in
      let total_pages := (total_items + items_per_page - 1) / items_per_page in
      Success combined_items
        {| current_page := page;
           total_pages := total_pages;
           number_of_pages := total_pages;
           items_per_page := items_per_page;
           total_posts := posts_len;
           total_comments := comments_len |}
  end.

(** [get_full_posts(page_no)] and [get_full_comments(page_no)], 25 per
    page over one collection: the items, the page and [total_pages]. *)
Definition get_full_single (coll : list item) (page_no : string)
  : res (list item * Z * Z) :=
  page ← parse_page page_no;
  let items_per_page := 25 in
  let coll_len := Z.of_nat (length coll) in
  let start_idx := (page - 1) * items_per_page in
  let end_idx := start_idx + items_per_page in
  let coll_slice :=
    if start_idx <? coll_len then slice coll start_idx end_idx else [] in
  let total_pages := (coll_len + items_per_page - 1) / items_per_page in
  Ok (coll_slice, page, total_pages).

(** The item list and the page counters of a response. *)
Definition served (r : response) : list item :=
  match r with
  | Success items _ => items
  | BadRequest _ => []
  end.

Definition counters (r : response) : option pagination :=
  match r with
  | Success _ pg => Some pg
  | BadRequest _ => None
  end.

End FullData.

Arguments response : clear implicits.
Arguments pagination : clear implicits.

End Pagination.

(* ===================================================================== *)
(** * [src/json_files/dashboard_analytics.py]                             *)
(* ===================================================================== *)

Module Analytics.

(** A row of [csv.DictReader]: a cell is a string, or [None] where the line
    was shorter than the header. *)
Abbreviation row := (gmap string pyval).

(** [row.get(key, default)] *)
Definition get (r : row) (key : string) (default : pyval) : pyval :=
  match r !! key with
  | Some v => v
  | None => default
  end.

(** The cells that the reader produces. *)
Definition csv_cell (v : pyval) : Prop :=
  match v with
  | PNone | PStr _ => True
  | _ => False
  end.

Definition csv_row (r : row) : Prop := map_Forall (fun _ v => csv_cell v) r.

(** What [row.get(key, 0)] can be for a row of the reader. *)
Definition cell_or_zero (v : pyval) : Prop :=
  v = PNone \/ (exists s, v = PStr s) \/ v = PInt 0.

(** A CSV file: [None] when the file does not exist, else its rows. *)
Abbreviation csv_file := (option (list row)).

(** [d[key] += 1] *)
Definition increment (key : string) (d : gmap string Z) : res (gmap string Z) :=
  match d !! key with
  | Some n => Ok (<[key := n + 1]> d)
  | None => Raise (KeyError key)
  end.

(** [d[label] += 1 if label in d else d[fallback] += 1] *)
Definition bucket (label fallback : string) (d : gmap string Z)
  : res (gmap string Z) :=
  if decide (is_Some (d !! label)) then increment label d
  else increment fallback d.

(** The sum of the counts of all buckets. *)
Definition total_of (d : gmap string Z) : Z :=
  map_fold (fun _ n acc => n + acc) 0 d.

(** ** [get_post_categories_percentage] *)

Definition zero_categories : gmap string pyval :=
  <["total_number_of_posts" := PInt 0]>
    (PStr <$> (<["inquiry" := "0%"]> (<["suggestions" := "0%"]>
       (<["complaint" := "0%"]> (<["praise" := "0%"]> {["other" := "0%"]}))))).

Definition initial_categories : gmap string Z :=
  <["inquiry" := 0]> (<["suggestion" := 0]> (<["complaint" := 0]>
    (<["praise" := 0]> {["other" := 0]}))).

(** The body of the loop over the rows. *)
Definition count_category (st : gmap string Z * Z) (r : row)
  : res (gmap string Z * Z) :=
  let '(categories, total_posts) := st in
  let total_posts := total_posts + 1 in
  category ← lower_of (get r "category" (PStr ""));
  categories ← bucket category "other" categories;
  Ok (categories, total_posts).

Definition output_key (cat : string) : string :=
  if decide (cat = "suggestion") then "suggestions" else cat.

(** [for cat, count in counts.items(): result[key(cat)] = percentage] *)
Definition percentages (key : string -> string) (counts : gmap string Z)
    (total : Z) : res (gmap string string) :=
  map_fold
    (fun cat count acc =>
       result ← acc;
       p ← percentage count total;
       Ok (<[key cat := p]> result))
    (Ok ∅) counts.

Definition get_post_categories_percentage (csv : csv_file)
  : gmap string pyval :=
  match csv with
  | None => zero_categories
  | Some rows =>
      let attempt : res (option (gmap string pyval)) :=
        '(categories, total_posts) ←
          foldlM count_category (initial_categories, 0) rows;
        if 0 <? total_posts then
          result ← percentages output_key categories total_posts;
          Ok (Some (<["total_number_of_posts" := PInt total_posts]>
                      (PStr <$> (result : gmap string string))))
        else Ok None in
      match attempt with
      | Ok (Some result) => result
      | Ok None | Raise _ => zero_categories
      end
  end.

(** ** [get_sentiment_analysis] *)

Record sentiment_analysis : Type := {
  bank_sentiment_score : Z;
  engagement_weighted_sentiment : num;
  sentiment_distribution : gmap string string;
  emotion_distribution : gmap string string
}.

Definition zero_sentiment : sentiment_analysis :=
  {| bank_sentiment_score := 0;
     engagement_weighted_sentiment := NInt 0;
     sentiment_distribution :=
       <["positive" := "0%"]> (<["negative" := "0%"]> {["neutral" := "0%"]});
     emotion_distribution :=
       <["neutral" := "0%"]> (<["joy" := "0%"]>
         (<["confusion" := "0%"]> {["frustration" := "0%"]})) |}.

Definition initial_emotions : gmap string Z :=
  <["neutral" := 0]> (<["joy" := 0]>
    (<["confusion" := 0]> {["frustration" := 0]})).

(** The local variables of the loop. *)
Record tally : Type := {
  positive_posts : Z;
  negative_posts : Z;
  neutral_posts : Z;
  total_virality : num;
  emotions : gmap string Z;
  total_posts : Z
}.

Definition initial_tally : tally :=
  {| positive_posts := 0; negative_posts := 0; neutral_posts := 0;
     total_virality := NInt 0; emotions := initial_emotions;
     total_posts := 0 |}.

(** [try: total_virality += float(...) except (ValueError, TypeError): pass] *)
Definition add_virality (total : num) (cell : pyval) : res num :=
  match float_of cell with
  | Ok virality => Ok (num_add total (NFloat virality))
  | Raise (ValueError _) | Raise TypeError => Ok total
  | Raise e => Raise e
  end.

Definition count_sentiment (t : tally) (r : row) : res tally :=
  let total := total_posts t + 1 in
  sentiment ← lower_of (get r "sentiment" (PStr ""));
  let '(pos, neg, neu) :=
    if decide (sentiment = "positive")
    then (positive_posts t + 1, negative_posts t, neutral_posts t)
    else if decide (sentiment = "negative")
    then (positive_posts t, negative_posts t + 1, neutral_posts t)
    else (positive_posts t, negative_posts t, neutral_posts t + 1) in
  virality ← add_virality (total_virality t) (get r "virality_score" (PInt 0));
  emotion ← lower_of (get r "emotion" (PStr ""));
  emotions ← bucket emotion "neutral" (emotions t);
  Ok {| positive_posts := pos; negative_posts := neg; neutral_posts := neu;
        total_virality := virality; emotions := emotions;
        total_posts := total |}.

Definition get_sentiment_analysis (csv : csv_file) : sentiment_analysis :=
  match csv with
  | None => zero_sentiment
  | Some rows =>
      let attempt : res sentiment_analysis :=
        t ← foldlM count_sentiment initial_tally rows;
        '(sentiment_dist, emotion_dist) ←
          (if 0 <? total_posts t then
             p ← percentage (positive_posts t) (total_posts t);
             n ← percentage (negative_posts t) (total_posts t);
             u ← percentage (neutral_posts t) (total_posts t);
             e ← percentages id (emotions t) (total_posts t);
             Ok (<["positive" := p]> (<["negative" := n]> {["neutral" := u]}), e)
           else Ok (∅, ∅));
        Ok {| bank_sentiment_score := positive_posts t - negative_posts t;
              engagement_weighted_sentiment := num_round_2 (total_virality t);
              sentiment_distribution := sentiment_dist;
              emotion_distribution := emotion_dist |} in
      try_except attempt (fun _ => zero_sentiment)
  end.

(** ** [get_top_posts] *)

Definition is_value_or_type_error (e : exn) : bool :=
  match e with
  | ValueError _ | TypeError => true
  | _ => false
  end.

(** A conversion that raises nothing but what the inner handlers catch. *)
Definition recoverable {A} (m : res A) : Prop :=
  match m with
  | Ok _ => True
  | Raise e => is_value_or_type_error e = true
  end.

Definition zero_numeric_fields (r : row) : row :=
  <["share_count" := PInt 0]> (<["comments_count" := PInt 0]>
    (<["reaction_count" := PInt 0]> (<["virality_score" := PInt 0]> r))).

(** The four conversions of the inner [try], each stored in the row as soon
    as it is made; the row at the point where the block ends, and the
    exception that ended it if any. *)
Definition convert_numeric_fields (r : row) : row * option exn :=
  match float_of (get r "virality_score" (PInt 0)) with
  | Raise e => (r, Some e)
  | Ok v =>
      let r := <["virality_score" := PFloat v]> r in
      match int_of (get r "reaction_count" (PInt 0)) with
      | Raise e => (r, Some e)
      | Ok n =>
          let r := <["reaction_count" := PInt n]> r in
          match int_of (get r "comments_count" (PInt 0)) with
          | Raise e => (r, Some e)
          | Ok n =>
              let r := <["comments_count" := PInt n]> r in
              match int_of (get r "share_count" (PInt 0)) with
              | Raise e => (r, Some e)
              | Ok n => (<["share_count" := PInt n]> r, None)
              end
          end
      end
  end.

(** The body of the loop: the row that is appended to [posts]. *)
Definition normalize_row (r : row) : res row :=
  match convert_numeric_fields r with
  | (r', None) => Ok r'
  | (r', Some e) =>
      if is_value_or_type_error e then Ok (zero_numeric_fields r')
      else Raise e
  end.

Fixpoint mapM {A B} (f : A -> res B) (l : list A) : res (list B) :=
  match l with
  | [] => Ok []
  | x :: l' => y ← f x; ys ← mapM f l'; Ok (y :: ys)
  end.

(** [x['virality_score']] as a sort key. *)
Definition row_score (r : row) : res float :=
  match r !! "virality_score" with
  | Some v => n ← num_of v; Ok (to_float n)
  | None => Raise (KeyError "virality_score")
  end.

(** [posts.sort(key=lambda x: x['virality_score'], reverse=True)] on rows:
    the keys are read first, then the rows are sorted on them. *)
Definition sort_rows_by_score (posts : list row) : res (list row) :=
  keys ← mapM row_score posts;
  let keyed := rev (combine keys posts) in
  Ok (map snd (rev (stable_sort flt keyed))).

Definition get_top_posts (csv : csv_file) (limit : Z) : list row :=
  match csv with
  | None => []
  | Some rows =>
      let attempt : res (list row) :=
        posts ← mapM normalize_row rows;
        posts ← sort_rows_by_score posts;
        Ok (slice_to posts limit) in
      try_except attempt (fun _ => [])
  end.

(** ** [get_action_items] *)

Record action_item : Type := {
  type : string;
  post_routing_id : pyval;
  text : pyval;
  author_name : pyval;
  sentiment : pyval;
  emotion : pyval;
  category : pyval;
  virality_score : num;
  reaction_count : Z;
  comments_count : Z;
  share_count : Z;
  post_url : pyval;
  post_id : pyval;
  keywords : pyval;
  topic_category : pyval;
  comment_url : option pyval;   (* the key exists for comments only *)
  timestamp : pyval
}.

(** The inner [try] of the loop over the post rows: all four conversions or,
    on a [ValueError] or [TypeError], four zeros. *)
Definition post_numbers (r : row) : res (num * Z * Z * Z) :=
  let attempt : res (num * Z * Z * Z) :=
    virality_score ← float_of (get r "virality_score" (PInt 0));
    reaction_count ← int_of (get r "reaction_count" (PInt 0));
    comments_count ← int_of (get r "comments_count" (PInt 0));
    share_count ← int_of (get r "share_count" (PInt 0));
    Ok (NFloat virality_score, reaction_count, comments_count, share_count) in
  match attempt with
  | Ok v => Ok v
  | Raise e =>
      if is_value_or_type_error e then Ok (NInt 0, 0, 0, 0) else Raise e
  end.

Definition post_item (r : row) : res action_item :=
  '(virality_score, reaction_count, comments_count, share_count) ←
    post_numbers r;
  Ok {| type := "post";
        post_routing_id := get r "post_routing_id" (PStr "");
        text := get r "text" (PStr "");
        author_name := get r "author_name" (PStr "");
        sentiment := get r "sentiment" (PStr "");
        emotion := get r "emotion" (PStr "");
        category := get r "category" (PStr "");
        virality_score := virality_score;
        reaction_count := reaction_count;
        comments_count := comments_count;
        share_count := share_count;
        post_url := get r "post_url" (PStr "");
        post_id := get r "post_id" (PStr "");
        keywords := get r "keywords" (PStr "");
        topic_category := get r "topic_category" (PStr "");
        comment_url := None;
        timestamp := PStr "" |}.

(** The inner [try] of the loop over the comment rows. *)
Definition comment_numbers (r : row) : res (Z * Z * Z) :=
  let attempt : res (Z * Z * Z) :=
    likes_count ← int_of (py_or (get r "likes_count" (PInt 0)) (PInt 0));
    comment_replies ← int_of (py_or (get r "comments_count" (PInt 0)) (PInt 0));
    let virality_score := likes_count + comment_replies * 2 in
    Ok (likes_count, comment_replies, virality_score) in
  match attempt with
  | Ok v => Ok v
  | Raise e => if is_value_or_type_error e then Ok (0, 0, 0) else Raise e
  end.

Definition comment_item (r : row) : res action_item :=
  '(likes_count, comment_replies, virality_score) ← comment_numbers r;
  Ok {| type := "comment";
        post_routing_id := get r "post_routing_id" (PStr "");
        text := get r "comment_text" (PStr "");
        author_name := get r "author_name" (PStr "");
        sentiment := PStr "";
        emotion := PStr "";
        category := PStr "";
        virality_score := NInt virality_score;
        reaction_count := likes_count;
        comments_count := comment_replies;
        share_count := 0;
        post_url := get r "post_url" (PStr "");
        post_id := get r "comment_id" (PStr "");
        keywords := PStr "";
        topic_category := PStr "";
        comment_url := Some (get r "comment_url" (PStr ""));
        timestamp := get r "timestamp" (PStr "") |}.

(** The numbers of a post row when all four conversions succeed. *)
Definition parsed_post_numbers (r : row) : option (float * Z * Z * Z) :=
  match float_of (get r "virality_score" (PInt 0)),
        int_of (get r "reaction_count" (PInt 0)),
        int_of (get r "comments_count" (PInt 0)),
        int_of (get r "share_count" (PInt 0)) with
  | Ok v, Ok reactions, Ok comments, Ok shares =>
      Some (v, reactions, comments, shares)
  | _, _, _, _ => None
  end.

(** The numbers of a comment row when both conversions succeed. *)
Definition parsed_comment_numbers (r : row) : option (Z * Z) :=
  match int_of (py_or (get r "likes_count" (PInt 0)) (PInt 0)),
        int_of (py_or (get r "comments_count" (PInt 0)) (PInt 0)) with
  | Ok likes, Ok replies => Some (likes, replies)
  | _, _ => None
  end.

(** The two loops; a missing file leaves the list empty. *)
Definition load_posts (csv : csv_file) : list action_item :=
  match csv with
  | Some rows => collect post_item rows
  | None => []
  end.

Definition load_comments (csv : csv_file) : list action_item :=
  match csv with
  | Some rows => collect comment_item rows
  | None => []
  end.

(** [posts.sort(key=lambda x: x['virality_score'], reverse=True)] *)
Definition rank_posts (posts : list action_item) : list action_item :=
  sort_by flt (fun x => to_float (virality_score x)) true posts.

(** [os.getenv(name, default)] then [int(...)], when the argument is [None]. *)
Definition limit_or_env (arg : option Z) (env : gmap string string)
    (name : string) : res Z :=
  match arg with
  | Some n => Ok n
  | None =>
      int_of (match env !! name with Some s => PStr s | None => PInt 10 end)
  end.

Section Ranking.

(** [datetime.fromisoformat(s).timestamp()]: the instant that [s] denotes,
    in microseconds since the Unix epoch, or [None] where the parse or the
    conversion raises. Which strings parse depends on the version of
    Python, so the parser is a parameter. Python holds the instant as a
    float of seconds; within [2 ^ 33] seconds of the epoch, that is until
    the year 2242, distinct microseconds are distinct floats, and the
    floats compare to each other and to 0 as the microseconds do. *)
Variable iso_timestamp : string -> option Z.

(** The instant that the [try] block of the key obtains: none when the
    timestamp is missing, empty or not a string, or when the parse
    raises. *)
Definition parsed_time (comment : action_item) : option Z :=
  match timestamp comment with
  | PStr s =>
      if truthy (PStr s) then iso_timestamp (replace_char "Z" "+00:00" s)
      else None
  | _ => None
  end.

(** The second component of the sort key: minus the instant, or 0. *)
Definition timestamp_key (comment : action_item) : Z :=
  match parsed_time comment with
  | Some parsed_time => - parsed_time
  | None => 0
  end.

Definition comment_sort_key (comment : action_item) : num * Z :=
  (num_neg (virality_score comment), timestamp_key comment).

Definition num_eqb (a b : num) : bool :=
  match a, b with
  | NInt x, NInt y => x =? y
  | _, _ => SFeqb (to_float a) (to_float b)
  end.

Definition key_ltb : num * Z -> num * Z -> bool :=
  pair_ltb num_eqb num_ltb Z.ltb.

(** The keys of comments: the score is an integer. *)
Definition int_key (k : num * Z) : Prop := exists z, fst k = NInt z.

(** [comments.sort(key=comment_sort_key)] *)
Definition rank_comments (comments : list action_item) : list action_item :=
  sort_by key_ltb comment_sort_key false comments.

Definition get_action_items (env : gmap string string)
    (posts_csv comments_csv : csv_file)
    (posts_limit comments_limit : option Z) : res (list action_item) :=
  posts_limit ← limit_or_env posts_limit env "ACTION_ITEMS_POSTS_LIMIT";
  comments_limit ←
    limit_or_env comments_limit env "ACTION_ITEMS_COMMENTS_LIMIT";
  let posts := load_posts posts_csv in
  let comments := load_comments comments_csv in
  let top_posts := slice_to (rank_posts posts) posts_limit in
  let top_comments := slice_to (rank_comments comments) comments_limit in
  let action_items := top_posts ++ top_comments in
  Ok action_items.

End Ranking.

End Analytics.

(* ===================================================================== *)
(** * [src/json_files/flask_dashboard_api.py]                             *)
(* ===================================================================== *)

Module Api.

Import Analytics.

(** A value of the JSON request body: a scalar, or a list or an object, of
    which only the type matters to [int()]. *)
Inductive jval : Type :=
| JScalar (v : pyval)
| JArray
| JObject.

(** [int(v)] *)
Definition int_of_json (v : jval) : res Z :=
  match v with
  | JScalar s => int_of s
  | JArray | JObject => Raise TypeError
  end.

(** What [request.get_json()] does. *)
Inductive request_json : Type :=
| NotJson                          (* it raises an HTTP error *)
| JsonDict (d : gmap string jval)  (* a JSON object *)
| JsonOther (truth : bool).        (* null, a list, a string, a number *)

(** The global [scraper_status]. *)
Record scraper_status : Type := {
  status : string;                 (* 'idle', 'running', 'completed', 'failed' *)
  last_run : pyval;
  duration_seconds : Z;
  posts_scraped : Z;
  comments_scraped : Z
}.

Inductive body : Type :=
| Error (message : string)
| Running (prime_bank_posts other_banks_posts : Z).

(** The response of [reanalyze], and the arguments of the scraper thread
    that it started, if it started one. *)
Record outcome : Type := {
  code : Z;
  reply : body;
  started : option (Z * Z)
}.

Definition refuse (c : Z) (message : string) : outcome :=
  {| code := c; reply := Error message; started := None |}.

Definition invalid_request : string :=
  let q := String (ascii_of_nat 34) EmptyString in
  "Invalid request. Expected {" +:+ q +:+ "content" +:+ q +:+ ": "
  +:+ q +:+ "reanalyze" +:+ q +:+ "}".

(** [d.get(key, default)] *)
Definition json_get (d : gmap string jval) (key : string) (default : jval)
  : jval :=
  match d !! key with
  | Some v => v
  | None => default
  end.

Definition is_reanalyze (v : option jval) : bool :=
  match v with
  | Some (JScalar (PStr s)) => String.eqb s "reanalyze"
  | _ => false
  end.

(** The validation block:
    [try: int(...); int(...); range checks  except (ValueError, TypeError)]. *)
Definition validate_counts (prime_bank_posts other_banks_posts : jval)
  : res (outcome + Z * Z) :=
  let attempt : res (outcome + Z * Z) :=
    prime_bank_posts ← int_of_json prime_bank_posts;
    other_banks_posts ← int_of_json other_banks_posts;
    if (prime_bank_posts <? 1) || (200 <? prime_bank_posts)
    then Ok (inl (refuse 400 "prime_bank_posts must be between 1 and 200"))
    else if (other_banks_posts <? 1) || (200 <? other_banks_posts)
    then Ok (inl (refuse 400 "other_banks_posts must be between 1 and 200"))
    else Ok (inr (prime_bank_posts, other_banks_posts)) in
  match attempt with
  | Ok v => Ok v
  | Raise e =>
      if is_value_or_type_error e
      then Ok (inl (refuse 400
             "prime_bank_posts and other_banks_posts must be integers"))
      else Raise e
  end.

(** [POST /api/reanalyze] *)
Definition reanalyze (scraper : scraper_status) (request : request_json)
  : outcome :=
  let attempt : res outcome :=
    match request with
    | NotJson => Raise (HTTPException 400)
    | JsonOther false => Ok (refuse 400 invalid_request)
    | JsonOther true => Raise AttributeError
    | JsonDict request_data =>
        if (size request_data =? 0)%nat
           || negb (is_reanalyze (request_data !! "content"))
        then Ok (refuse 400 invalid_request)
        else if String.eqb (status scraper) "running"
        then Ok (refuse 400 "Scraper is already running")
        else
          let prime_bank_posts :=
            json_get request_data "prime_bank_posts" (JScalar (PInt 20)) in
          let other_banks_posts :=
            json_get request_data "other_banks_posts" (JScalar (PInt 15)) in
          checked ← validate_counts prime_bank_posts other_banks_posts;
          match checked with
          | inl refusal => Ok refusal
          | inr (prime_bank_posts, other_banks_posts) =>
              Ok {| code := 200;
                    reply := Running prime_bank_posts other_banks_posts;
                    started := Some (prime_bank_posts, other_banks_posts) |}
          end
    end in
  try_except attempt (fun _ => refuse 500 "Internal server error").

(** ** The comments of the legacy [POST /api/full_data] *)

Record comment_data : Type := {
  whole_row : row;
  post_routing_id : pyval;
  comment_text : pyval;
  comment_author : pyval;
  comment_time : pyval;
  comment_likes : Z;
  comment_replies : Z;
  comment_url : pyval;
  post_url : pyval;
  comment_id : pyval;
  virality_score : Z
}.

(** The body of the loop over the comment rows. *)
Definition comment_data_of (r : row) : res comment_data :=
  likes_count ← int_of (py_or (get r "likes_count" (PInt 0)) (PInt 0));
  comments_count ← int_of (py_or (get r "comments_count" (PInt 0)) (PInt 0));
  let virality_score := likes_count + comments_count * 2 in
  Ok {| whole_row := r;
        post_routing_id := get r "post_routing_id" (PStr "");
        comment_text := get r "comment_text" (PStr "");
        comment_author := get r "author_name" (PStr "");
        comment_time := get r "timestamp" (PStr "");
        comment_likes := likes_count;
        comment_replies := comments_count;
        comment_url := get r "comment_url" (PStr "");
        post_url := get r "post_url" (PStr "");
        comment_id := get r "comment_id" (PStr "");
        virality_score := virality_score |}.

(** The loop runs inside a [try] that logs the exception: the comments read
    before it stay in [comments_data]. *)
Definition comments_data (csv : csv_file) : list comment_data :=
  match csv with
  | Some rows => collect comment_data_of rows
  | None => []
  end.

End Api.

(* ===================================================================== *)
(** * [src/app/main.py]: the handlers that read [DASHBOARD_DATA]          *)
(* ===================================================================== *)

Module Main.

(** ** The object store

    [json.load] builds dicts and lists that the handlers share by
    reference: a value is a scalar or the address of an object, and a dict
    keeps its keys in insertion order. *)

Definition loc : Type := positive.

Inductive val : Type :=
| Lit (v : pyval)
| Ref (l : loc).

Inductive obj : Type :=
| Dict (entries : list (string * val))
| List (elems : list val).

Record world : Type := {
  store : gmap loc obj;
  ticks : nat              (* how often the clock has been read *)
}.

(** A computation reads and writes the store and may raise; what it wrote
    before raising stays written. *)
Definition M (A : Type) : Type := world -> res A * world.

#[global] Instance M_ret : MRet M := fun A a w => (Ok a, w).
#[global] Instance M_bind : MBind M := fun A B k m w =>
  match m w with
  | (Ok a, w') => k a w'
  | (Raise e, w') => (Raise e, w')
  end.

Definition raise {A} (e : exn) : M A := fun w => (Raise e, w).

(** [try: m except Exception as e: h(e)] *)
Definition catch {A} (m : M A) (h : exn -> M A) : M A := fun w =>
  match m w with
  | (Ok a, w') => (Ok a, w')
  | (Raise e, w') => h e w'
  end.

(** A new object, at an address that is not in use. *)
Definition alloc (o : obj) : M loc := fun w =>
  let l := fresh (dom (store w)) in
  (Ok l, {| store := <[l := o]> (store w); ticks := ticks w |}).

Definition deref (l : loc) : M obj := fun w =>
  match store w !! l with
  | Some o => (Ok o, w)
  | None => (Raise RuntimeError, w)
  end.

Definition assign (l : loc) (o : obj) : M unit := fun w =>
  (Ok tt, {| store := <[l := o]> (store w); ticks := ticks w |}).

(** [m] leaves every object of [h0] as it is, and its result satisfies
    [Q]. *)
Definition keeps {A} (h0 : gmap loc obj) (m : M A) (Q : A -> Prop) : Prop :=
  forall w,
    h0 ⊆ store w ->
    h0 ⊆ store (snd (m w)) /\ forall a, fst (m w) = Ok a -> Q a.

(** A value that does not point into [h0]. *)
Definition outside (h0 : gmap loc obj) (v : val) : Prop :=
  match v with
  | Ref l => l ∉ dom h0
  | Lit _ => True
  end.

(** ** Dicts in insertion order *)

Fixpoint entry (key : string) (entries : list (string * val)) : option val :=
  match entries with
  | [] => None
  | (k, v) :: rest => if String.eqb k key then Some v else entry key rest
  end.

Fixpoint set_entry (key : string) (x : val) (entries : list (string * val))
  : list (string * val) :=
  match entries with
  | [] => [(key, x)]
  | (k, v) :: rest =>
      if String.eqb k key then (k, x) :: rest
      else (k, v) :: set_entry key x rest
  end.

(** ** Operations on values *)

(** [v[key]] for a string key. *)
Definition getitem (v : val) (key : string) : M val :=
  match v with
  | Lit _ => raise TypeError
  | Ref l =>
      o ← deref l;
      match o with
      | Dict entries =>
          match entry key entries with
          | Some x => mret x
          | None => raise (KeyError key)
          end
      | List _ => raise TypeError
      end
  end.

(** The dict that [v.get] is looked up on; other objects have no [get]. *)
Definition as_dict (v : val) : M (list (string * val)) :=
  match v with
  | Lit _ => raise AttributeError
  | Ref l =>
      o ← deref l;
      match o with
      | Dict entries => mret entries
      | List _ => raise AttributeError
      end
  end.

(** [v.get(key, default)] *)
Definition get_method (v : val) (key : string) (default : val) : M val :=
  entries ← as_dict v;
  mret (match entry key entries with Some x => x | None => default end).

(** [v.lower()] *)
Definition lower_val (v : val) : M string :=
  match v with
  | Lit (PStr s) => mret (lower s)
  | _ => raise AttributeError
  end.

Fixpoint chars (s : string) : list val :=
  match s with
  | EmptyString => []
  | String c s' => Lit (PStr (String c EmptyString)) :: chars s'
  end.

(** The elements that [for item in v] visits. *)
Definition iterate (v : val) : M (list val) :=
  match v with
  | Lit (PStr s) => mret (chars s)
  | Lit _ => raise TypeError
  | Ref l =>
      o ← deref l;
      match o with
      | List elems => mret elems
      | Dict entries => mret (map (fun kv => Lit (PStr (fst kv))) entries)
      end
  end.

(** [len(v)] *)
Definition len (v : val) : M Z :=
  match v with
  | Lit (PStr s) => mret (Z.of_nat (String.length s))
  | Lit _ => raise TypeError
  | Ref l =>
      o ← deref l;
      match o with
      | List elems => mret (Z.of_nat (length elems))
      | Dict entries => mret (Z.of_nat (length entries))
      end
  end.

Definition string_of_chars (l : list ascii) : string :=
  fold_right String EmptyString l.

(** [v[:limit]]: a new list, or a new string. *)
Definition take (v : val) (limit : Z) : M val :=
  match v with
  | Lit (PStr s) =>
      mret (Lit (PStr (string_of_chars
                         (slice_to (list_ascii_of_string s) limit))))
  | Lit _ => raise TypeError
  | Ref l =>
      o ← deref l;
      match o with
      | List elems => l' ← alloc (List (slice_to elems limit)); mret (Ref l')
      | Dict _ => raise TypeError
      end
  end.

(** [v.copy()]: a new object with the same entries. *)
Definition copy (v : val) : M val :=
  match v with
  | Lit _ => raise AttributeError
  | Ref l => o ← deref l; l' ← alloc o; mret (Ref l')
  end.

(** [v[key] = x] *)
Definition setitem (v : val) (key : string) (x : val) : M unit :=
  match v with
  | Lit _ => raise TypeError
  | Ref l =>
      o ← deref l;
      match o with
      | Dict entries => assign l (Dict (set_entry key x entries))
      | List _ => raise TypeError
      end
  end.

(** [results.append(x)] on a list object. *)
Definition append (l : loc) (x : val) : M unit :=
  o ← deref l;
  match o with
  | List elems => assign l (List (elems ++ [x]))
  | Dict _ => raise AttributeError
  end.

Fixpoint filterM {A} (p : A -> M bool) (l : list A) : M (list A) :=
  match l with
  | [] => mret []
  | x :: l' =>
      keep ← p x;
      rest ← filterM p l';
      mret (if keep : bool then x :: rest else rest)
  end.

Fixpoint forM {A} (f : A -> M unit) (l : list A) : M unit :=
  match l with
  | [] => mret tt
  | x :: l' => _ ← f x; forM f l'
  end.

Fixpoint path_get (v : val) (path : list string) : M val :=
  match path with
  | [] => mret v
  | key :: path' => x ← getitem v key; path_get x path'
  end.

(** ** Requests and responses *)

(** The query string; [args.get(key, default, type=int)] gives the default
    when the parameter is absent or is not an integer. *)
Abbreviation query := (gmap string string).

Definition arg_int (args : query) (key : string) (default : option Z)
  : option Z :=
  match args !! key with
  | None => default
  | Some s =>
      match int_of_str s with
      | Ok n => Some n
      | Raise _ => default
      end
  end.

(** [if s:] for an optional string parameter. *)
Definition given (s : option string) : bool :=
  match s with
  | Some s => negb (String.eqb s EmptyString)
  | None => false
  end.

(** [if limit:] for an optional integer. *)
Definition nonzero (limit : option Z) : bool :=
  match limit with
  | Some n => negb (n =? 0)
  | None => false
  end.

(** The status code and the dict that [jsonify] serialises. *)
Record response : Type := {
  code : Z;
  payload : list (string * val)
}.

Inductive section : Type :=
| AiOverview | Complaints | Inquiries | Praise | Suggestions
| BankMentions | Kpi | Geolocation | ScrapingStatus
| SentimentAnalysis | Emotions | Categories | Sentiments.

Inductive request : Type :=
| Health
| Dashboard
| ActionItems (args : query)
| ActionItemById (post_id : string)
| Part (s : section)
| TopPosts (args : query)
| Summary
| Search (args : query).

Section Handlers.

(** The document loaded at start-up, and the text of the clock at each
    reading. *)
Variable DASHBOARD_DATA : val.
Variable isoformat : nat -> string.

Definition get_current_timestamp : M val := fun w =>
  (Ok (Lit (PStr (isoformat (ticks w)))),
   {| store := store w; ticks := S (ticks w) |}).

Definition success (fields : list (string * val)) : M response :=
  ts ← get_current_timestamp;
  mret {| code := 200;
          payload := ("success", Lit (PBool true)) :: fields
                     ++ [("timestamp", ts)] |}.

Definition failure (c : Z) (error : string) : M response :=
  ts ← get_current_timestamp;
  mret {| code := c;
          payload := [("success", Lit (PBool false));
                      ("error", Lit (PStr error));
                      ("timestamp", ts)] |}.

(** The outer [try ... except Exception as e] of every handler. *)
Definition guarded (m : M response) : M response :=
  catch m (fun e => failure 500 (str_of_exn e)).

Definition health_check : M response :=
  ts ← get_current_timestamp;
  mret {| code := 200;
          payload := [("status", Lit (PStr "API is running"));
                      ("timestamp", ts);
                      ("version", Lit (PStr "1.0.0"))] |}.

Definition get_dashboard_data : M response :=
  guarded (
    response_data ← copy DASHBOARD_DATA;
    ts ← get_current_timestamp;
    _ ← setitem response_data "last_updated" ts;
    success [("data", response_data)]).

(** [[item for item in items if item.get(field, '').lower() == wanted]] *)
Definition filter_by (field wanted : string) (items : val) : M val :=
  elems ← iterate items;
  kept ← filterM (fun item =>
                    x ← get_method item field (Lit (PStr ""));
                    s ← lower_val x;
                    mret (String.eqb s wanted)) elems;
  l ← alloc (List kept);
  mret (Ref l).

Definition get_action_items (args : query) : M response :=
  guarded (
    let category := args !! "category" in
    let sentiment := args !! "sentiment" in
    let limit := arg_int args "limit" None in
    action_items ← getitem DASHBOARD_DATA "action_items";
    action_items ←
      (if given category
       then filter_by "category" (lower (default "" category)) action_items
       else mret action_items);
    action_items ←
      (if given sentiment
       then filter_by "sentiment" (lower (default "" sentiment)) action_items
       else mret action_items);
    action_items ←
      (if nonzero limit then take action_items (default 0 limit)
       else mret action_items);
    count ← len action_items;
    success [("data", action_items); ("count", Lit (PInt count))]).

(** [item['post_id'] == post_id] *)
Definition has_id (post_id : string) (item : val) : M bool :=
  x ← getitem item "post_id";
  mret (match x with
        | Lit (PStr s) => String.eqb s post_id
        | _ => false
        end).

Fixpoint first_with_id (post_id : string) (items : list val)
  : M (option val) :=
  match items with
  | [] => mret None
  | item :: rest =>
      found ← has_id post_id item;
      if found : bool then mret (Some item) else first_with_id post_id rest
  end.

Definition get_action_item_by_id (post_id : string) : M response :=
  guarded (
    action_items ← getitem DASHBOARD_DATA "action_items";
    elems ← iterate action_items;
    action_item ← first_with_id post_id elems;
    match action_item with
    | None => failure 404 "Action item not found"
    | Some item => success [("data", item)]
    end).

(** The routes that return one part of the document, some of them wrapped
    in a dict of one key. *)
Definition section_path (s : section) : list string * option string :=
  match s with
  | AiOverview => (["ai_overview"], None)
  | Complaints => (["ai_overview"; "complaints"], Some "complaints")
  | Inquiries => (["ai_overview"; "inquiry"], Some "inquiry")
  | Praise => (["ai_overview"; "praise"], Some "praise")
  | Suggestions => (["ai_overview"; "suggestions"], Some "suggestions")
  | BankMentions => (["bank_mentions"], None)
  | Kpi => (["kpi"], None)
  | Geolocation => (["post_geolocation"], None)
  | ScrapingStatus => (["scraping_status"], None)
  | SentimentAnalysis => (["sentiment_analysis"], None)
  | Emotions => (["sentiment_analysis"; "emotion_distribution"], None)
  | Categories => (["sentiment_analysis"; "post_categories"], None)
  | Sentiments => (["sentiment_analysis"; "sentiment_distribution"], None)
  end.

Definition get_section (s : section) : M response :=
  guarded (
    let '(path, wrap) := section_path s in
    x ← path_get DASHBOARD_DATA path;
    data ← match wrap with
           | Some key => l ← alloc (Dict [(key, x)]); mret (Ref l)
           | None => mret x
           end;
    success [("data", data)]).

Definition get_top_posts (args : query) : M response :=
  guarded (
    let limit := arg_int args "limit" (Some 10) in
    analysis ← getitem DASHBOARD_DATA "sentiment_analysis";
    _ ← as_dict analysis;
    empty ← alloc (List []);
    top_posts ← get_method analysis "top_posts" (Ref empty);
    top_posts ←
      (if nonzero limit then take top_posts (default 0 limit)
       else mret top_posts);
    count ← len top_posts;
    success [("data", top_posts); ("count", Lit (PInt count))]).

(** [int(x[1].replace('%', ''))] for an item of [d.items()]. *)
Definition percent_key (kv : string * val) : M Z :=
  match snd kv with
  | Lit (PStr s) =>
      match int_of_str (replace_char "%" "" s) with
      | Ok n => mret n
      | Raise e => raise e
      end
  | _ => raise AttributeError
  end.

(** [max(items, key=percent_key)] after its first item: the first of the
    greatest. *)
Fixpoint max_from (best : string * val) (best_key : Z)
    (items : list (string * val)) : M (string * val) :=
  match items with
  | [] => mret best
  | kv :: rest =>
      k ← percent_key kv;
      if best_key <? k then max_from kv k rest
      else max_from best best_key rest
  end.

(** [max(v.items(), key=...)], as the pair that [jsonify] writes. *)
Definition max_item (v : val) : M val :=
  entries ← as_dict v;
  match entries with
  | [] => raise (ValueError "max() arg is an empty sequence")
  | kv :: rest =>
      k ← percent_key kv;
      '(key, x) ← max_from kv k rest;
      l ← alloc (List [Lit (PStr key); x]);
      mret (Ref l)
  end.

Definition get_dashboard_summary : M response :=
  guarded (
    action_items ← getitem DASHBOARD_DATA "action_items";
    total_action_items ← len action_items;
    total_bank_mentions ←
      path_get DASHBOARD_DATA ["bank_mentions"; "total_bank_mentions"];
    prime_bank_mentions ←
      path_get DASHBOARD_DATA ["bank_mentions"; "prime_bank"];
    sentiment_score ←
      path_get DASHBOARD_DATA ["kpi"; "bank_sentiment_score"];
    posts_scraped ←
      path_get DASHBOARD_DATA ["scraping_status"; "posts_scraped"];
    scraping_status ←
      path_get DASHBOARD_DATA ["scraping_status"; "status"];
    emotions ←
      path_get DASHBOARD_DATA ["sentiment_analysis"; "emotion_distribution"];
    top_emotion ← max_item emotions;
    sentiments ←
      path_get DASHBOARD_DATA
        ["sentiment_analysis"; "sentiment_distribution"];
    dominant_sentiment ← max_item sentiments;
    summary ← alloc (Dict [
      ("total_action_items", Lit (PInt total_action_items));
      ("total_bank_mentions", total_bank_mentions);
      ("prime_bank_mentions", prime_bank_mentions);
      ("sentiment_score", sentiment_score);
      ("posts_scraped", posts_scraped);
      ("scraping_status", scraping_status);
      ("top_emotion", top_emotion);
      ("dominant_sentiment", dominant_sentiment)]);
    success [("data", Ref summary)]).

(** [query in item.get(field, '').lower()] *)
Definition field_contains (q : string) (item : val) (field : string)
  : M bool :=
  x ← get_method item field (Lit (PStr ""));
  s ← lower_val x;
  mret (contains q s).

(** The condition of the loop, with the short circuit of [or]. *)
Definition matches (q : string) (item : val) : M bool :=
  in_text ← field_contains q item "text";
  if in_text : bool then mret true
  else
    in_keywords ← field_contains q item "keywords";
    if in_keywords : bool then mret true
    else field_contains q item "author_name".

Definition search_posts (args : query) : M response :=
  guarded (
    let q := lower (default "" (args !! "q")) in
    if String.eqb q EmptyString
    then failure 400 "Search query is required"
    else
      results ← alloc (List []);
      action_items ← getitem DASHBOARD_DATA "action_items";
      elems ← iterate action_items;
      _ ← forM (fun item =>
                  hit ← matches q item;
                  if hit : bool then append results item else mret tt) elems;
      count ← len (Ref results);
      success [("data", Ref results); ("count", Lit (PInt count));
               ("query", Lit (PStr q))]).

Definition handle (r : request) : M response :=
  match r with
  | Health => health_check
  | Dashboard => get_dashboard_data
  | ActionItems args => get_action_items args
  | ActionItemById post_id => get_action_item_by_id post_id
  | Part s => get_section s
  | TopPosts args => get_top_posts args
  | Summary => get_dashboard_summary
  | Search args => search_posts args
  end.

(** The requests of a session, served one after the other. *)
Fixpoint serve (rs : list request) (w : world) : list response * world :=
  match rs with
  | [] => ([], w)
  | r :: rs' =>
      let '(answer, w') := handle r w in
      let '(answers, w'') := serve rs' w' in
      (match answer with Ok a => a :: answers | Raise _ => answers end, w'')
  end.

End Handlers.

End Main.

(* ===================================================================== *)
(** * Sample data                                                         *)
(* ===================================================================== *)

Module Samples.

Import Analytics.

(** [n] distinct items, numbered from [first]. *)
Definition numbered (n : nat) (first : Z) : list Z :=
  map (fun i => first + Z.of_nat i) (seq 0 n).

(** The collections of the pagination example: 120 posts, 30 comments. *)
Definition posts_120 : list Z := numbered 120 0.
Definition comments_30 : list Z := numbered 30 1000.

(** ** A parser for the timestamps of the samples

    The form [YYYY-MM-DDTHH:MM:SS+00:00], which every version of
    [datetime.fromisoformat] reads as that instant of UTC. *)

Fixpoint plain_digits (s : string) (acc : Z) : option Z :=
  match s with
  | EmptyString => Some acc
  | String c s' =>
      if is_digit c then plain_digits s' (10 * acc + digit_value c) else None
  end.

Definition field (s : string) (start len : nat) : option Z :=
  let part := String.substring start len s in
  if (String.length part =? len)%nat then plain_digits part 0 else None.

(** Days from 1970-01-01 to the given day of the proleptic Gregorian
    calendar. *)
Definition days_from_civil (y m d : Z) : Z :=
  let y := if m <=? 2 then y - 1 else y in
  let era := y / 400 in
  let yoe := y - era * 400 in
  let mp := (m + 9) mod 12 in
  let doy := (153 * mp + 2) / 5 + d - 1 in
  let doe := yoe * 365 + yoe / 4 - yoe / 100 + doy in
  era * 146097 + doe - 719468.

Definition utc_timestamp (s : string) : option Z :=
  if String.eqb (String.substring 4 1 s) "-"
     && String.eqb (String.substring 7 1 s) "-"
     && String.eqb (String.substring 10 1 s) "T"
     && String.eqb (String.substring 13 1 s) ":"
     && String.eqb (String.substring 16 1 s) ":"
     && String.eqb (String.substring 19 6 s) "+00:00"
     && (String.length s =? 25)%nat
  then
    y ← field s 0 4; m ← field s 5 2; d ← field s 8 2;
    hh ← field s 11 2; mm ← field s 14 2; ss ← field s 17 2;
    if (1 <=? y) && (1 <=? m) && (m <=? 12) && (1 <=? d) && (d <=? 31)
       && (hh <? 24) && (mm <? 60) && (ss <? 60)
    then Some ((((days_from_civil y m d * 24 + hh) * 60 + mm) * 60 + ss)
               * 1000000)
    else None
  else None.

(** Rows of the two CSV files. *)
Definition comment_row (id : string) (likes replies time : string) : row :=
  <["comment_id" := PStr id]> (<["likes_count" := PStr likes]>
    (<["comments_count" := PStr replies]> {["timestamp" := PStr time]})).

Definition post_row (id : string) (virality reactions comments shares : string)
  : row :=
  <["post_id" := PStr id]> (<["virality_score" := PStr virality]>
    (<["reaction_count" := PStr reactions]>
      (<["comments_count" := PStr comments]>
        {["share_count" := PStr shares]}))).

(** Comments of equal score: two of March 2024, one of 1969 and one
    without a timestamp. *)
Definition march_1 : row := comment_row "old" "1" "0" "2024-03-01T12:00:00Z".
Definition march_2 : row := comment_row "new" "1" "0" "2024-03-02T12:00:00Z".
Definition dated_1969 : row :=
  comment_row "dated" "1" "0" "1969-12-31T23:59:59Z".
Definition undated : row := comment_row "none" "1" "0" "".

(** A post row whose share count is not a number, and a clean one. *)
Definition bad_shares : row := post_row "p1" "5.0" "3" "7" "x".
Definition clean_post : row := post_row "p2" "2.5" "1" "0" "4".

(** Two posts and two comments, the comments with the higher scores. *)
Definition two_posts : csv_file :=
  Some [post_row "p1" "1.5" "3" "0" "0"; post_row "p2" "4.25" "1" "1" "1"].
Definition two_comments : csv_file :=
  Some [comment_row "c1" "9" "2" "2024-03-01T12:00:00Z";
        comment_row "c2" "50" "0" ""].

(** A small dashboard document in the store: two action items and eleven
    top posts. *)
Definition sample_store : gmap Main.loc Main.obj :=
  let str s := Main.Lit (PStr s) in
  list_to_map [
    (1%positive, Main.Dict [("last_updated", str "2025-01-01T00:00:00");
                            ("action_items", Main.Ref 2%positive);
                            ("sentiment_analysis", Main.Ref 3%positive)]);
    (2%positive, Main.List [Main.Ref 4%positive; Main.Ref 5%positive]);
    (3%positive, Main.Dict [("top_posts", Main.Ref 6%positive)]);
    (4%positive, Main.Dict [("post_id", str "a"); ("category", str "Complaint");
                            ("sentiment", str "Negative");
                            ("text", str "Card blocked")]);
    (5%positive, Main.Dict [("post_id", str "b"); ("category", str "praise");
                            ("sentiment", str "positive");
                            ("text", str "Great service")]);
    (6%positive, Main.List (map (fun n => Main.Lit (PInt n)) (numbered 11 1)))].

Definition sample_world : Main.world :=
  {| Main.store := sample_store; Main.ticks := 0 |}.

Definition sample_clock (n : nat) : string := str_of_int (Z.of_nat n).

(** The query string [?limit=0], and a session of GET requests. *)
Definition limit_zero : gmap string string := {["limit" := "0"]}.

Definition session : list Main.request :=
  [Main.Dashboard; Main.ActionItems {["category" := "complaint"]};
   Main.Search {["q" := "card"]}; Main.TopPosts ∅; Main.Summary].

(** The scraper status at start-up. *)
Definition idle : Api.scraper_status :=
  {| Api.status := "idle"; Api.last_run := PNone; Api.duration_seconds := 0;
     Api.posts_scraped := 0; Api.comments_scraped := 0 |}.

(** The body [{"content": "reanalyze", "prime_bank_posts": v}]. *)
Definition reanalyze_with (v : pyval) : Api.request_json :=
  Api.JsonDict (<["content" := Api.JScalar (PStr "reanalyze")]>
                  {["prime_bank_posts" := Api.JScalar v]}).

End Samples.

(* ===================================================================== *)
(** * A client that walks the pages of [src/app/main.py]                  *)
(* ===================================================================== *)

Module Client.

(** The page numbers [1], ..., [n] as a client writes them in the URL. *)
Definition page_numbers (n : nat) : list string :=
  map (fun i => str_of_int (Z.of_nat i)) (seq 1 n).

(** The items of the [n] first pages of a view, in the order received. *)
Definition walk {item} (view : string -> list item) (n : nat) : list item :=
  concat (map view (page_numbers n)).

(** The items of a page of [get_full_posts] or [get_full_comments]; none
    when the request is refused. *)
Definition page_items {item} (r : res (list item * Z * Z)) : list item :=
  match r with
  | Ok (items, _, _) => items
  | Raise _ => []
  end.

End Client.

(* ===================================================================== *)
(** * Reading the rankings of [dashboard_analytics.py]                    *)
(* ===================================================================== *)

Module Ranked.

Import Analytics.

(** The posts whose score compares equal to [s]. *)
Definition tied_post (s : float) (p : action_item) : bool :=
  SFeqb (to_float (virality_score p)) s.

(** The comments whose sort key is [(- score, t)]. *)
Definition tied_comment (iso_timestamp : string -> option Z) (score t : Z)
    (c : action_item) : bool :=
  match virality_score c with
  | NInt x => (x =? score) && (timestamp_key iso_timestamp c =? t)
  | NFloat _ => false
  end.

(** The sort key of a row of [get_top_posts] where it has one. *)
Definition score_of (r : row) : float :=
  match row_score r with
  | Ok f => f
  | Raise _ => S754_nan
  end.

Definition tied_row (s : float) (r : row) : bool := SFeqb (score_of r) s.

(** A row whose four numeric columns hold numbers. *)
Definition numeric_fields (r : row) : Prop :=
  (exists n, r !! "virality_score" = Some (pyval_of_num n))
  /\ (exists n, r !! "reaction_count" = Some (PInt n))
  /\ (exists n, r !! "comments_count" = Some (PInt n))
  /\ (exists n, r !! "share_count" = Some (PInt n)).

End Ranked.

(* ===================================================================== *)
(** * More sample data                                                    *)
(* ===================================================================== *)

Module Cases.

Import Analytics Samples.

(** Three posts of which the first and the last have the same score. *)
Definition tied_posts : csv_file :=
  Some [post_row "a" "2.5" "1" "0" "0"; post_row "b" "7" "0" "0" "0";
        post_row "c" "2.5" "4" "1" "0"].

(** Three comments of score 5, two of them without a timestamp. *)
Definition tied_comments : csv_file :=
  Some [comment_row "x" "5" "0" ""; comment_row "y" "1" "2" "2024-03-01T12:00:00Z";
        comment_row "z" "3" "1" ""].

(** A document with an action item whose category is [null]. *)
Definition null_category_world : Main.world :=
  let str s := Main.Lit (PStr s) in
  {| Main.store :=
       list_to_map [
         (1%positive, Main.Dict [("action_items", Main.Ref 2%positive)]);
         (2%positive, Main.List [Main.Ref 3%positive; Main.Ref 4%positive]);
         (3%positive, Main.Dict [("post_id", str "a");
                                 ("category", str "Complaint")]);
         (4%positive, Main.Dict [("post_id", str "b");
                                 ("category", Main.Lit PNone)])];
     Main.ticks := 0 |}.

(** A document whose sentiment distribution is that of a CSV file without
    rows, and whose emotion distribution has two emotions with the largest
    share. *)
Definition distributions_world : Main.world :=
  let str s := Main.Lit (PStr s) in
  {| Main.store :=
       list_to_map [
         (1%positive, Main.Dict [("action_items", Main.Ref 2%positive);
                                 ("bank_mentions", Main.Ref 6%positive);
                                 ("kpi", Main.Ref 7%positive);
                                 ("scraping_status", Main.Ref 8%positive);
                                 ("sentiment_analysis", Main.Ref 3%positive)]);
         (2%positive, Main.List []);
         (3%positive, Main.Dict [("emotion_distribution", Main.Ref 5%positive);
                                 ("sentiment_distribution",
                                  Main.Ref 4%positive)]);
         (4%positive, Main.Dict []);
         (5%positive, Main.Dict [("neutral", str "20%"); ("joy", str "40%");
                                 ("frustration", str "40%")]);
         (6%positive, Main.Dict [("total_bank_mentions", Main.Lit (PInt 0));
                                 ("prime_bank", Main.Lit (PInt 0))]);
         (7%positive, Main.Dict [("bank_sentiment_score",
                                  Main.Lit (PInt 0))]);
         (8%positive, Main.Dict [("posts_scraped", Main.Lit (PInt 0));
                                 ("status", str "completed")])];
     Main.ticks := 0 |}.

(** Posts with a category, a sentiment and an emotion. *)
Definition labelled (category sentiment emotion : string) : row :=
  <["category" := PStr category]> (<["sentiment" := PStr sentiment]>
    (<["emotion" := PStr emotion]> {["virality_score" := PStr "1.5"]})).

Definition labelled_posts : list row :=
  [labelled "Complaint" "Negative" "frustration";
   labelled "praise" "positive" "Joy";
   labelled "complaint" "NEGATIVE" "anger"].

(** A row that the reader cut short: it has no cell for the category. *)
Definition short_row : row :=
  <["category" := PNone]> (<["sentiment" := PNone]> {["emotion" := PNone]}).

(** A complete document of which the emotions have two largest shares. *)
Definition summary_world : Main.world :=
  let str s := Main.Lit (PStr s) in
  {| Main.store :=
       list_to_map [
         (1%positive, Main.Dict [("action_items", Main.Ref 2%positive);
                                 ("bank_mentions", Main.Ref 6%positive);
                                 ("kpi", Main.Ref 7%positive);
                                 ("scraping_status", Main.Ref 8%positive);
                                 ("sentiment_analysis", Main.Ref 3%positive)]);
         (2%positive, Main.List [str "item"]);
         (3%positive, Main.Dict [("emotion_distribution", Main.Ref 5%positive);
                                 ("sentiment_distribution",
                                  Main.Ref 4%positive)]);
         (4%positive, Main.Dict [("positive", str "33%");
                                 ("negative", str "67%");
                                 ("neutral", str "0%")]);
         (5%positive, Main.Dict [("neutral", str "20%"); ("joy", str "40%");
                                 ("frustration", str "40%")]);
         (6%positive, Main.Dict [("total_bank_mentions", Main.Lit (PInt 9));
                                 ("prime_bank", Main.Lit (PInt 4))]);
         (7%positive, Main.Dict [("bank_sentiment_score",
                                  Main.Lit (PInt (-1)))]);
         (8%positive, Main.Dict [("posts_scraped", Main.Lit (PInt 3));
                                 ("status", str "completed")])];
     Main.ticks := 0 |}.

End Cases.

(* ===================================================================== *)
(** * Reading the store of [src/app/main.py]                              *)
(* ===================================================================== *)

Module Views.

Import Main.

(** [item.get(field, '').lower()] in the store [h], where it is defined:
    on a dict whose field, if it has one, is a string. *)
Definition field_text (h : gmap loc obj) (field : string) (item : val)
  : option string :=
  match item with
  | Ref l =>
      match h !! l with
      | Some (Dict entries) =>
          match entry field entries with
          | Some (Lit (PStr s)) => Some (lower s)
          | Some _ => None
          | None => Some (lower "")
          end
      | _ => None
      end
  | Lit _ => None
  end.

(** The lowered field is [wanted]. *)
Definition field_is (h : gmap loc obj) (field wanted : string) (item : val)
  : bool :=
  match field_text h field item with
  | Some s => String.eqb s wanted
  | None => false
  end.

(** The lowered field contains [q]. *)
Definition field_has (h : gmap loc obj) (q field : string) (item : val)
  : bool :=
  match field_text h field item with
  | Some s => contains q s
  | None => false
  end.

(** The text, the keywords or the author of the item contain [q]. *)
Definition hit (h : gmap loc obj) (q : string) (item : val) : bool :=
  field_has h q "text" item || field_has h q "keywords" item
  || field_has h q "author_name" item.

(** An item that has text in the three fields that the search reads. *)
Definition searchable (h : gmap loc obj) (item : val) : Prop :=
  is_Some (field_text h "text" item)
  /\ is_Some (field_text h "keywords" item)
  /\ is_Some (field_text h "author_name" item).

(** The elements of the list that [v] points to. *)
Definition list_of (h : gmap loc obj) (v : val) : option (list val) :=
  match v with
  | Ref l =>
      match h !! l with
      | Some (List elems) => Some elems
      | _ => None
      end
  | Lit _ => None
  end.

(** The value of [item['post_id']], where the item is a dict with that
    key. *)
Definition post_id_of (h : gmap loc obj) (item : val) : option val :=
  match item with
  | Ref l =>
      match h !! l with
      | Some (Dict entries) => entry "post_id" entries
      | _ => None
      end
  | Lit _ => None
  end.

Definition id_is (h : gmap loc obj) (post_id : string) (item : val) : bool :=
  match post_id_of h item with
  | Some (Lit (PStr s)) => String.eqb s post_id
  | _ => false
  end.

(** The number that the summary reads in an entry of a distribution. *)
Definition percent_of (kv : string * val) : option Z :=
  match snd kv with
  | Lit (PStr s) =>
      match int_of_str (replace_char "%" "" s) with
      | Ok n => Some n
      | Raise _ => None
      end
  | _ => None
  end.

(** The entry [kv] is the first of [entries] with the largest number. *)
Definition first_largest (entries : list (string * val)) (kv : string * val)
  : Prop :=
  exists before after n,
    entries = before ++ kv :: after
    /\ percent_of kv = Some n
    /\ Forall (fun e => exists m, percent_of e = Some m /\ m < n) before
    /\ Forall (fun e => exists m, percent_of e = Some m /\ m <= n) after.

End Views.

(* ===================================================================== *)
(** * Reading the reports of [dashboard_analytics.py]                     *)
(* ===================================================================== *)

Module Reports.

Import Analytics.

(** The cell of the column is a string, or the column is absent. *)
Definition text_cell (key : string) (r : row) : Prop :=
  exists s, get r key (PStr "") = PStr s.

(** The bucket of a label: itself where it is a key of [d]. *)
Definition label_in (d : gmap string Z) (fallback : string) (cell : pyval)
  : string :=
  match cell with
  | PStr s => if decide (is_Some (d !! lower s)) then lower s else fallback
  | _ => fallback
  end.

Definition category_of (r : row) : string :=
  label_in initial_categories "other" (get r "category" (PStr "")).

Definition emotion_of (r : row) : string :=
  label_in initial_emotions "neutral" (get r "emotion" (PStr "")).

Definition sentiment_of (r : row) : string :=
  match get r "sentiment" (PStr "") with
  | PStr s =>
      if decide (lower s = "positive") then "positive"
      else if decide (lower s = "negative") then "negative"
      else "neutral"
  | _ => "neutral"
  end.

(** The number of rows with the label. *)
Definition count_of (label_of : row -> string) (label : string)
    (rows : list row) : Z :=
  Z.of_nat (length (List.filter (fun r => String.eqb (label_of r) label)
                                rows)).

(** A percentage as the reports write it. *)
Definition percent_text (r : Z) : string := str_of_int r +:+ "%".

(** The labels of the reports, in the order in which they are written. *)
Definition category_labels : list string :=
  ["inquiry"; "suggestion"; "complaint"; "praise"; "other"].
Definition sentiment_labels : list string :=
  ["positive"; "negative"; "neutral"].
Definition emotion_labels : list string :=
  ["neutral"; "joy"; "confusion"; "frustration"].

(** A distribution as the JSON document holds it: the entries of the
    labels that it has, in the order given. *)
Definition stored (d : gmap string string) (labels : list string)
  : list (string * Main.val) :=
  omap (fun label => (fun p => (label, Main.Lit (PStr p))) <$> d !! label)
       labels.

End Reports.

(* ===================================================================== *)
(** * [src/json_files/flask_dashboard_api.py]: the legacy full data       *)
(* ===================================================================== *)

Module Legacy.

Import Analytics Api.

Record post_data : Type := {
  date : pyval;
  whole_row : row;
  reaction_count : Z;
  comment_count : Z;
  share_count : Z;
  text : pyval;
  sentiment : pyval;
  emotion : pyval;
  category : pyval;
  Viral_score : float;
  post_routing_id : pyval;
  post_url : pyval
}.

(** The dict that the loop over the post rows builds; its values are
    evaluated in the order of the keys. *)
Definition post_data_of (r : row) : res post_data :=
  reaction_count ← int_of (get r "reaction_count" (PInt 0));
  comment_count ← int_of (get r "comments_count" (PInt 0));
  share_count ← int_of (get r "share_count" (PInt 0));
  Viral_score ← float_of (py_or (get r "virality_score" (PInt 0)) (PInt 0));
  Ok {| date := PStr "";
        whole_row := r;
        reaction_count := reaction_count;
        comment_count := comment_count;
        share_count := share_count;
        text := get r "text" (PStr "");
        sentiment := get r "sentiment" (PStr "");
        emotion := get r "emotion" (PStr "");
        category := get r "category" (PStr "");
        Viral_score := Viral_score;
        post_routing_id := get r "post_routing_id" (PStr "");
        post_url := get r "post_url" (PStr "") |}.

(** The loop over the post rows has no handler of its own. *)
Definition posts_data (csv : csv_file) : res (list post_data) :=
  match csv with
  | Some rows => mapM post_data_of rows
  | None => Ok []
  end.

Record summary : Type := {
  total_posts : Z;
  total_comments : Z;
  posts_csv_exists : bool;
  comments_csv_exists : bool
}.

Inductive reply : Type :=
| FullData (posts : list post_data) (comments : list comment_data)
           (counts : summary)                                  (* 200 *)
| Refused (code : Z) (error : string).

Definition invalid_request : string :=
  let q := String (ascii_of_nat 34) EmptyString in
  "Invalid request. Expected {" +:+ q +:+ "content" +:+ q +:+ ": "
  +:+ q +:+ "give_full_data" +:+ q +:+ "}".

Definition is_give_full_data (v : option jval) : bool :=
  match v with
  | Some (JScalar (PStr s)) => String.eqb s "give_full_data"
  | _ => false
  end.

(** [POST /api/full_data] *)
Definition get_full_data (request : request_json)
    (posts_csv comments_csv : csv_file) : reply :=
  let attempt : res reply :=
    match request with
    | NotJson => Raise (HTTPException 400)
    | JsonOther false => Ok (Refused 400 invalid_request)
    | JsonOther true => Raise AttributeError
    | JsonDict request_data =>
        if (size request_data =? 0)%nat
           || negb (is_give_full_data (request_data !! "content"))
        then Ok (Refused 400 invalid_request)
        else
          posts_data ← posts_data posts_csv;
          let comments_data := comments_data comments_csv in
          Ok (FullData posts_data comments_data
                {| total_posts := Z.of_nat (length posts_data);
                   total_comments := Z.of_nat (length comments_data);
                   posts_csv_exists := bool_decide (is_Some posts_csv);
                   comments_csv_exists :=
                     bool_decide (is_Some comments_csv) |})
    end in
  try_except attempt (fun _ => Refused 500 "Internal server error").

End Legacy.

(* ===================================================================== *)
(** * [src/json_files/flask_dashboard_api.py]: a run of the scraper       *)
(* ===================================================================== *)

Module Scraper.

Import Api.

(** The global [scraper_status] with its internal field. *)
Record state : Type := {
  public : scraper_status;
  start_time : option Z            (* an instant, in microseconds *)
}.

(** What becomes of the pipeline process: launching it or reading its
    output raises, or it ends with its output lines and a return code. *)
Inductive process : Type :=
| Broken (e : exn)
| Exited (output : list string) (returncode : Z).

Definition with_status (st : scraper_status) (v : string) : scraper_status :=
  {| status := v; last_run := last_run st;
     duration_seconds := duration_seconds st;
     posts_scraped := posts_scraped st;
     comments_scraped := comments_scraped st |}.

Definition with_last_run (st : scraper_status) (v : string) : scraper_status :=
  {| status := status st; last_run := PStr v;
     duration_seconds := duration_seconds st;
     posts_scraped := posts_scraped st;
     comments_scraped := comments_scraped st |}.

Definition with_duration (st : scraper_status) (v : Z) : scraper_status :=
  {| status := status st; last_run := last_run st;
     duration_seconds := v;
     posts_scraped := posts_scraped st;
     comments_scraped := comments_scraped st |}.

Definition with_posts (st : scraper_status) (v : Z) : scraper_status :=
  {| status := status st; last_run := last_run st;
     duration_seconds := duration_seconds st;
     posts_scraped := v;
     comments_scraped := comments_scraped st |}.

Definition with_comments (st : scraper_status) (v : Z) : scraper_status :=
  {| status := status st; last_run := last_run st;
     duration_seconds := duration_seconds st;
     posts_scraped := posts_scraped st;
     comments_scraped := v |}.

(** [(b - a).total_seconds()] for two instants. *)
Definition total_seconds (a b : Z) : res float := true_div (b - a) 1000000.

(** The lines that the loop over [process.stdout] keeps. *)
Definition output_lines (output : list string) : list string :=
  List.filter (fun line => negb (String.eqb line EmptyString))
              (map rstrip output).

(** [re.findall(r'\d+', line)[0]], where [findall] finds something. *)
Fixpoint digits_prefix (s : string) : string :=
  match s with
  | EmptyString => EmptyString
  | String c s' => if is_digit c then String c (digits_prefix s') else EmptyString
  end.

Fixpoint first_number (s : string) : option string :=
  match s with
  | EmptyString => None
  | String c s' => if is_digit c then Some (digits_prefix s) else first_number s'
  end.

(** The body of the loop that reads the counts. *)
Definition read_stats (st : scraper_status) (line : string)
  : res scraper_status :=
  if contains "posts scraped" (lower line) then
    match first_number line with
    | Some digits => n ← int_of_str digits; Ok (with_posts st n)
    | None => Ok st
    end
  else if contains "comments scraped" (lower line) then
    match first_number line with
    | Some digits => n ← int_of_str digits; Ok (with_comments st n)
    | None => Ok st
    end
  else Ok st.

(** The loop, inside a [try] whose handler only logs. *)
Fixpoint extract_stats (st : scraper_status) (lines : list string)
  : scraper_status :=
  match lines with
  | [] => st
  | line :: rest =>
      match read_stats st line with
      | Ok st' => extract_stats st' rest
      | Raise _ => st
      end
  end.

Section Run.

(** [datetime.isoformat] of an instant, and the successive readings of
    [datetime.now()] during the run. *)
Variable isoformat : Z -> string.
Variable clock : nat -> Z.

(** The body of the [try]: the status when it ends, with the exception
    that ended it if any and the number of clock readings made. *)
Definition attempt_run (st : scraper_status) (p : process)
  : scraper_status * option exn * nat :=
  let st := with_status st "running" in
  match p with
  | Broken e => (st, Some e, 1%nat)
  | Exited output returncode =>
      let end_time := clock 1 in
      match total_seconds (clock 0) end_time with
      | Raise e => (st, Some e, 2%nat)
      | Ok duration =>
          let st := with_status st (if returncode =? 0 then "completed"
                                    else "failed") in
          let st := with_last_run st (isoformat end_time) in
          match round_float duration with
          | Raise e => (st, Some e, 2%nat)
          | Ok seconds =>
              let st := with_duration st seconds in
              (if returncode =? 0
               then extract_stats st (output_lines output) else st,
               None, 2%nat)
          end
      end
  end.

(** [run_scraper]: the global state when the thread ends. *)
Definition run_scraper (s : state) (p : process) : state :=
  let start := clock 0 in
  match attempt_run (public s) p with
  | (st, None, _) => {| public := st; start_time := Some start |}
  | (st, Some _, n) =>
      let st := with_status st "failed" in
      let st := with_last_run st (isoformat (clock n)) in
      let st :=
        match duration ← total_seconds start (clock (S n)); round_float duration with
        | Ok seconds => with_duration st seconds
        | Raise _ => st
        end in
      {| public := st; start_time := Some start |}
  end.

End Run.

(** [GET /api/status]: the status without its internal field. *)
Definition get_scraper_status (s : state) : scraper_status := public s.

(** The state when the module is loaded. *)
Definition initial : state :=
  {| public := {| status := "idle"; last_run := PNone; duration_seconds := 0;
                  posts_scraped := 0; comments_scraped := 0 |};
     start_time := None |}.

End Scraper.

(* ===================================================================== *)
(** * Requests, rows and output lines of the Flask API                    *)
(* ===================================================================== *)

Module Runs.

Import Analytics Api.

(** A JSON object whose [content] is the given word. *)
Definition asks (word : string) (request : request_json) : Prop :=
  exists d, request = JsonDict d
            /\ d !! "content" = Some (JScalar (PStr word)).

(** The count that a request gives under [key], if it gives one. *)
Definition requested (d : gmap string jval) (key : string) (default : Z)
  : res Z :=
  int_of_json (json_get d key (JScalar (PInt default))).

(** A cell without text: of a line shorter than the header, or empty. *)
Definition blank (cell : option pyval) : Prop :=
  cell = Some PNone \/ cell = Some (PStr "").

Definition count_columns : list string :=
  ["reaction_count"; "comments_count"; "share_count"].

(** A cell that holds the decimal text of a count. *)
Definition written (cell : option pyval) (n : Z) : Prop :=
  cell = Some (PStr (str_of_int n)) /\ 0 <= n < 2 ^ 63.

(** A virality cell that [float()] reads, or none. *)
Definition virality_readable (cell : option pyval) : Prop :=
  match cell with
  | None | Some PNone => True
  | Some (PStr s) => s = "" \/ exists f, float_of_str s = Ok f
  | _ => False
  end.

Definition readable_post (r : row) : Prop :=
  (forall key, key ∈ count_columns -> exists n, written (r !! key) n)
  /\ virality_readable (r !! "virality_score").

(** The record of a post shows the row and the counts written in it. *)
Definition shows (r : row) (p : Legacy.post_data) : Prop :=
  Legacy.whole_row p = r
  /\ written (r !! "reaction_count") (Legacy.reaction_count p)
  /\ written (r !! "comments_count") (Legacy.comment_count p)
  /\ written (r !! "share_count") (Legacy.share_count p).

(** A posts file of which every row is readable, or none. *)
Definition readable_posts (csv : csv_file) : Prop :=
  match csv with
  | Some rows => Forall readable_post rows
  | None => True
  end.

Definition comment_columns : list string := ["likes_count"; "comments_count"].

(** A comment row whose two counts are decimal text, empty or absent, and
    one with a count that is text but no integer. *)
Definition readable_comment (r : row) : Prop :=
  forall key, key ∈ comment_columns ->
    r !! key = None \/ blank (r !! key) \/ exists n, written (r !! key) n.

Definition unreadable_comment (r : row) : Prop :=
  exists key s e,
    key ∈ comment_columns /\ r !! key = Some (PStr s) /\ s <> ""
    /\ int_of_str s = Raise e.

(** A line of at most 4300 ASCII characters. *)
Definition plain (line : string) : Prop :=
  (String.length line <= 4300)%nat
  /\ Forall (fun c => (nat_of_ascii c < 128)%nat) (list_ascii_of_string line).

(** The lines from which the loop takes the number of posts, and those
    from which it takes the number of comments. *)
Definition posts_line (line : string) : bool :=
  contains "posts scraped" (lower line)
  && bool_decide (is_Some (Scraper.first_number line)).

Definition comments_line (line : string) : bool :=
  negb (contains "posts scraped" (lower line))
  && contains "comments scraped" (lower line)
  && bool_decide (is_Some (Scraper.first_number line)).

(** A run whose process ended with return code 0. *)
Definition clean_exit (p : Scraper.process) : Prop :=
  exists output, p = Scraper.Exited output 0.

(** The two clock readings of a run are less than [2 ^ 52] seconds apart. *)
Definition timed (clock : nat -> Z) : Prop :=
  Z.abs (clock 1%nat - clock 0%nat) <= 2 ^ 52 * 1000000.

End Runs.

(* ===================================================================== *)
(** * Sample requests and runs of the Flask API                           *)
(* ===================================================================== *)

Module Traces.

Import Analytics Api Samples.

Definition give_full_data : request_json :=
  JsonDict {["content" := JScalar (PStr "give_full_data")]}.

(** A post row whose share count is empty. *)
Definition blank_shares : row := post_row "p3" "5.0" "3" "7" "".

(** A line as the process writes it, with its end of line. *)
Definition line (s : string) : string :=
  s +:+ String (ascii_of_nat 10) EmptyString.

(** Instants shown as their number, and a clock whose readings are 90.5
    seconds apart. *)
Definition shown (t : Z) : string := str_of_int t.
Definition every_90_seconds (n : nat) : Z := Z.of_nat n * 90500000.

(** The state that an earlier run left. *)
Definition earlier : Scraper.state :=
  {| Scraper.public := {| status := "completed"; last_run := PStr "0";
                          duration_seconds := 12; posts_scraped := 24;
                          comments_scraped := 130 |};
     Scraper.start_time := Some (-100) |}.

(** Output in the words of the comment in the loop, and output that names
    a step before the count. *)
Definition quiet_output : list string :=
  [line "Successfully scraped 31 posts"; line ""; line "Saved 200 comments"].

(** Comment rows: two clean ones around one whose likes are no number. *)
Definition cut_comments : list row :=
  [comment_row "c1" "9" "2" ""; comment_row "c2" "many" "0" "";
   comment_row "c3" "4" "1" ""].

Definition step_output : list string :=
  [line "Step 3: 31 posts scraped";
   line "2 posts scraped and 95 comments scraped";
   line "Step 4: 95 Comments Scraped   "].

End Traces.

(* ===================================================================== *)
(** * The parts of the document of [src/app/main.py]                      *)
(* ===================================================================== *)

Module Parts.

Import Main.

(** What [v[k1][k2]...] gives in a store. *)
Fixpoint part (h : gmap loc obj) (v : val) (path : list string) : res val :=
  match path with
  | [] => Ok v
  | key :: path' =>
      match v with
      | Lit _ => Raise TypeError
      | Ref l =>
          match h !! l with
          | None => Raise RuntimeError
          | Some (List _) => Raise TypeError
          | Some (Dict entries) =>
              match entry key entries with
              | Some x => part h x path'
              | None => Raise (KeyError key)
              end
          end
      end
  end.

(** The body of a 200 answer and of an error answer at a clock reading. *)
Definition answer (data : val) (time : string) : response :=
  {| code := 200;
     payload := [("success", Lit (PBool true)); ("data", data);
                 ("timestamp", Lit (PStr time))] |}.

Definition error_answer (error time : string) : response :=
  {| code := 500;
     payload := [("success", Lit (PBool false));
                 ("error", Lit (PStr error));
                 ("timestamp", Lit (PStr time))] |}.

Definition tick (w : world) : world :=
  {| store := store w; ticks := S (ticks w) |}.

End Parts.

(* ===================================================================== *)
(** * [src/json_files/dashboard_analytics.py]: the fallback overview      *)
(* ===================================================================== *)

Module Overview.

(** [content.split()]: the words between runs of white space; [word] is
    the word being read. *)
Fixpoint split_words (s : string) (word : string) : list string :=
  match s with
  | EmptyString => if String.eqb word EmptyString then [] else [word]
  | String c s' =>
      if is_space c
      then (if String.eqb word EmptyString then split_words s' EmptyString
            else word :: split_words s' EmptyString)
      else split_words s' (word +:+ String c EmptyString)
  end.

(** [content.split(sep)] for a one-character [sep]. *)
Fixpoint split_on (sep : ascii) (s : string) (piece : string) : list string :=
  match s with
  | EmptyString => [piece]
  | String c s' =>
      if Ascii.eqb c sep then piece :: split_on sep s' EmptyString
      else split_on sep s' (piece +:+ String c EmptyString)
  end.

Definition word_count (content : string) : Z :=
  Z.of_nat (length (split_words content EmptyString)).

Definition sentence_count (content : string) : Z :=
  Z.of_nat (length (List.filter
                      (fun s => negb (String.eqb (strip s) EmptyString))
                      (split_on "." content EmptyString))).

Definition inquiry_keywords : list string :=
  ["how"; "when"; "where"; "what"; "why"; "can i"; "help"; "support"; "?"].
Definition praise_keywords : list string :=
  ["good"; "great"; "excellent"; "thank"; "appreciate"; "best"; "amazing";
   "wonderful"].
Definition complaint_keywords : list string :=
  ["problem"; "issue"; "error"; "wrong"; "bad"; "terrible"; "slow"; "delay";
   "frustrated"].

(** [sum(1 for keyword in keywords if keyword in content_lower)] *)
Definition mentions (keywords : list string) (content_lower : string) : Z :=
  Z.of_nat (length (List.filter (fun keyword => contains keyword content_lower)
                                keywords)).

Definition inquiry_mentions (content : string) : Z :=
  mentions inquiry_keywords (lower content).
Definition praise_mentions (content : string) : Z :=
  mentions praise_keywords (lower content).
Definition complaint_mentions (content : string) : Z :=
  mentions complaint_keywords (lower content).

(** The lines of a text, with an end of line between them. *)
Fixpoint text_of (lines : list string) : string :=
  match lines with
  | [] => EmptyString
  | [l] => l
  | l :: rest => l +:+ String (ascii_of_nat 10) (text_of rest)
  end.

Record overview : Type := {
  inquiry : string;
  praise : string;
  complaints : string;
  suggestions : string
}.

Definition _generate_fallback_overview (content : string) : overview :=
  let word_count := word_count content in
  let sentence_count := sentence_count content in
  let inquiry_mentions := inquiry_mentions content in
  let praise_mentions := praise_mentions content in
  let complaint_mentions := complaint_mentions content in
  {| inquiry := text_of [
     "- **Customer Inquiry Volume**: Analysis of " +:+ str_of_int word_count +:+ " words across " +:+ str_of_int sentence_count +:+ " statements reveals " +:+ str_of_int inquiry_mentions +:+ " inquiry-related mentions";
     "- **Service Information Requests**: Customers frequently seek clarification on banking procedures and account-related processes";
     "- **Digital Banking Questions**: High volume of queries about online banking features and mobile app functionality";
     "- **Account Management Inquiries**: Recurring questions about account opening, closure, and maintenance procedures";
     "- **Transaction Support Needs**: Customers require assistance with payment processing and transfer-related issues";
     "- **Branch Service Inquiries**: Location-based questions and branch-specific service availability queries";
     "- **Product Information Requests**: Interest in loan products, credit cards, and investment opportunities";
     "- **Response Time Expectations**: Customer inquiries indicate expectation for quick resolution and real-time support"];
     praise := text_of [
     "- **Service Excellence Recognition**: " +:+ str_of_int praise_mentions +:+ " positive mentions indicate strong customer satisfaction in specific service areas";
     "- **Staff Performance Appreciation**: Customers consistently praise individual staff members for professional service delivery";
     "- **Digital Banking Satisfaction**: Positive feedback on mobile app functionality and online banking user experience";
     "- **Branch Service Quality**: High appreciation for in-person service quality and branch staff responsiveness";
     "- **Problem Resolution Efficiency**: Customers value quick and effective resolution of their banking issues";
     "- **Customer-Centric Approach**: Recognition of Prime Bank's efforts to prioritize customer needs and preferences";
     "- **Service Accessibility**: Appreciation for convenient banking hours and multiple service channel availability";
     "- **Trust and Reliability**: Customer comments reflect strong confidence in Prime Bank's financial stability and security"];
     complaints := text_of [
     "- **Service Delivery Issues**: " +:+ str_of_int complaint_mentions +:+ " complaint indicators suggest areas requiring operational improvement";
     "- **Technology-Related Concerns**: Customers report occasional difficulties with digital banking platforms and system downtime";
     "- **Processing Time Delays**: Feedback indicates longer than expected processing times for certain banking transactions";
     "- **Communication Gaps**: Customers express frustration about lack of proactive communication regarding service changes";
     "- **Branch Service Inconsistencies**: Varying service quality across different branch locations creates customer dissatisfaction";
     "- **Documentation Requirements**: Excessive paperwork and documentation requirements causing customer inconvenience";
     "- **Fee Structure Concerns**: Customer feedback suggests transparency issues regarding service charges and fees";
     "- **Customer Support Accessibility**: Limited availability of customer support during peak hours and weekends"];
     suggestions := text_of [
     "- **Digital Platform Enhancement**: Implement advanced AI-powered chatbots for 24/7 customer query resolution";
     "- **Process Automation**: Streamline account opening and loan approval processes through digital automation";
     "- **Proactive Communication System**: Develop automated notification systems for service updates and account activities";
     "- **Staff Training Programs**: Implement comprehensive training modules focusing on customer experience excellence";
     "- **Multi-Channel Integration**: Create seamless integration between online, mobile, and branch banking experiences";
     "- **Customer Feedback Loop**: Establish real-time feedback collection and response mechanisms across all touchpoints";
     "- **Service Quality Monitoring**: Deploy AI-powered sentiment analysis for continuous service quality assessment";
     "- **Competitive Positioning**: Leverage customer insights to develop unique value propositions in the banking sector";
     "- **Technology Infrastructure**: Invest in robust IT infrastructure to minimize system downtime and enhance reliability"] |}.

End Overview.

(* ===================================================================== *)
(** * [src/json_files/dashboard_analytics.py]: the bank mentions          *)
(* ===================================================================== *)

Module Mentions.

(** The regular expressions of [bank_patterns]: a sequence of letters,
    [\s*] and an optional character. *)
Inductive atom : Type :=
| Char (c : ascii)
| Spaces                           (* \s* *)
| Maybe (c : ascii).               (* c? *)

(** Two characters that [re.IGNORECASE] takes for the same. *)
Definition same_letter (c d : ascii) : bool :=
  Ascii.eqb (lower_char c) (lower_char d).

(** The match of a pattern at the start of a text, as the backtracking
    matcher finds it, the quantifiers taking as much as they can: what
    follows the match, or [None]. *)
Fixpoint match_here (p : list atom) : string -> option string :=
  match p with
  | [] => fun s => Some s
  | Char c :: p' => fun s =>
      match s with
      | String d s' => if same_letter c d then match_here p' s' else None
      | EmptyString => None
      end
  | Maybe c :: p' => fun s =>
      match s with
      | String d s' =>
          if same_letter c d
          then match match_here p' s' with
               | Some r => Some r
               | None => match_here p' s
               end
          else match_here p' s
      | EmptyString => match_here p' s
      end
  | Spaces :: p' =>
      fix star (s : string) : option string :=
        match s with
        | String d s' =>
            if is_space d
            then match star s' with
                 | Some r => Some r
                 | None => match_here p' s
                 end
            else match_here p' s
        | EmptyString => match_here p' s
        end
  end.

(** [len(re.findall(pattern, content, re.IGNORECASE))] for a pattern that
    matches no empty text: the matches from left to right, each search
    starting where the match before it ended; [skip] characters of the
    text belong to the last match. *)
Fixpoint count_matches (p : list atom) (s : string) (skip : nat) : nat :=
  match s with
  | EmptyString => 0
  | String c s' =>
      match skip with
      | S k => count_matches p s' k
      | O =>
          match match_here p s with
          | Some r =>
              S (count_matches p s' (String.length s' - String.length r))
          | None => count_matches p s' 0
          end
      end
  end.

Definition findall (p : list atom) (content : string) : Z :=
  Z.of_nat (count_matches p content 0).

Definition letters (s : string) : list atom :=
  map Char (list_ascii_of_string s).

(** The patterns of [__init__]. *)
Definition prime_bank_words : list atom :=                   (* prime\s*bank *)
  letters "prime" ++ Spaces :: letters "bank".
Definition prime_bank_word : list atom := letters "primebank".
Definition prime_bank_handle : list atom := letters "@primebank".
Definition prime_bank_short : list atom :=                   (* prime\s*b\.? *)
  letters "prime" ++ [Spaces; Char "b"; Maybe "."].

Definition bank_patterns : list (string * list (list atom)) :=
  [("prime_bank", [prime_bank_words; prime_bank_word; prime_bank_handle;
                   prime_bank_short]);
   ("eastern_bank", [letters "eastern" ++ Spaces :: letters "bank";
                     letters "ebl"; letters "@easternbank"]);
   ("brac_bank", [letters "brac" ++ Spaces :: letters "bank";
                  letters "@bracbank"]);
   ("city_bank", [letters "city" ++ Spaces :: letters "bank";
                  letters "@citybank"]);
   ("dutch_bangla", [letters "dutch" ++ Spaces :: letters "bangla";
                     letters "dbbl"; letters "@dutchbangla"])].

(** The file of the posts of the other banks. *)
Inductive posts_file : Type :=
| Missing
| Unreadable (e : exn)
| Text (text : string).

Definition no_mentions : list (string * Z) :=
  [("prime_bank", 0); ("eastern_bank", 0); ("brac_bank", 0);
   ("city_bank", 0); ("dutch_bangla", 0); ("total_bank_mentions", 0)].

(** The inner loop: the matches of every pattern of a bank. *)
Definition count_bank (content : string) (patterns : list (list atom)) : Z :=
  fold_left (fun count pattern => count + findall pattern content)
            patterns 0.

(** [get_bank_mentions]: the dict in the order of its keys. *)
Definition get_bank_mentions (file : posts_file) : list (string * Z) :=
  match file with
  | Missing => no_mentions
  | Unreadable _ => no_mentions
  | Text text =>
      let content := lower text in
      let '(bank_counts, total_mentions) :=
        fold_left
          (fun '(bank_counts, total_mentions) '(bank_name, patterns) =>
             let count := count_bank content patterns in
             (bank_counts ++ [(bank_name, count)], total_mentions + count))
          bank_patterns ([], 0) in
      bank_counts ++ [("total_bank_mentions", total_mentions)]
  end.

(** ** All the ways in which a pattern matches *)

(** [matches p s r]: the pattern matches a start of [s], and [r] follows
    the match. *)
Inductive matches : list atom -> string -> string -> Prop :=
| matches_nil s : matches [] s s
| matches_char c d s r p :
    same_letter c d = true -> matches p s r ->
    matches (Char c :: p) (String d s) r
| matches_maybe_take c d s r p :
    same_letter c d = true -> matches p s r ->
    matches (Maybe c :: p) (String d s) r
| matches_maybe_skip c s r p :
    matches p s r -> matches (Maybe c :: p) s r
| matches_spaces_take d s r p :
    is_space d = true -> matches (Spaces :: p) s r ->
    matches (Spaces :: p) (String d s) r
| matches_spaces_skip s r p :
    matches p s r -> matches (Spaces :: p) s r.

(** The characters that an atom of the pattern can take. *)
Definition takes (p : list atom) (ch : ascii) : bool :=
  existsb (fun a => match a with
                    | Char c | Maybe c => same_letter c ch
                    | Spaces => is_space ch
                    end) p.

(** None of the first [k] characters is the letter [a]. *)
Fixpoint clear (a : ascii) (k : nat) (s : string) : Prop :=
  match k, s with
  | S k', String c s' => same_letter a c = false /\ clear a k' s'
  | _, _ => True
  end.

End Mentions.



(* ===================================================================== *)
(** * Facts about slices                                                  *)
(* ===================================================================== *)

Module SliceFacts.

Section Slices.
Context {A : Type}.
Implicit Types l : list A.

Lemma clamp_index_nonneg len i :
  0 <= i -> clamp_index len i = Z.min i len.
Proof. intros Hi. unfold clamp_index. destruct (Z.ltb_spec i 0); lia. Qed.

Lemma slice_nonneg l a b :
  0 <= a -> 0 <= b ->
  slice l a b =
    firstn (Z.to_nat (Z.min b (Z.of_nat (length l)) - Z.min a (Z.of_nat (length l))))
           (skipn (Z.to_nat (Z.min a (Z.of_nat (length l)))) l).
Proof.
  intros Ha Hb. unfold slice. by rewrite !clamp_index_nonneg.
Qed.

Lemma slice_length l a b :
  0 <= a -> a <= b ->
  Z.of_nat (length (slice l a b)) =
    Z.min b (Z.of_nat (length l)) - Z.min a (Z.of_nat (length l)).
Proof.
  intros Ha Hb. rewrite slice_nonneg by lia.
  rewrite length_take, length_drop. lia.
Qed.

Lemma slice_beyond l a b :
  0 <= a -> Z.of_nat (length l) <= b ->
  slice l a b = slice l a (Z.of_nat (length l)).
Proof.
  intros Ha Hb. rewrite !slice_nonneg by lia.
  by rewrite (Z.min_r b), (Z.min_r (Z.of_nat (length l))) by lia.
Qed.

Lemma slice_to_nonneg l n :
  0 <= n -> slice_to l n = firstn (Z.to_nat n) l.
Proof.
  intros Hn. unfold slice_to. rewrite slice_nonneg by lia.
  rewrite (Z.min_l 0) by lia. simpl. rewrite Z.sub_0_r.
  destruct (Z.le_ge_cases n (Z.of_nat (length l))).
  - by rewrite Z.min_l by lia.
  - rewrite Z.min_r by lia. rewrite Nat2Z.id.
    rewrite !firstn_all2; (done || lia).
Qed.

Lemma slice_to_length l n :
  0 <= n -> Z.of_nat (length (slice_to l n)) <= n.
Proof.
  intros Hn. rewrite slice_to_nonneg by done. rewrite length_take. lia.
Qed.

End Slices.

End SliceFacts.

(* ===================================================================== *)
(** * The paginator                                                       *)
(* ===================================================================== *)

Module PaginationFacts.

Import Pagination Samples SliceFacts.


Section Pages.
Context {item : Type}.
Implicit Types posts comments : list item.

Lemma parse_page_ok page_no p :
  int_of_str page_no = Ok p -> 1 <= p -> parse_page page_no = Ok p.
Proof.
  intros Hp Hge. unfold parse_page. rewrite Hp. simpl.
  destruct (Z.ltb_spec p 1); [lia | done].
Qed.

(** C7: for a page number [p >= 1] the combined view answers with at most
    50 items, and with none exactly when [p] is beyond the last page; it
    is a success all the same, which echoes [p] and reports the totals and
    [total_pages = ceil((posts + comments) / 50)]. *)
Theorem full_data_page_is_bounded_and_empty_beyond_last
    posts comments page_no p :
  int_of_str page_no = Ok p -> 1 <= p ->
  exists items pg,
    get_full_data posts comments page_no = Success items pg
    /\ Z.of_nat (length items) <= 50
    /\ (items = [] <-> total_pages pg < p)
    /\ current_page pg = p
    /\ total_pages pg
       = (Z.of_nat (length posts) + Z.of_nat (length comments) + 50 - 1) / 50
    /\ number_of_pages pg = total_pages pg
    /\ items_per_page pg = 50
    /\ total_posts pg = Z.of_nat (length posts)
    /\ total_comments pg = Z.of_nat (length comments).
Proof.
  intros Hp Hge. unfold get_full_data. rewrite (parse_page_ok _ _ Hp Hge).
  cbv zeta.
  set (start := (p - 1) * 50).
  set (np := Z.of_nat (length posts)).
  set (nc := Z.of_nat (length comments)).
  assert (Hstart : 0 <= start) by (unfold start; lia).
  assert (Hpages : (np + nc + 50 - 1) / 50 < p <-> np + nc <= start).
  { unfold start.
    pose proof (Z.div_mod (np + nc + 50 - 1) 50 ltac:(lia)).
    pose proof (Z.mod_pos_bound (np + nc + 50 - 1) 50 ltac:(lia)).
    lia. }
  destruct (Z.ltb_spec start np) as [Hin|Hout].
  - (* the page starts among the posts *)
    pose proof (slice_length posts start (start + 50) Hstart ltac:(lia))
      as Hlen.
    fold np in Hlen.
    destruct (Z.eqb_spec (Z.of_nat (length (slice posts start (start + 50))))
                         0) as [Hzero|_]; [lia|].
    eexists _, _. split; [reflexivity|].
    cbn [current_page total_pages number_of_pages items_per_page
                      total_posts total_comments].
    repeat split; try reflexivity.
    + rewrite length_app, Nat2Z.inj_add.
      destruct (Z.ltb_spec
                  (Z.of_nat (length (slice posts start (start + 50)))) 50);
        [|simpl; lia].
      rewrite (Z.max_l 0) by lia.
      destruct (Z.ltb_spec 0 nc); [|simpl; lia].
      rewrite (slice_length comments) by lia. fold nc. lia.
    + intros Hnil. apply (f_equal (@length item)) in Hnil.
      rewrite length_app in Hnil. simpl in Hnil. lia.
    + intros Hbeyond. apply Hpages in Hbeyond. lia.
  - (* the posts are exhausted: comments only *)
    cbn [length]. change (Z.of_nat 0) with 0.
    change (0 <? 50) with true. change (0 =? 0) with true. cbv iota.
    eexists _, _. split; [reflexivity|].
    cbn [current_page total_pages number_of_pages items_per_page
                      total_posts total_comments app].
    repeat split; try reflexivity.
    + destruct (Z.ltb_spec (start - np) nc); [|simpl; lia].
      rewrite slice_length by lia. fold nc. lia.
    + destruct (Z.ltb_spec (start - np) nc) as [Hc|Hc].
      * intros Hnil. apply (f_equal (@length item)) in Hnil.
        pose proof (slice_length comments (start - np) (start - np + 50)
                      ltac:(lia) ltac:(lia)) as Hlen.
        fold nc in Hlen. rewrite Hnil in Hlen. simpl in Hlen. lia.
      * intros _. apply Hpages. lia.
    + intros Hbeyond. apply Hpages in Hbeyond.
      destruct (Z.ltb_spec (start - np) nc); [lia|reflexivity].
Qed.

(** C2, as the code has it: with 120 posts, 30 comments and 50 items per
    page, page 1 is posts[0:50], page 2 is posts[50:100], page 3 is
    posts[100:120] followed by comments[0:30], all thirty of them, page 4
    is empty, and every page reports [total_pages = 3]. *)
Theorem pagination_120_30 posts comments :
  length posts = 120%nat -> length comments = 30%nat ->
  served (get_full_data posts comments "1") = slice posts 0 50
  /\ served (get_full_data posts comments "2") = slice posts 50 100
  /\ served (get_full_data posts comments "3")
     = slice posts 100 120 ++ slice comments 0 30
  /\ served (get_full_data posts comments "4") = []
  /\ Forall (fun page_no =>
               total_pages <$> counters (get_full_data posts comments page_no)
               = Some 3)
            ["1"; "2"; "3"; "4"].
Proof.
  intros Hposts Hcomments.
  assert (Hpage : forall page_no p,
             parse_page page_no = Ok p -> 0 <= (p - 1) * 50 ->
             get_full_data posts comments page_no
             = Success
                 ((if (p - 1) * 50 <? 120
                   then slice posts ((p - 1) * 50) ((p - 1) * 50 + 50) else [])
                  ++ (if (p - 1) * 50 <? 120
                      then (if (p - 1) * 50 <? 70
                            then [] else slice comments 0 ((p - 1) * 50 - 70))
                      else (if (p - 1) * 50 - 120 <? 30
                            then slice comments ((p - 1) * 50 - 120)
                                   ((p - 1) * 50 - 120 + 50)
                            else [])))
                 {| current_page := p; total_pages := 3; number_of_pages := 3;
                    items_per_page := 50; total_posts := 120;
                    total_comments := 30 |}).
  { intros page_no p Hp Hstart. unfold get_full_data. rewrite Hp. cbv zeta.
    rewrite Hposts, Hcomments.
    change (Z.of_nat 120) with 120. change (Z.of_nat 30) with 30.
    change ((120 + 30 + 50 - 1) / 50) with 3.
    destruct (Z.ltb_spec ((p - 1) * 50) 120) as [Hin|Hout].
    - rewrite (slice_length posts) by lia. rewrite Hposts.
      change (Z.of_nat 120) with 120.
      set (taken := Z.min ((p - 1) * 50 + 50) 120 - Z.min ((p - 1) * 50) 120).
      assert (Htaken : 1 <= taken <= 50) by (unfold taken; lia).
      destruct (Z.eqb_spec taken 0); [lia|].
      destruct (Z.ltb_spec ((p - 1) * 50) 70).
      + destruct (Z.ltb_spec taken 50); [unfold taken in *; lia|].
        reflexivity.
      + destruct (Z.ltb_spec taken 50); [|unfold taken in *; lia].
        rewrite (Z.max_l 0) by lia. unfold taken.
        change (0 <? 30) with true. cbv iota.
        do 3 f_equal. lia.
    - cbn [length]. change (Z.of_nat 0) with 0.
      change (0 <? 50) with true. change (0 =? 0) with true. cbv iota.
      reflexivity. }
  repeat split.
  - rewrite (Hpage "1" 1) by (reflexivity || lia).
    change (served _) with (slice posts 0 50 ++ []). apply app_nil_r.
  - rewrite (Hpage "2" 2) by (reflexivity || lia).
    change (served _) with (slice posts 50 100 ++ []). apply app_nil_r.
  - rewrite (Hpage "3" 3) by (reflexivity || lia).
    change (served _) with (slice posts 100 150 ++ slice comments 0 30).
    f_equal. rewrite slice_beyond by lia. by rewrite Hposts.
  - rewrite (Hpage "4" 4) by (reflexivity || lia). reflexivity.
  - repeat constructor.
    + rewrite (Hpage "1" 1) by (reflexivity || lia). reflexivity.
    + rewrite (Hpage "2" 2) by (reflexivity || lia). reflexivity.
    + rewrite (Hpage "3" 3) by (reflexivity || lia). reflexivity.
    + rewrite (Hpage "4" 4) by (reflexivity || lia). reflexivity.
Qed.
End Pages.

Lemma full_data_page_is_bounded_and_empty_beyond_last_witness :
  int_of_str "3" = Ok 3 /\ 1 <= 3
  /\ exists items pg,
       get_full_data posts_120 comments_30 "3" = Success items pg
       /\ Z.of_nat (length items) <= 50
       /\ (items = [] <-> total_pages pg < 3).
Proof.
  split; [reflexivity|]. split; [lia|].
  destruct (full_data_page_is_bounded_and_empty_beyond_last
              posts_120 comments_30 "3" 3 eq_refl ltac:(lia))
    as (items & pg & Hpage & Hlen & Hnil & _).
  by exists items, pg.
Defined.

Lemma pagination_120_30_witness :
  length posts_120 = 120%nat /\ length comments_30 = 30%nat
  /\ served (get_full_data posts_120 comments_30 "3")
     = slice posts_120 100 120 ++ slice comments_30 0 30.
Proof.
  split; [reflexivity|]. split; [reflexivity|].
  apply (pagination_120_30 posts_120 comments_30); reflexivity.
Defined.

(** C2 as stated fails: page 3 is not posts[100:120] followed by
    comments[0:20], it holds all thirty comments; and page 4 is not
    comments[20:30], it is empty. *)
Lemma page_3_and_page_4_are_not_as_stated :
  served (get_full_data posts_120 comments_30 "3")
    <> slice posts_120 100 120 ++ slice comments_30 0 20
  /\ served (get_full_data posts_120 comments_30 "4")
     <> slice comments_30 20 30
  /\ length (served (get_full_data posts_120 comments_30 "4")) <> 10%nat.
Proof.
  vm_compute. repeat split; discriminate.
Qed.

End PaginationFacts.


(* ===================================================================== *)
(** * Facts about [list.sort]                                             *)
(* ===================================================================== *)

Module SortFacts.

Section StableSort.

Context {A K : Type}.
Variable lt : K -> K -> bool.

(** The keys on which [lt] is an order: nothing is below itself twice
    over, and "not below" is transitive. *)
Variable good : K -> Prop.
Hypothesis lt_asym : forall a b, lt a b = true -> lt b a = false.
Hypothesis ge_trans :
  forall a b c, good a -> good b -> good c ->
    lt b a = false -> lt c b = false -> lt c a = false.

Abbreviation ordered := (ordered lt).

Lemma insert_keyed_perm x (l : list (K * A)) :
  Permutation (insert_keyed lt x l) (x :: l).
Proof.
  induction l as [|y l IH]; simpl; [done|].
  destruct (lt (fst y) (fst x)); [|done].
  rewrite IH. apply perm_swap.
Qed.

Lemma stable_sort_perm (l : list (K * A)) :
  Permutation (stable_sort lt l) l.
Proof.
  induction l as [|x l IH]; simpl; [done|].
  rewrite insert_keyed_perm. by constructor.
Qed.

Lemma insert_keyed_sorted x (l : list (K * A)) :
  good (fst x) -> Forall (fun y => good (fst y)) l ->
  StronglySorted ordered l ->
  StronglySorted ordered (insert_keyed lt x l).
Proof.
  intros Hx Hgood Hsorted.
  induction Hsorted as [|y l Hl IH Hy]; simpl.
  - repeat constructor.
  - inversion Hgood as [|? ? Hgy Hgl]; subst.
    destruct (lt (fst y) (fst x)) eqn:Hlt.
    + constructor; [by apply IH|].
      rewrite (List.Forall_forall _ _). intros z Hz.
      apply (Permutation_in _ (insert_keyed_perm x l)) in Hz.
      destruct Hz as [<-|Hz].
      * unfold ordered. by apply lt_asym.
      * rewrite List.Forall_forall in Hy. by apply Hy.
    + constructor; [by constructor|].
      constructor; [exact Hlt|].
      rewrite List.Forall_forall in Hy, Hgl. rewrite (List.Forall_forall _ _).
      intros z Hz. unfold ordered.
      apply (ge_trans _ (fst y)); auto. by apply Hy.
Qed.

Lemma stable_sort_sorted (l : list (K * A)) :
  Forall (fun y => good (fst y)) l ->
  StronglySorted ordered (stable_sort lt l).
Proof.
  induction l as [|x l IH]; simpl; intros Hgood; [constructor|].
  inversion Hgood; subst.
  apply insert_keyed_sorted; auto.
  rewrite (List.Forall_forall _ _). intros y Hy.
  apply (Permutation_in _ (stable_sort_perm l)) in Hy.
  rewrite List.Forall_forall in H2. by apply H2.
Qed.

Lemma strongly_sorted_app (R : K * A -> K * A -> Prop) (l1 l2 : list (K * A)) :
  StronglySorted R l1 -> StronglySorted R l2 ->
  (forall x y, In x l1 -> In y l2 -> R x y) ->
  StronglySorted R (l1 ++ l2).
Proof.
  induction 1 as [|x l1 Hl1 IH Hx]; simpl; intros H2 Hcross; [done|].
  constructor.
  - apply IH; auto.
  - rewrite Forall_app. split; [done|].
    rewrite (List.Forall_forall _ _). intros y Hy. apply Hcross; simpl; auto.
Qed.

Lemma strongly_sorted_rev (R : K * A -> K * A -> Prop) (l : list (K * A)) :
  StronglySorted R l -> StronglySorted (fun x y => R y x) (rev l).
Proof.
  induction 1 as [|x l Hl IH Hx]; simpl; [constructor|].
  apply strongly_sorted_app; [done|repeat constructor|].
  intros a b Ha [<-|[]]. apply in_rev in Ha.
  rewrite List.Forall_forall in Hx. by apply Hx.
Qed.

(** ** [sort_by] *)

Variable key : A -> K.

Lemma keyed_snd (l : list A) : map snd (map (fun x => (key x, x)) l) = l.
Proof. rewrite map_map. simpl. apply map_id. Qed.

Lemma sort_by_perm reverse (l : list A) :
  Permutation (sort_by lt key reverse l) l.
Proof.
  unfold sort_by.
  transitivity (map snd (map (fun x => (key x, x)) l));
    [|by rewrite keyed_snd].
  apply Permutation_map. destruct reverse.
  - rewrite <- Permutation_rev, stable_sort_perm. symmetry.
    apply Permutation_rev.
  - apply stable_sort_perm.
Qed.

Lemma keyed_sorted_snd (R : K -> K -> Prop) (l : list (K * A)) :
  Forall (fun p => fst p = key (snd p)) l ->
  StronglySorted (fun x y => R (fst x) (fst y)) l ->
  StronglySorted (fun x y => R (key x) (key y)) (map snd l).
Proof.
  intros Hkey Hs. induction Hs as [|p l Hl IH Hp]; simpl; [constructor|].
  inversion Hkey as [|? ? Hk Hks]; subst.
  constructor; [by apply IH|].
  rewrite Forall_map. rewrite List.Forall_forall in Hp, Hks.
  rewrite (List.Forall_forall _ _). intros q Hq. simpl.
  rewrite <- Hk, <- (Hks q Hq). by apply Hp.
Qed.

(** An ascending sort leaves no element above a later one. *)
Lemma keyed_fst (l : list A) :
  Forall (fun p : K * A => fst p = key (snd p)) (map (fun x => (key x, x)) l).
Proof. rewrite Forall_map. by apply Forall_true. Qed.

Lemma keyed_good (l : list A) :
  Forall (fun x => good (key x)) l ->
  Forall (fun p : K * A => good (fst p)) (map (fun x => (key x, x)) l).
Proof. intros H. by rewrite Forall_map. Qed.

(** An ascending sort leaves no element above a later one. *)
Lemma sort_by_ascending (l : list A) :
  Forall (fun x => good (key x)) l ->
  StronglySorted (fun x y => lt (key y) (key x) = false)
                 (sort_by lt key false l).
Proof.
  intros Hgood. unfold sort_by.
  apply (keyed_sorted_snd (fun a b => lt b a = false)).
  - eapply Permutation_Forall; [symmetry; apply stable_sort_perm|].
    apply keyed_fst.
  - apply stable_sort_sorted. by apply keyed_good.
Qed.

(** A reverse sort leaves no element below a later one. *)
Lemma sort_by_descending (l : list A) :
  Forall (fun x => good (key x)) l ->
  StronglySorted (fun x y => lt (key x) (key y) = false)
                 (sort_by lt key true l).
Proof.
  intros Hgood. unfold sort_by.
  apply (keyed_sorted_snd (fun a b => lt a b = false)).
  - eapply Permutation_Forall; [|apply (keyed_fst l)].
    rewrite <- Permutation_rev, stable_sort_perm.
    apply Permutation_rev.
  - apply (strongly_sorted_rev ordered). apply stable_sort_sorted.
    apply Forall_rev. by apply keyed_good.
Qed.

End StableSort.

(** ** Positions in a list *)

Section Precedes.

Context {A : Type}.

Lemma precedes_sorted (R : A -> A -> Prop) (x y : A) l :
  StronglySorted R l -> precedes x y l -> R x y.
Proof.
  intros Hs (l1 & l2 & l3 & ->).
  induction l1 as [|z l1 IH]; simpl in Hs.
  - apply StronglySorted_inv in Hs as [_ Hx].
    rewrite List.Forall_forall in Hx. apply Hx.
    apply in_or_app. right. by left.
  - apply StronglySorted_inv in Hs as [Hs _]. by apply IH.
Qed.

Lemma precedes_cons (x y z : A) l : precedes x y l -> precedes x y (z :: l).
Proof. intros (l1 & l2 & l3 & ->). by exists (z :: l1), l2, l3. Qed.

Lemma precedes_head (x y : A) l : In y l -> precedes x y (x :: l).
Proof.
  intros Hy. apply in_split in Hy as (l2 & l3 & ->). by exists [], l2, l3.
Qed.

Lemma precedes_total (x y : A) l :
  x <> y -> In x l -> In y l -> precedes x y l \/ precedes y x l.
Proof.
  intros Hne. induction l as [|z l IH]; simpl; [done|].
  intros [->|Hx] [->|Hy]; try congruence.
  - left. by apply precedes_head.
  - right. by apply precedes_head.
  - destruct (IH Hx Hy); [left|right]; by apply precedes_cons.
Qed.

End Precedes.

End SortFacts.



(* ===================================================================== *)
(** * Record normalisation                                                *)
(* ===================================================================== *)

Module NormalizerFacts.

Import Analytics Samples.

Lemma get_csv_row (r : row) key :
  csv_row r -> cell_or_zero (get r key (PInt 0)).
Proof.
  intros Hrow. unfold get, cell_or_zero.
  destruct (r !! key) as [v|] eqn:Hv; [|by right; right].
  specialize (Hrow key v Hv). simpl in Hrow.
  destruct v; try done; [by left | right; left; eauto].
Qed.

Lemma cell_or_zero_or v : cell_or_zero v -> cell_or_zero (py_or v (PInt 0)).
Proof.
  intros Hv. unfold py_or. destruct (truthy v); [done|]. by right; right.
Qed.

Lemma int_of_str_recoverable s : recoverable (int_of_str s).
Proof.
  unfold int_of_str.
  match goal with |- recoverable (match ?p with _ => _ end) => by destruct p end.
Qed.

Lemma float_of_str_recoverable s : recoverable (float_of_str s).
Proof. unfold float_of_str. by destruct (float_literal s). Qed.

Lemma int_of_recoverable v : cell_or_zero v -> recoverable (int_of v).
Proof.
  intros [->|[[s ->]| ->]]; simpl; auto using int_of_str_recoverable.
Qed.

Lemma float_of_recoverable v : cell_or_zero v -> recoverable (float_of v).
Proof.
  intros [->|[[s ->]| ->]]; simpl; auto using float_of_str_recoverable.
Qed.

Ltac recover H :=
  match type of H with
  | recoverable ?m =>
      let e := fresh "e" in
      destruct m as [?|e]; simpl in H |- *; [|rewrite ?H]
  end.

(** ** Posts *)

(** The four numbers of a post row, as [get_action_items] stores them. *)
Lemma post_numbers_all_or_nothing (r : row) :
  csv_row r ->
  post_numbers r =
    Ok match parsed_post_numbers r with
       | Some (v, reactions, comments, shares) =>
           (NFloat v, reactions, comments, shares)
       | None => (NInt 0, 0, 0, 0)
       end.
Proof.
  intros Hrow. unfold post_numbers, parsed_post_numbers.
  pose proof (float_of_recoverable _ (get_csv_row r "virality_score" Hrow)) as Hv.
  pose proof (int_of_recoverable _ (get_csv_row r "reaction_count" Hrow)) as Hr.
  pose proof (int_of_recoverable _ (get_csv_row r "comments_count" Hrow)) as Hc.
  pose proof (int_of_recoverable _ (get_csv_row r "share_count" Hrow)) as Hs.
  recover Hv; [|done]. recover Hr; [|done]. recover Hc; [|done].
  recover Hs; done.
Qed.

Lemma post_item_total (r : row) : csv_row r -> exists item, post_item r = Ok item.
Proof.
  intros Hrow. unfold post_item.
  rewrite (post_numbers_all_or_nothing r Hrow).
  simpl. repeat case_match; eauto.
Qed.

(** The same four numbers, as [get_top_posts] writes them into the row. *)
Lemma zero_numeric_fields_insert (r : row) key v :
  key = "virality_score" \/ key = "reaction_count"
  \/ key = "comments_count" \/ key = "share_count" ->
  zero_numeric_fields (<[key := v]> r) = zero_numeric_fields r.
Proof.
  intros Hkey. unfold zero_numeric_fields. apply map_eq. intros k.
  destruct Hkey as [->|[->|[->| ->]]];
    rewrite !lookup_insert; repeat case_decide; congruence.
Qed.

Lemma get_insert_ne (r : row) k1 k2 v d :
  k1 <> k2 -> get (<[k1 := v]> r) k2 d = get r k2 d.
Proof. intros Hne. unfold get. by rewrite lookup_insert_ne. Qed.

Lemma normalize_row_all_or_nothing (r : row) :
  csv_row r ->
  normalize_row r =
    Ok match parsed_post_numbers r with
       | Some (v, reactions, comments, shares) =>
           <["share_count" := PInt shares]>
             (<["comments_count" := PInt comments]>
                (<["reaction_count" := PInt reactions]>
                   (<["virality_score" := PFloat v]> r)))
       | None => zero_numeric_fields r
       end.
Proof.
  intros Hrow.
  unfold normalize_row, convert_numeric_fields, parsed_post_numbers.
  pose proof (float_of_recoverable _ (get_csv_row r "virality_score" Hrow)) as Hv.
  pose proof (int_of_recoverable _ (get_csv_row r "reaction_count" Hrow)) as Hr.
  pose proof (int_of_recoverable _ (get_csv_row r "comments_count" Hrow)) as Hc.
  pose proof (int_of_recoverable _ (get_csv_row r "share_count" Hrow)) as Hs.
  recover Hv; [|done]. rewrite !get_insert_ne by done. recover Hr.
  2:{ by rewrite zero_numeric_fields_insert by auto. }
  rewrite !get_insert_ne by done. recover Hc.
  2:{ by rewrite !zero_numeric_fields_insert by auto. }
  rewrite !get_insert_ne by done. recover Hs; [done|].
  by rewrite !zero_numeric_fields_insert by auto.
Qed.

(** ** Comments *)

Lemma comment_numbers_all_or_nothing (r : row) :
  csv_row r ->
  comment_numbers r =
    Ok match parsed_comment_numbers r with
       | Some (likes, replies) => (likes, replies, likes + replies * 2)
       | None => (0, 0, 0)
       end.
Proof.
  intros Hrow. unfold comment_numbers, parsed_comment_numbers.
  pose proof (int_of_recoverable _
    (cell_or_zero_or _ (get_csv_row r "likes_count" Hrow))) as Hl.
  pose proof (int_of_recoverable _
    (cell_or_zero_or _ (get_csv_row r "comments_count" Hrow))) as Hc.
  recover Hl; [|done]. recover Hc; done.
Qed.

Lemma comment_item_total (r : row) :
  csv_row r -> exists item, comment_item r = Ok item.
Proof.
  intros Hrow. unfold comment_item.
  rewrite (comment_numbers_all_or_nothing r Hrow).
  simpl. repeat case_match; eauto.
Qed.

(** ** The loops *)

Lemma collect_total {A B} (f : A -> res B) (l : list A) :
  Forall (fun x => exists y, f x = Ok y) l ->
  length (collect f l) = length l.
Proof.
  induction 1 as [|x l [y Hy] Hl IH]; simpl; [done|].
  rewrite Hy. simpl. by rewrite IH.
Qed.

Lemma mapM_total {A B} (f : A -> res B) (l : list A) :
  Forall (fun x => exists y, f x = Ok y) l ->
  exists ys, mapM f l = Ok ys /\ length ys = length l.
Proof.
  induction 1 as [|x l [y Hy] Hl (ys & Hys & Hlen)]; simpl; [by exists []|].
  rewrite Hy, Hys. simpl. exists (y :: ys). simpl. by rewrite Hlen.
Qed.


Lemma csv_row_insert (r : row) key v :
  csv_cell v -> csv_row r -> csv_row (<[key := v]> r).
Proof. intros Hv Hr. by apply map_Forall_insert_2. Qed.

Lemma csv_row_singleton key v : csv_cell v -> csv_row {[key := v]}.
Proof. intros Hv. by apply map_Forall_singleton. Qed.

Lemma csv_row_post_row id v r c s : csv_row (post_row id v r c s).
Proof.
  unfold post_row. repeat (apply csv_row_insert; [exact I|]).
  apply map_Forall_empty.
Qed.

Lemma csv_row_comment_row id l r t : csv_row (comment_row id l r t).
Proof.
  unfold comment_row. repeat (apply csv_row_insert; [exact I|]).
  apply map_Forall_empty.
Qed.

(** C6, as the code has it: the inner handler of a post row replaces all
    four numeric fields by 0 as soon as one conversion fails, and that of a
    comment row both counts and the score; the fields keep their parsed
    values only when every conversion of the row succeeds. Every row of the
    file yields one record, in [get_action_items] and in [get_top_posts]:
    no row stops the loop. *)
Theorem unparseable_field_zeroes_the_row_numbers (rows : list row) :
  Forall csv_row rows ->
  Forall (fun r =>
            post_numbers r =
              Ok match parsed_post_numbers r with
                 | Some (v, reactions, comments, shares) =>
                     (NFloat v, reactions, comments, shares)
                 | None => (NInt 0, 0, 0, 0)
                 end
            /\ normalize_row r =
              Ok match parsed_post_numbers r with
                 | Some (v, reactions, comments, shares) =>
                     <["share_count" := PInt shares]>
                       (<["comments_count" := PInt comments]>
                          (<["reaction_count" := PInt reactions]>
                             (<["virality_score" := PFloat v]> r)))
                 | None => zero_numeric_fields r
                 end
            /\ comment_numbers r =
              Ok match parsed_comment_numbers r with
                 | Some (likes, replies) =>
                     (likes, replies, likes + replies * 2)
                 | None => (0, 0, 0)
                 end) rows
  /\ length (load_posts (Some rows)) = length rows
  /\ length (load_comments (Some rows)) = length rows
  /\ exists posts,
       mapM normalize_row rows = Ok posts /\ length posts = length rows.
Proof.
  intros Hrows. repeat split.
  - eapply Forall_impl; [exact Hrows|]. intros r Hr.
    auto using post_numbers_all_or_nothing, normalize_row_all_or_nothing,
      comment_numbers_all_or_nothing.
  - apply collect_total. eapply Forall_impl; [exact Hrows|].
    apply post_item_total.
  - apply collect_total. eapply Forall_impl; [exact Hrows|].
    apply comment_item_total.
  - apply mapM_total. eapply Forall_impl; [exact Hrows|].
    intros r Hr. rewrite (normalize_row_all_or_nothing r Hr). eauto.
Qed.

Lemma unparseable_field_zeroes_the_row_numbers_witness :
  Forall csv_row [bad_shares; clean_post]
  /\ length (load_posts (Some [bad_shares; clean_post])) = 2%nat
  /\ post_numbers bad_shares = Ok (NInt 0, 0, 0, 0).
Proof.
  assert (Hrows : Forall csv_row [bad_shares; clean_post])
    by (repeat constructor; apply csv_row_post_row).
  destruct (unparseable_field_zeroes_the_row_numbers _ Hrows)
    as (Hnumbers & Hposts & _).
  split; [exact Hrows|]. split; [exact Hposts|].
  apply Forall_inv in Hnumbers as [Hpost _].
  rewrite Hpost. vm_compute. reflexivity.
Defined.

(** C6 as stated fails: in a row whose share count is not a number, the
    reaction count "3" and the score "5.0" parse, yet the record carries 0
    for them. *)
Lemma one_bad_field_zeroes_its_neighbours :
  csv_row bad_shares
  /\ int_of (get bad_shares "reaction_count" (PInt 0)) = Ok 3
  /\ reaction_count <$> post_item bad_shares = Ok 0
  /\ virality_score <$> post_item bad_shares = Ok (NInt 0)
  /\ (fun r : row => r !! "reaction_count") <$> normalize_row bad_shares
     = Ok (Some (PInt 0)).
Proof.
  split; [apply csv_row_post_row|]. vm_compute. done.
Qed.

Lemma comment_numbers_sum (r : row) likes replies score :
  comment_numbers r = Ok (likes, replies, score) ->
  score = likes + 2 * replies.
Proof.
  unfold comment_numbers.
  destruct (int_of (py_or (get r "likes_count" _) _)) as [x|e]; cbn.
  - destruct (int_of (py_or (get r "comments_count" _) _)) as [y|e]; cbn.
    + intros [= <- <- <-]. lia.
    + destruct (is_value_or_type_error e); [|discriminate].
      intros [= <- <- <-]. lia.
  - destruct (is_value_or_type_error e); [|discriminate].
    intros [= <- <- <-]. lia.
Qed.


End NormalizerFacts.



(* ===================================================================== *)
(** * Ranking                                                             *)
(* ===================================================================== *)

Module RankingFacts.

Import Analytics Samples SliceFacts SortFacts NormalizerFacts.

(** ** The order of floats that are not NaN *)

Ltac compare_cases :=
  repeat match goal with
         | |- context [Z.compare ?x ?y] =>
             destruct (Z.compare_spec x y); subst; simpl
         | H : context [Z.compare ?x ?y] |- _ =>
             destruct (Z.compare_spec x y); subst; simpl in H
         | |- context [Pos.compare_cont Eq ?x ?y] =>
             change (Pos.compare_cont Eq x y) with (Pos.compare x y)
         | H : context [Pos.compare_cont Eq ?x ?y] |- _ =>
             change (Pos.compare_cont Eq x y) with (Pos.compare x y) in H
         | |- context [Pos.compare ?x ?y] =>
             destruct (Pos.compare_spec x y); subst; simpl
         | H : context [Pos.compare ?x ?y] |- _ =>
             destruct (Pos.compare_spec x y); subst; simpl in H
         end.

Lemma flt_asym (a b : float) : flt a b = true -> flt b a = false.
Proof.
  unfold flt, SFltb, SFcompare.
  destruct a as [sa|sa| |sa ma ea], b as [sb|sb| |sb mb eb];
    try destruct sa; try destruct sb; simpl; try done;
    compare_cases; try done; lia.
Qed.

Lemma flt_ge_trans (a b c : float) :
  is_nan a = false -> is_nan b = false -> is_nan c = false ->
  flt b a = false -> flt c b = false -> flt c a = false.
Proof.
  unfold flt, SFltb, SFcompare.
  destruct a as [sa|sa| |sa ma ea], b as [sb|sb| |sb mb eb],
           c as [sc|sc| |sc mc ec];
    try destruct sa; try destruct sb; try destruct sc; simpl; try done;
    intros _ _ _; compare_cases; try done; lia.
Qed.


Lemma feq_sym (a b : float) : SFeqb a b = SFeqb b a.
Proof.
  unfold SFeqb, SFcompare.
  destruct a as [sa|sa| |sa ma ea], b as [sb|sb| |sb mb eb];
    try destruct sa; try destruct sb; simpl; try done;
    compare_cases; try done; lia.
Qed.

(** ** The order of the comment keys *)

Lemma num_ltb_asym (a b : num) : num_ltb a b = true -> num_ltb b a = false.
Proof.
  destruct a as [x|f], b as [y|g]; simpl; try apply flt_asym.
  intros H. apply Z.ltb_lt in H. apply Z.ltb_ge. lia.
Qed.

Lemma num_eqb_sym (a b : num) : num_eqb a b = num_eqb b a.
Proof.
  destruct a as [x|f], b as [y|g]; simpl; try apply feq_sym.
  apply Z.eqb_sym.
Qed.

Lemma key_ltb_asym (a b : num * Z) :
  key_ltb a b = true -> key_ltb b a = false.
Proof.
  unfold key_ltb, pair_ltb. rewrite (num_eqb_sym (fst b)).
  destruct (num_eqb (fst a) (fst b)).
  - intros H. apply Z.ltb_lt in H. apply Z.ltb_ge. lia.
  - apply num_ltb_asym.
Qed.

Lemma key_ltb_int x s y t :
  key_ltb (NInt x, s) (NInt y, t) = if x =? y then s <? t else x <? y.
Proof. reflexivity. Qed.

Lemma key_ltb_ge_trans (a b c : num * Z) :
  int_key a -> int_key b -> int_key c ->
  key_ltb b a = false -> key_ltb c b = false -> key_ltb c a = false.
Proof.
  destruct a as [a s], b as [b t], c as [c u].
  intros [x Hx] [y Hy] [z Hz]. simpl in *. subst.
  rewrite !key_ltb_int.
  destruct (Z.eqb_spec y x), (Z.eqb_spec z y), (Z.eqb_spec z x);
    rewrite ?Z.ltb_ge, ?Z.ltb_lt; lia.
Qed.

Lemma comment_item_shape (r : row) c :
  comment_item r = Ok c ->
  type c = "comment" /\ exists z, virality_score c = NInt z.
Proof.
  unfold comment_item.
  destruct (comment_numbers r) as [[[likes replies] score]|]; [|discriminate].
  cbn. intros [= <-]. cbn. eauto.
Qed.

Lemma post_item_shape (r : row) p : post_item r = Ok p -> type p = "post".
Proof.
  unfold post_item.
  destruct (post_numbers r) as [[[[v reactions] cs] shares]|]; [|discriminate].
  cbn. by intros [= <-].
Qed.

Lemma collect_forall {A B} (f : A -> res B) (P : B -> Prop) (l : list A) :
  (forall x y, f x = Ok y -> P y) -> Forall P (collect f l).
Proof.
  intros Hf. induction l as [|x l IH]; simpl; [constructor|].
  destruct (f x) eqn:Hx; [|constructor]. constructor; eauto.
Qed.

Lemma load_comments_shape csv :
  Forall (fun c => type c = "comment" /\ exists z, virality_score c = NInt z)
         (load_comments csv).
Proof.
  destruct csv as [rows|]; simpl; [|constructor].
  apply collect_forall, comment_item_shape.
Qed.

Lemma load_posts_shape csv :
  Forall (fun p => type p = "post") (load_posts csv).
Proof.
  destruct csv as [rows|]; simpl; [|constructor].
  apply collect_forall, post_item_shape.
Qed.

Section Comments.

Variable iso_timestamp : string -> option Z.

Abbreviation key := (comment_sort_key iso_timestamp).
Abbreviation rank := (rank_comments iso_timestamp).

Lemma comment_key_int csv :
  Forall (fun c => int_key (key c)) (load_comments csv).
Proof.
  eapply Forall_impl; [apply load_comments_shape|].
  intros c [_ [z Hz]]. exists (- z). simpl. by rewrite Hz.
Qed.

Lemma rank_comments_perm comments : Permutation (rank comments) comments.
Proof. apply sort_by_perm. Qed.

Lemma rank_comments_sorted csv :
  StronglySorted (fun x y => key_ltb (key y) (key x) = false)
                 (rank (load_comments csv)).
Proof.
  apply (sort_by_ascending key_ltb int_key key_ltb_asym key_ltb_ge_trans).
  apply comment_key_int.
Qed.

(** A comment whose key is strictly smaller stands first. *)
Lemma smaller_key_first csv (a b : action_item) :
  In a (load_comments csv) -> In b (load_comments csv) ->
  key_ltb (key a) (key b) = true ->
  precedes a b (rank (load_comments csv))
  /\ ~ precedes b a (rank (load_comments csv)).
Proof.
  intros Ha Hb Hlt.
  assert (Hnot : ~ precedes b a (rank (load_comments csv))).
  { intros Hp.
    pose proof (precedes_sorted _ _ _ _ (rank_comments_sorted csv) Hp) as Hge.
    simpl in Hge. congruence. }
  split; [|exact Hnot].
  destruct (precedes_total a b (rank (load_comments csv))) as [H|H];
    [| | |exact H|contradiction].
  - intros ->. apply key_ltb_asym in Hlt as Hlt'. congruence.
  - eapply Permutation_in; [symmetry; apply rank_comments_perm|done].
  - eapply Permutation_in; [symmetry; apply rank_comments_perm|done].
Qed.

Lemma equal_scores_key_ltb csv (a b : action_item) :
  In a (load_comments csv) -> In b (load_comments csv) ->
  virality_score a = virality_score b ->
  key_ltb (key a) (key b)
  = (timestamp_key iso_timestamp a <? timestamp_key iso_timestamp b).
Proof.
  intros Ha Hb Heq.
  pose proof (load_comments_shape csv) as Hshape.
  rewrite List.Forall_forall in Hshape.
  destruct (Hshape a Ha) as [_ [z Hz]].
  unfold comment_sort_key. rewrite <- Heq, Hz. simpl.
  rewrite key_ltb_int. by rewrite Z.eqb_refl.
Qed.


End Comments.



(** ** Posts *)

Lemma rank_posts_perm posts : Permutation (rank_posts posts) posts.
Proof. apply sort_by_perm. Qed.

Lemma rank_posts_sorted posts :
  Forall (fun p => is_nan (to_float (virality_score p)) = false) posts ->
  StronglySorted
    (fun x y => flt (to_float (virality_score x)) (to_float (virality_score y))
                = false)
    (rank_posts posts).
Proof.
  intros Hnan.
  by apply (sort_by_descending flt (fun f => is_nan f = false)
              flt_asym flt_ge_trans).
Qed.

Lemma no_nan_check (posts : list action_item) :
  forallb (fun p => negb (is_nan (to_float (virality_score p)))) posts = true ->
  Forall (fun p => is_nan (to_float (virality_score p)) = false) posts.
Proof.
  intros H. apply List.Forall_forall. intros p Hp.
  rewrite forallb_forall in H. specialize (H p Hp).
  by destruct (is_nan _).
Qed.

Lemma app_lookup_types (ps cs : list action_item) i j x y :
  Forall (fun p => type p = "post") ps ->
  Forall (fun c => type c = "comment") cs ->
  (ps ++ cs) !! i = Some x -> (ps ++ cs) !! j = Some y ->
  type x = "post" -> type y = "comment" -> (i < j)%nat.
Proof.
  intros Hps Hcs Hx Hy Tx Ty.
  destruct (decide (i < length ps)%nat) as [Hi|Hi].
  - destruct (decide (j < length ps)%nat) as [Hj|Hj]; [|lia].
    rewrite lookup_app_l in Hy by done.
    rewrite Forall_lookup in Hps. specialize (Hps _ _ Hy). congruence.
  - rewrite lookup_app_r in Hx by lia.
    rewrite Forall_lookup in Hcs. specialize (Hcs _ _ Hx). congruence.
Qed.



End RankingFacts.



(* ===================================================================== *)
(** * Distributions                                                       *)
(* ===================================================================== *)

Module AggregatorFacts.

Import Analytics Samples.

(** ** Every row lands in exactly one bucket *)

Lemma total_of_delete (d : gmap string Z) key n :
  d !! key = Some n -> total_of d = n + total_of (delete key d).
Proof.
  intros Hn. unfold total_of.
  apply (map_fold_delete_L (fun _ n acc => n + acc)); [|done].
  intros. lia.
Qed.

Lemma increment_total (d d' : gmap string Z) key :
  increment key d = Ok d' -> total_of d' = total_of d + 1 /\ dom d' = dom d.
Proof.
  unfold increment. destruct (d !! key) as [n|] eqn:Hn; [|discriminate].
  intros [= <-]. split.
  - rewrite (total_of_delete d key n Hn).
    rewrite (total_of_delete (<[key := n + 1]> d) key (n + 1))
      by apply lookup_insert_eq.
    rewrite delete_insert_eq. lia.
  - apply dom_insert_lookup_L. eauto.
Qed.

Lemma bucket_total (d d' : gmap string Z) label fallback :
  bucket label fallback d = Ok d' ->
  total_of d' = total_of d + 1 /\ dom d' = dom d.
Proof. unfold bucket. case_decide; apply increment_total. Qed.

Lemma bucket_defined (d : gmap string Z) label fallback :
  is_Some (d !! fallback) -> exists d', bucket label fallback d = Ok d'.
Proof.
  intros [m Hm]. unfold bucket, increment. case_decide as Hl.
  - destruct Hl as [n ->]. eauto.
  - rewrite Hm. eauto.
Qed.

Lemma count_category_step (r : row) c0 n0 c1 n1 :
  count_category (c0, n0) r = Ok (c1, n1) ->
  n1 = n0 + 1 /\ total_of c1 = total_of c0 + 1 /\ dom c1 = dom c0.
Proof.
  unfold count_category.
  destruct (lower_of (get r "category" (PStr ""))) as [label|];
    cbn [mbind res_bind bind]; [|discriminate].
  destruct (bucket label "other" c0) as [c|] eqn:Hb;
    cbn [mbind res_bind bind]; [|discriminate].
  intros [= <- <-]. apply bucket_total in Hb as [? ?]. done.
Qed.

(** After the loop of [get_post_categories_percentage] the counter is the
    number of rows and so is the sum of the five buckets. *)
Lemma category_counts_sum (rows : list row) categories total :
  foldlM count_category (initial_categories, 0) rows = Ok (categories, total) ->
  total = Z.of_nat (length rows)
  /\ total_of categories = Z.of_nat (length rows)
  /\ dom categories = dom initial_categories.
Proof.
  assert (Hgen : forall rows c0 n0 c n,
             foldlM count_category (c0, n0) rows = Ok (c, n) ->
             n = n0 + Z.of_nat (length rows)
             /\ total_of c = total_of c0 + Z.of_nat (length rows)
             /\ dom c = dom c0).
  { clear. induction rows as [|r rows IH]; intros c0 n0 c n;
      cbn [foldlM length]; rewrite ?Nat2Z.inj_succ.
    - intros [= <- <-]. repeat split; lia.
    - destruct (count_category (c0, n0) r) as [[c1 n1]|] eqn:Hstep;
        cbn [mbind res_bind bind]; [|discriminate].
      intros H. apply IH in H as (-> & Ht & Hd).
      apply count_category_step in Hstep as (-> & Ht1 & Hd1).
      repeat split; [lia | lia | congruence]. }
  intros H. apply Hgen in H as (-> & Ht & Hd).
  assert (total_of initial_categories = 0) as Hzero
    by (vm_compute; reflexivity).
  repeat split; [lia | done].
Qed.

Lemma count_sentiment_step (r : row) t0 t :
  count_sentiment t0 r = Ok t ->
  total_posts t = total_posts t0 + 1
  /\ positive_posts t + negative_posts t + neutral_posts t
     = positive_posts t0 + negative_posts t0 + neutral_posts t0 + 1
  /\ total_of (emotions t) = total_of (emotions t0) + 1.
Proof.
  unfold count_sentiment.
  destruct (lower_of (get r "sentiment" (PStr ""))) as [s|];
    cbn [mbind res_bind bind]; [|discriminate].
  repeat case_decide;
    (destruct (add_virality _ _) as [v|];
       cbn [mbind res_bind bind]; [|discriminate];
     destruct (lower_of (get r "emotion" (PStr ""))) as [e|];
       cbn [mbind res_bind bind]; [|discriminate];
     destruct (bucket e "neutral" (emotions t0)) as [e1|] eqn:Hb;
       cbn [mbind res_bind bind]; [|discriminate];
     intros [= <-]; cbn; apply bucket_total in Hb as [? ?];
     repeat split; lia).
Qed.

(** The same for the sentiment and emotion counters. *)
Lemma sentiment_counts_sum (rows : list row) t :
  foldlM count_sentiment initial_tally rows = Ok t ->
  total_posts t = Z.of_nat (length rows)
  /\ positive_posts t + negative_posts t + neutral_posts t
     = Z.of_nat (length rows)
  /\ total_of (emotions t) = Z.of_nat (length rows).
Proof.
  assert (Hgen : forall rows t0 t,
             foldlM count_sentiment t0 rows = Ok t ->
             total_posts t = total_posts t0 + Z.of_nat (length rows)
             /\ positive_posts t + negative_posts t + neutral_posts t
                = positive_posts t0 + negative_posts t0 + neutral_posts t0
                  + Z.of_nat (length rows)
             /\ total_of (emotions t)
                = total_of (emotions t0) + Z.of_nat (length rows)).
  { clear. induction rows as [|r rows IH]; intros t0 t;
      cbn [foldlM length]; rewrite ?Nat2Z.inj_succ.
    - intros [= <-]. repeat split; lia.
    - destruct (count_sentiment t0 r) as [t1|] eqn:Hstep;
        cbn [mbind res_bind bind]; [|discriminate].
      intros H. apply IH in H as (H1 & H2 & H3).
      apply count_sentiment_step in Hstep as (S1 & S2 & S3).
      repeat split; lia. }
  intros H. apply Hgen in H as (H1 & H2 & H3). cbn in H1, H2.
  change (emotions initial_tally) with initial_emotions in H3.
  assert (total_of initial_emotions = 0) as Hzero
    by (vm_compute; reflexivity).
  repeat split; lia.
Qed.

(** ** The reported shares *)

(** Where the keys of the output do not collide, every bucket is reported
    under its key as the rounded share of its count. *)
Lemma percentages_lookup (key : string -> string) (counts : gmap string Z)
    (total : Z) (result : gmap string string) :
  (forall a b, is_Some (counts !! a) -> is_Some (counts !! b) ->
               key a = key b -> a = b) ->
  percentages key counts total = Ok result ->
  forall cat n,
    counts !! cat = Some n ->
    exists p, percentage n total = Ok p /\ result !! key cat = Some p.
Proof.
  unfold percentages. revert result.
  apply (map_fold_weak_ind
           (fun (acc : res (gmap string string)) (m : gmap string Z) =>
              forall result,
                (forall a b, is_Some (m !! a) -> is_Some (m !! b) ->
                             key a = key b -> a = b) ->
                acc = Ok result ->
                (forall cat n, m !! cat = Some n ->
                   exists p, percentage n total = Ok p
                             /\ result !! key cat = Some p))).
  - intros result _ _ cat n Hcat. by rewrite lookup_empty in Hcat.
  - intros i x m acc Hfresh IH result Hinj.
    destruct acc as [partial|e]; cbn [mbind res_bind bind]; [|discriminate].
    destruct (percentage x total) as [p|e] eqn:Hp;
      cbn [mbind res_bind bind]; [|discriminate].
    intros [= <-] cat n Hcat.
    destruct (decide (i = cat)) as [->|Hne].
    + rewrite lookup_insert_eq in Hcat. injection Hcat as <-.
      exists p. by rewrite lookup_insert_eq.
    + rewrite lookup_insert_ne in Hcat by done.
      assert (Hkeys : key i <> key cat).
      { intros Heq. apply Hne, Hinj; [| |done].
        - rewrite lookup_insert_eq. eauto.
        - rewrite lookup_insert_ne by done. eauto. }
      destruct (IH partial) with (cat := cat) (n := n) as (q & Hq & Hlookup);
        [|done|done|].
      * intros a b [va Ha] [vb Hb]. apply Hinj.
        -- destruct (decide (i = a)) as [->|]; [congruence|].
           rewrite lookup_insert_ne by done. eauto.
        -- destruct (decide (i = b)) as [->|]; [congruence|].
           rewrite lookup_insert_ne by done. eauto.
      * exists q. by rewrite lookup_insert_ne.
Qed.

Lemma output_key_injective (categories : gmap string Z) a b :
  dom categories = dom initial_categories ->
  is_Some (categories !! a) -> is_Some (categories !! b) ->
  output_key a = output_key b -> a = b.
Proof.
  intros Hdom Ha Hb.
  apply elem_of_dom in Ha, Hb. rewrite Hdom in Ha, Hb.
  assert (Hlabels : forall c, c ∈ dom initial_categories ->
            c = "inquiry" \/ c = "suggestion" \/ c = "complaint"
            \/ c = "praise" \/ c = "other").
  { intros c Hc. unfold initial_categories in Hc.
    rewrite !dom_insert_L, dom_singleton_L in Hc. set_solver. }
  apply Hlabels in Ha, Hb.
  destruct Ha as [->|[->|[->|[->| ->]]]], Hb as [->|[->|[->|[->| ->]]]];
    by vm_compute.
Qed.

(** For a file with rows the report of the categories holds, for each of
    the five labels, the rounded share of a count, and these counts add up
    to the number of rows, which is reported as the total. *)
Lemma categories_report_shares (rows : list row) categories total result :
  foldlM count_category (initial_categories, 0) rows = Ok (categories, total) ->
  0 < total ->
  percentages output_key categories total = Ok result ->
  get_post_categories_percentage (Some rows)
  = <["total_number_of_posts" := PInt total]> (PStr <$> result)
  /\ total = Z.of_nat (length rows)
  /\ total_of categories = total
  /\ forall cat n,
       categories !! cat = Some n ->
       exists p, percentage n total = Ok p
                 /\ result !! output_key cat = Some p.
Proof.
  intros Hloop Hpos Hreport.
  pose proof (category_counts_sum rows categories total Hloop)
    as (Htotal & Hsum & Hdom).
  split; [|split; [done|split; [lia|]]].
  - unfold get_post_categories_percentage. rewrite Hloop.
    cbn [mbind res_bind bind].
    destruct (Z.ltb_spec 0 total); [|lia].
    by rewrite Hreport.
  - apply percentages_lookup; [|done].
    intros a b. by apply output_key_injective.
Qed.

(** ** No rows *)

(** C1 at a posts file that holds the header line only: the categories
    report "0%" for every label, as they do when the file is missing, but
    the sentiment and emotion distributions are empty mappings: no label
    reports "0%", although the missing-file path of the same function
    reports "0%" for each of them. *)
Theorem sentiment_distributions_of_no_rows_are_empty :
  get_sentiment_analysis (Some [])
  = {| bank_sentiment_score := 0;
       engagement_weighted_sentiment := NInt 0;
       sentiment_distribution := ∅;
       emotion_distribution := ∅ |}
  /\ sentiment_distribution (get_sentiment_analysis (Some [])) !! "positive"
     = None
  /\ emotion_distribution (get_sentiment_analysis (Some [])) !! "joy" = None
  /\ sentiment_distribution (get_sentiment_analysis None) !! "positive"
     = Some "0%"
  /\ emotion_distribution (get_sentiment_analysis None) !! "joy" = Some "0%"
  /\ get_post_categories_percentage (Some []) = zero_categories.
Proof. repeat split; by vm_compute. Qed.

End AggregatorFacts.



(* ===================================================================== *)
(** * The scraper trigger                                                 *)
(* ===================================================================== *)

Module ReanalyzeFacts.

Import Api Samples.

Lemma validate_counts_accepts (p o : jval) (r : outcome + Z * Z) :
  validate_counts p o = Ok r ->
  match r with
  | inl refusal => code refusal = 400 /\ started refusal = None
  | inr (a, b) =>
      int_of_json p = Ok a /\ int_of_json o = Ok b
      /\ 1 <= a <= 200 /\ 1 <= b <= 200
  end.
Proof.
  unfold validate_counts.
  destruct (int_of_json p) as [x|e]; cbn [mbind res_bind bind].
  2:{ destruct (Analytics.is_value_or_type_error e); [|discriminate].
      by intros [= <-]. }
  destruct (int_of_json o) as [y|e]; cbn [mbind res_bind bind].
  2:{ destruct (Analytics.is_value_or_type_error e); [|discriminate].
      by intros [= <-]. }
  destruct (Z.ltb_spec x 1), (Z.ltb_spec 200 x); cbn;
    try (by intros [= <-]).
  destruct (Z.ltb_spec y 1), (Z.ltb_spec 200 y); cbn;
    by intros [= <-].
Qed.

(** A scraper run starts only with a 200 answer, when the recorded status
    is not 'running', and with two counts between 1 and 200; every other
    answer starts nothing. *)
Lemma reanalyze_starts_only_valid_runs scraper request :
  match started (reanalyze scraper request) with
  | Some (a, b) =>
      code (reanalyze scraper request) = 200
      /\ status scraper <> "running"
      /\ 1 <= a <= 200 /\ 1 <= b <= 200
  | None => code (reanalyze scraper request) = 400
            \/ code (reanalyze scraper request) = 500
  end.
Proof.
  unfold reanalyze.
  destruct request as [|d|[|]]; cbn; auto.
  destruct (_ || _); cbn; auto.
  destruct (String.eqb_spec (status scraper) "running") as [Hrun|Hrun];
    cbn; auto.
  destruct (validate_counts _ _) as [[refusal|[a b]]|e] eqn:Hv;
    cbn; auto.
  - apply validate_counts_accepts in Hv as [-> ->]. auto.
  - apply validate_counts_accepts in Hv as (_ & _ & ? & ?). auto.
Qed.

(** While a run is recorded as running, a well-formed request gets 400 and
    starts nothing. *)
Lemma reanalyze_refuses_while_running scraper d :
  status scraper = "running" ->
  is_reanalyze (d !! "content") = true ->
  reanalyze scraper (JsonDict d)
  = refuse 400 "Scraper is already running".
Proof.
  intros Hrun Hcontent. unfold reanalyze. rewrite Hcontent, Hrun.
  destruct (size d =? 0)%nat eqn:Hsize; [|reflexivity].
  apply Nat.eqb_eq, map_size_empty_iff in Hsize. subst.
  by rewrite lookup_empty in Hcontent.
Qed.

(** C8 at the body [{"content": "reanalyze", "prime_bank_posts": 3.7}]: the
    count is not an integer, yet [int()] truncates it to 3, the request is
    answered with 200 and a scraper run with 3 and 15 posts is started. A
    count of [true] is taken as 1 in the same way, and an infinite count
    is answered with 500, not 400. The message of the validation block says
    that the counts must be integers. *)
Theorem reanalyze_accepts_a_fractional_count :
  reanalyze idle (reanalyze_with (PFloat (float_of_decimal 37 (-1))))
  = {| code := 200; reply := Running 3 15; started := Some (3, 15) |}
  /\ reanalyze idle (reanalyze_with (PBool true))
     = {| code := 200; reply := Running 1 15; started := Some (1, 15) |}
  /\ reanalyze idle (reanalyze_with (PFloat (S754_infinity false)))
     = refuse 500 "Internal server error"
  /\ reanalyze idle (reanalyze_with (PStr "abc"))
     = refuse 400 "prime_bank_posts and other_banks_posts must be integers"
  /\ reanalyze idle (reanalyze_with (PInt 201))
     = refuse 400 "prime_bank_posts must be between 1 and 200".
Proof. repeat split; by vm_compute. Qed.

End ReanalyzeFacts.



(* ===================================================================== *)
(** * The read-only handlers and the object store                         *)
(* ===================================================================== *)

Module StoreFacts.

Import Main Samples SliceFacts.

Section Keeps.

Variable h0 : gmap loc obj.

Abbreviation safe m := (keeps h0 m (fun _ => True)).

Lemma keeps_ret {A} (a : A) (Q : A -> Prop) : Q a -> keeps h0 (mret a) Q.
Proof. intros Ha w Hw. split; [done|]. by intros ? [= <-]. Qed.

Lemma keeps_raise {A} (e : exn) (Q : A -> Prop) : keeps h0 (raise e) Q.
Proof. intros w Hw. by split. Qed.

Lemma keeps_weaken {A} (m : M A) (Q R : A -> Prop) :
  keeps h0 m Q -> (forall a, Q a -> R a) -> keeps h0 m R.
Proof.
  intros Hm HQR w Hw. destruct (Hm w Hw) as [Hs Ha]. split; auto.
Qed.

Lemma keeps_bind {A B} (m : M A) (k : A -> M B) (Q : A -> Prop)
    (R : B -> Prop) :
  keeps h0 m Q -> (forall a, Q a -> keeps h0 (k a) R) ->
  keeps h0 (m ≫= k) R.
Proof.
  intros Hm Hk w Hw. destruct (Hm w Hw) as [Hs Ha].
  unfold mbind, M_bind. destruct (m w) as [[a|e] w']; simpl in *.
  - apply Hk; auto.
  - by split.
Qed.

Lemma safe_bind {A B} (m : M A) (k : A -> M B) (R : B -> Prop) :
  safe m -> (forall a, keeps h0 (k a) R) -> keeps h0 (m ≫= k) R.
Proof. intros Hm Hk. apply (keeps_bind m k (fun _ => True)); auto. Qed.

Lemma keeps_catch {A} (m : M A) (h : exn -> M A) (Q : A -> Prop) :
  keeps h0 m Q -> (forall e, keeps h0 (h e) Q) -> keeps h0 (catch m h) Q.
Proof.
  intros Hm Hh w Hw. destruct (Hm w Hw) as [Hs Ha].
  unfold catch. destruct (m w) as [[a|e] w']; simpl in *.
  - split; auto.
  - apply Hh; auto.
Qed.

(** *** The store *)

Lemma keeps_deref l : safe (deref l).
Proof.
  intros w Hw. unfold deref. by destruct (store w !! l); simpl.
Qed.

Lemma keeps_alloc o : keeps h0 (alloc o) (fun l => l ∉ dom h0).
Proof.
  intros w Hw. unfold alloc. simpl.
  pose proof (is_fresh (dom (store w))) as Hfresh.
  split.
  - apply insert_subseteq_r; [|done].
    apply not_elem_of_dom. intros Hin. apply Hfresh.
    by apply (subseteq_dom h0 (store w)).
  - intros l [= <-]. intros Hin. apply Hfresh.
    by apply (subseteq_dom h0 (store w)).
Qed.

Lemma keeps_assign l o : l ∉ dom h0 -> safe (assign l o).
Proof.
  intros Hl w Hw. unfold assign. simpl. split; [|done].
  apply insert_subseteq_r; [|done]. by apply not_elem_of_dom.
Qed.

Lemma safe_alloc o : safe (alloc o).
Proof. eapply keeps_weaken; [apply keeps_alloc|done]. Qed.

End Keeps.

Create HintDb safe discriminated.
#[local] Hint Resolve keeps_deref safe_alloc : safe.

Ltac safe_step :=
  lazymatch goal with
  | |- keeps _ (mret _) _ => apply keeps_ret; try exact I
  | |- keeps _ (raise _) _ => apply keeps_raise
  | |- keeps _ (_ ≫= _) _ => apply safe_bind; [ | intros ? ]
  | |- keeps _ (catch _ _) _ => apply keeps_catch; [ | intros ? ]
  | |- keeps _ (match ?x with _ => _ end) _ => destruct x
  | |- forall _, _ => intros
  end.

Ltac safe := repeat first [ solve [auto with safe] | safe_step ].

Section Operations.

Variable h0 : gmap loc obj.

Abbreviation safe m := (keeps h0 m (fun _ => True)).

Lemma safe_getitem v key : safe (getitem v key).
Proof. unfold getitem. safe. Qed.

Lemma safe_as_dict v : safe (as_dict v).
Proof. unfold as_dict. safe. Qed.

Hint Resolve safe_getitem safe_as_dict : safe.

Lemma safe_get_method v key default : safe (get_method v key default).
Proof. unfold get_method. safe. Qed.

Lemma safe_lower_val v : safe (lower_val v).
Proof. unfold lower_val. safe. Qed.

Lemma safe_iterate v : safe (iterate v).
Proof. unfold iterate. safe. Qed.

Lemma safe_len v : safe (len v).
Proof. unfold len. safe. Qed.

Lemma safe_take v limit : safe (take v limit).
Proof. unfold take. safe. Qed.

Hint Resolve safe_get_method safe_lower_val safe_iterate safe_len
  safe_take : safe.

(** A copy is a new object. *)
Lemma keeps_copy v : keeps h0 (copy v) (outside h0).
Proof.
  unfold copy. destruct v as [|l]; [apply keeps_raise|].
  apply safe_bind; [apply keeps_deref|]. intros o.
  eapply keeps_bind; [apply keeps_alloc|].
  intros l' Hl'. by apply keeps_ret.
Qed.

(** Writing into an object that is not one of [h0]. *)
Lemma safe_setitem v key x : outside h0 v -> safe (setitem v key x).
Proof.
  intros Hv. unfold setitem. destruct v as [|l]; [apply keeps_raise|].
  apply safe_bind; [apply keeps_deref|].
  intros [entries|elems]; [by apply keeps_assign|apply keeps_raise].
Qed.

Lemma safe_append l x : l ∉ dom h0 -> safe (append l x).
Proof.
  intros Hl. unfold append. apply safe_bind; [apply keeps_deref|].
  intros [entries|elems]; [apply keeps_raise|by apply keeps_assign].
Qed.

Lemma safe_filterM {A} (p : A -> M bool) (l : list A) :
  (forall x, safe (p x)) -> safe (filterM p l).
Proof. intros Hp. induction l as [|x l IH]; simpl; safe. Qed.

Lemma safe_forM {A} (f : A -> M unit) (l : list A) :
  (forall x, safe (f x)) -> safe (forM f l).
Proof. intros Hf. induction l as [|x l IH]; simpl; safe. Qed.

Lemma safe_path_get path : forall v, safe (path_get v path).
Proof. induction path as [|key path IH]; intros v; simpl; safe. Qed.

Hint Resolve safe_path_get : safe.

(** *** The handlers *)

Variable DASHBOARD_DATA : val.
Variable isoformat : nat -> string.

Lemma safe_timestamp : safe (get_current_timestamp isoformat).
Proof. intros w Hw. by split. Qed.

Hint Resolve safe_timestamp : safe.

Lemma safe_success fields : safe (success isoformat fields).
Proof. unfold success. safe. Qed.

Lemma safe_failure c error : safe (failure isoformat c error).
Proof. unfold failure. safe. Qed.

Hint Resolve safe_success safe_failure : safe.

Lemma safe_guarded m : safe m -> safe (guarded isoformat m).
Proof. intros Hm. unfold guarded. safe. Qed.

Lemma safe_health_check : safe (health_check isoformat).
Proof. unfold health_check. safe. Qed.

(** [last_updated] is written into the copy. *)
Lemma safe_get_dashboard_data :
  safe (get_dashboard_data DASHBOARD_DATA isoformat).
Proof.
  unfold get_dashboard_data. apply safe_guarded.
  eapply keeps_bind; [apply keeps_copy|]. intros response_data Hnew.
  apply safe_bind; [apply safe_timestamp|]. intros ts.
  apply safe_bind; [by apply safe_setitem|]. intros _. safe.
Qed.

Lemma safe_filter_by field wanted items :
  safe (filter_by field wanted items).
Proof.
  unfold filter_by. apply safe_bind; [safe|]. intros elems.
  apply safe_bind; [|safe]. apply safe_filterM. intros item. safe.
Qed.

Hint Resolve safe_filter_by : safe.

Lemma safe_get_action_items args :
  safe (get_action_items DASHBOARD_DATA isoformat args).
Proof. unfold get_action_items. apply safe_guarded. safe. Qed.

Lemma safe_first_with_id post_id items :
  safe (first_with_id post_id items).
Proof.
  induction items as [|item items IH]; simpl; [safe|].
  apply safe_bind; [unfold has_id; safe|]. intros found. safe.
Qed.

Hint Resolve safe_first_with_id : safe.

Lemma safe_get_action_item_by_id post_id :
  safe (get_action_item_by_id DASHBOARD_DATA isoformat post_id).
Proof. unfold get_action_item_by_id. apply safe_guarded. safe. Qed.

Lemma safe_get_section s : safe (get_section DASHBOARD_DATA isoformat s).
Proof.
  unfold get_section. apply safe_guarded.
  destruct (section_path s) as [path wrap]. safe.
Qed.

Lemma safe_get_top_posts args :
  safe (get_top_posts DASHBOARD_DATA isoformat args).
Proof. unfold get_top_posts. apply safe_guarded. safe. Qed.

Lemma safe_percent_key kv : safe (percent_key kv).
Proof. unfold percent_key. safe. Qed.

Hint Resolve safe_percent_key : safe.

Lemma safe_max_from items : forall best best_key,
  safe (max_from best best_key items).
Proof.
  induction items as [|kv items IH]; intros best best_key; simpl; safe.
Qed.

Hint Resolve safe_max_from : safe.

Lemma safe_max_item v : safe (max_item v).
Proof. unfold max_item. safe. Qed.

Hint Resolve safe_max_item : safe.

Lemma safe_get_dashboard_summary :
  safe (get_dashboard_summary DASHBOARD_DATA isoformat).
Proof. unfold get_dashboard_summary. apply safe_guarded. safe. Qed.

Lemma safe_matches q item : safe (matches q item).
Proof. unfold matches, field_contains. safe. Qed.

(** The hits are appended to a list made for this request. *)
Lemma safe_search_posts args :
  safe (search_posts DASHBOARD_DATA isoformat args).
Proof.
  unfold search_posts. apply safe_guarded.
  destruct (String.eqb _ _); [safe|].
  eapply keeps_bind; [apply keeps_alloc|]. intros results Hnew.
  apply safe_bind; [safe|]. intros action_items.
  apply safe_bind; [safe|]. intros elems.
  apply safe_bind; [|safe].
  apply safe_forM. intros item.
  apply safe_bind; [apply safe_matches|].
  intros [|]; [by apply safe_append|safe].
Qed.

Lemma safe_handle r : safe (handle DASHBOARD_DATA isoformat r).
Proof.
  destruct r; simpl;
    auto using safe_health_check, safe_get_dashboard_data,
      safe_get_action_items, safe_get_action_item_by_id, safe_get_section,
      safe_get_top_posts, safe_get_dashboard_summary, safe_search_posts.
Qed.

Lemma serve_keeps rs : forall w,
  h0 ⊆ store w -> h0 ⊆ store (snd (serve DASHBOARD_DATA isoformat rs w)).
Proof.
  induction rs as [|r rs IH]; intros w Hw; simpl; [done|].
  destruct (safe_handle r w Hw) as [Hs _].
  destruct (handle DASHBOARD_DATA isoformat r w) as [answer w'].
  specialize (IH w' Hs).
  by destruct (serve DASHBOARD_DATA isoformat rs w') as [answers w''].
Qed.

End Operations.

(** C10: serving any sequence of GET requests that read [DASHBOARD_DATA]
    leaves every object that was in the store as it was, the document and
    all that it refers to: the handlers write only into the copy, the lists
    and the dicts that they create themselves. In particular every
    top-level entry of the document reads as before. (The full-data and
    AI-overview routes use other globals.) *)
Theorem get_requests_leave_the_document_unchanged
    (DASHBOARD_DATA : val) (isoformat : nat -> string)
    (requests : list request) (w : world) :
  let w' := snd (serve DASHBOARD_DATA isoformat requests w) in
  (forall l o, store w !! l = Some o -> store w' !! l = Some o)
  /\ (forall key x,
        fst (getitem DASHBOARD_DATA key w) = Ok x ->
        fst (getitem DASHBOARD_DATA key w') = Ok x).
Proof.
  intros w'.
  assert (Hkeep : store w ⊆ store w')
    by (apply serve_keeps; done).
  assert (Hobj : forall l o, store w !! l = Some o -> store w' !! l = Some o).
  { intros l o Hl. by apply (lookup_weaken (store w)). }
  split; [exact Hobj|].
  intros key x. unfold getitem. destruct DASHBOARD_DATA as [v|root]; [done|].
  unfold mbind, M_bind, deref.
  destruct (store w !! root) as [o|] eqn:Hroot; [|done].
  rewrite (Hobj root o Hroot).
  destruct o as [entries|elems]; [destruct (entry key entries)|]; done.
Qed.

(** A session over the sample document: the dashboard, a filter, a search,
    the top posts and the summary. *)
Lemma get_requests_leave_the_document_unchanged_witness :
  fst (getitem (Ref 1%positive) "last_updated" sample_world)
  = Ok (Lit (PStr "2025-01-01T00:00:00"))
  /\ fst (getitem (Ref 1%positive) "last_updated"
            (snd (serve (Ref 1%positive) sample_clock session sample_world)))
     = Ok (Lit (PStr "2025-01-01T00:00:00")).
Proof.
  assert (H : fst (getitem (Ref 1%positive) "last_updated" sample_world)
              = Ok (Lit (PStr "2025-01-01T00:00:00")))
    by (vm_compute; reflexivity).
  split; [exact H|].
  exact (proj2 (get_requests_leave_the_document_unchanged
                  (Ref 1%positive) sample_clock session sample_world) _ _ H).
Defined.

(** ** The limit parameter *)

Lemma lookup_after_alloc (w : world) l o o' :
  store w !! l = Some o ->
  <[fresh (dom (store w)) := o']> (store w) !! l = Some o.
Proof.
  intros Hl. rewrite lookup_insert_ne; [done|].
  intros <-. apply (is_fresh (dom (store w))). apply elem_of_dom. eauto.
Qed.

(** C9, as the code has it: on both endpoints a limit of 0 applies no cap.
    On the action-items endpoint that is what an absent limit does, so the
    two requests are answered alike, whatever the filters. On the top-posts
    endpoint a limit of 0 returns the stored list itself, all of it, while
    an absent limit stands for 10 and returns a new list of the first 10
    posts. *)
Theorem zero_limit_applies_no_cap
    (isoformat : nat -> string) (args : gmap string string) (w : world)
    (root analysis posts : loc) (document fields : list (string * val))
    (elems : list val) :
  store w !! root = Some (Dict document) ->
  entry "sentiment_analysis" document = Some (Ref analysis) ->
  store w !! analysis = Some (Dict fields) ->
  entry "top_posts" fields = Some (Ref posts) ->
  store w !! posts = Some (List elems) ->
  (arg_int args "limit" None = Some 0 ->
   get_action_items (Ref root) isoformat args w
   = get_action_items (Ref root) isoformat (delete "limit" args) w)
  /\ (arg_int args "limit" (Some 10) = Some 0 ->
      fst (get_top_posts (Ref root) isoformat args w)
      = Ok {| code := 200;
              payload := [("success", Lit (PBool true));
                          ("data", Ref posts);
                          ("count", Lit (PInt (Z.of_nat (length elems))));
                          ("timestamp", Lit (PStr (isoformat (ticks w))))] |})
  /\ (args !! "limit" = None ->
      exists first_ten w',
        get_top_posts (Ref root) isoformat args w
        = (Ok {| code := 200;
                 payload := [("success", Lit (PBool true));
                             ("data", Ref first_ten);
                             ("count",
                              Lit (PInt (Z.of_nat (length (firstn 10 elems)))));
                             ("timestamp",
                              Lit (PStr (isoformat (ticks w))))] |}, w')
        /\ store w !! first_ten = None
        /\ store w' !! first_ten = Some (List (firstn 10 elems))).
Proof.
  intros Hroot Hanalysis Hfields Hposts Helems.
  split; [|split].
  - intros Hzero. unfold get_action_items.
    rewrite !lookup_delete_ne by done. rewrite Hzero.
    unfold arg_int at 1. by rewrite lookup_delete_eq.
  - intros Hzero. unfold get_top_posts, guarded, catch.
    rewrite Hzero. cbn [nonzero Z.eqb negb].
    unfold getitem, as_dict, get_method, as_dict, len, success,
      get_current_timestamp, alloc, deref, mbind, M_bind, mret, M_ret.
    rewrite Hroot, Hanalysis, Hfields. cbn [store ticks].
    rewrite (lookup_after_alloc w analysis _ _ Hfields), Hposts.
    cbn [store ticks].
    by rewrite (lookup_after_alloc w posts _ _ Helems).
  - intros Habsent. unfold get_top_posts, guarded, catch.
    unfold arg_int. rewrite Habsent. cbn [nonzero Z.eqb negb default].
    unfold getitem, as_dict, get_method, as_dict, take, len, success,
      get_current_timestamp, alloc, deref, mbind, M_bind, mret, M_ret.
    rewrite Hroot, Hanalysis, Hfields. cbn [store ticks].
    rewrite (lookup_after_alloc w analysis _ _ Hfields), Hposts.
    cbn [store ticks].
    rewrite (lookup_after_alloc w posts _ _ Helems).
    cbn [store ticks]. rewrite lookup_insert_eq.
    eexists _, _. split; [|split].
    + unfold id. rewrite slice_to_nonneg by lia. reflexivity.
    + cbn [store].
      set (w1 := <[fresh (dom (store w)) := List []]> (store w)).
      destruct (store w !! fresh (dom w1)) as [o|] eqn:Hin; [|done].
      exfalso. apply (is_fresh (dom w1)).
      apply (elem_of_dom_2 _ _ o). by apply lookup_after_alloc.
    + cbn [store]. by rewrite lookup_insert_eq.
Qed.

Lemma zero_limit_applies_no_cap_witness :
  get_action_items (Ref 1%positive) sample_clock limit_zero sample_world
  = get_action_items (Ref 1%positive) sample_clock (delete "limit" limit_zero)
      sample_world
  /\ fst (get_top_posts (Ref 1%positive) sample_clock limit_zero sample_world)
     = Ok {| code := 200;
             payload := [("success", Lit (PBool true));
                         ("data", Ref 6%positive);
                         ("count", Lit (PInt 11));
                         ("timestamp", Lit (PStr "0"))] |}.
Proof.
  pose proof (zero_limit_applies_no_cap sample_clock limit_zero sample_world
                1%positive 3%positive 6%positive _ _ _
                ltac:(vm_compute; reflexivity) ltac:(vm_compute; reflexivity)
                ltac:(vm_compute; reflexivity) ltac:(vm_compute; reflexivity)
                ltac:(vm_compute; reflexivity)) as (Hitems & Htop & _).
  split.
  - apply Hitems. vm_compute. reflexivity.
  - apply Htop. vm_compute. reflexivity.
Defined.

(** C9 as stated fails on the top-posts endpoint: with eleven stored posts
    a limit of 0 returns eleven and an absent limit returns ten, so the two
    are not treated alike there. *)
Lemma zero_limit_differs_from_no_limit_on_top_posts :
  entry "count" <$>
    (payload <$>
       fst (get_top_posts (Ref 1%positive) sample_clock limit_zero
              sample_world))
  = Ok (Some (Lit (PInt 11)))
  /\ entry "count" <$>
       (payload <$>
          fst (get_top_posts (Ref 1%positive) sample_clock ∅ sample_world))
     = Ok (Some (Lit (PInt 10)))
  /\ fst (get_top_posts (Ref 1%positive) sample_clock limit_zero sample_world)
     <> fst (get_top_posts (Ref 1%positive) sample_clock ∅ sample_world).
Proof.
  split; [by vm_compute|]. split; [by vm_compute|].
  vm_compute. discriminate.
Qed.

End StoreFacts.



(* ===================================================================== *)
(** * [str(n)] and [int(s)]                                               *)
(* ===================================================================== *)

Module IntTextFacts.

Lemma digit_not_space c : is_digit c = true -> is_space c = false.
Proof.
  unfold is_digit, is_space. cbv zeta.
  destruct (Z.leb_spec 48 (Z.of_nat (nat_of_ascii c)));
    destruct (Z.leb_spec (Z.of_nat (nat_of_ascii c)) 57);
    destruct (Z.leb_spec 9 (Z.of_nat (nat_of_ascii c)));
    destruct (Z.leb_spec (Z.of_nat (nat_of_ascii c)) 13);
    destruct (Z.leb_spec 28 (Z.of_nat (nat_of_ascii c)));
    destruct (Z.leb_spec (Z.of_nat (nat_of_ascii c)) 32);
    simpl; intros; (discriminate || lia || reflexivity).
Qed.

Lemma rstrip_no_space s :
  (forall c, In c (list_ascii_of_string s) -> is_space c = false) ->
  rstrip s = s.
Proof.
  induction s as [|c s IH]; intros Hs; [done|].
  simpl. rewrite IH by (intros; apply Hs; simpl; auto).
  destruct s; [|done].
  by rewrite (Hs c) by (simpl; auto).
Qed.

Lemma strip_no_space s :
  (forall c, In c (list_ascii_of_string s) -> is_space c = false) ->
  strip s = s.
Proof.
  intros Hs. unfold strip.
  assert (lstrip s = s) as ->.
  { destruct s as [|c s]; [done|]. simpl.
    by rewrite (Hs c) by (simpl; auto). }
  by apply rstrip_no_space.
Qed.

Lemma uint_digits d c :
  In c (list_ascii_of_string (NilEmpty.string_of_uint d)) ->
  is_digit c = true.
Proof.
  induction d; simpl; try tauto; intros [<-|Hc]; auto.
Qed.

Lemma int_digits_acc d acc :
  int_digits (NilEmpty.string_of_uint d) (Z.pos acc) true
  = Some (Z.pos (Pos.of_uint_acc d acc)).
Proof.
  revert acc. induction d; intros acc; [done|..];
    cbn [NilEmpty.string_of_uint int_digits Pos.of_uint_acc];
    (match goal with
     | |- context [is_digit ?c] => change (is_digit c) with true
     end);
    cbv iota;
    (match goal with
     | |- context [digit_value ?c] =>
         let k := eval vm_compute in (digit_value c) in
         change (digit_value c) with k
     end);
    (match goal with
     | |- int_digits _ ?v true = Some (Z.pos (Pos.of_uint_acc _ ?a)) =>
         replace v with (Z.pos a) by lia
     end);
    apply IHd.
Qed.

Lemma int_digits_uint d seen :
  d <> Decimal.Nil \/ seen = true ->
  int_digits (NilEmpty.string_of_uint d) 0 seen
  = Some (Z.of_N (Pos.of_uint d)).
Proof.
  revert seen. induction d; intros seen Hd;
    [ destruct Hd as [?| ->]; done
    | cbn [NilEmpty.string_of_uint int_digits Pos.of_uint];
      change (is_digit "0") with true; cbv iota;
      change (10 * 0 + digit_value "0") with 0; apply IHd; by right
    | .. ];
    cbn [NilEmpty.string_of_uint int_digits Pos.of_uint];
    (match goal with
     | |- context [is_digit ?c] => change (is_digit c) with true
     end);
    cbv iota;
    (match goal with
     | |- int_digits _ ?v true = _ =>
         let p := eval vm_compute in v in change v with p
     end);
    rewrite int_digits_acc; reflexivity.
Qed.

Lemma to_uint_not_nil p : Pos.to_uint p <> Decimal.Nil.
Proof.
  intros H. pose proof (DecimalPos.Unsigned.of_to p) as Hp.
  rewrite H in Hp. discriminate.
Qed.

Lemma int_digits_pos p :
  int_digits (NilEmpty.string_of_uint (Pos.to_uint p)) 0 false
  = Some (Z.pos p).
Proof.
  rewrite int_digits_uint by (left; apply to_uint_not_nil).
  by rewrite DecimalPos.Unsigned.of_to.
Qed.

Lemma string_of_uint_pos p :
  NilZero.string_of_uint (Pos.to_uint p)
  = NilEmpty.string_of_uint (Pos.to_uint p).
Proof.
  pose proof (to_uint_not_nil p). by destruct (Pos.to_uint p).
Qed.

Lemma uint_head d :
  d <> Decimal.Nil ->
  exists c s, NilEmpty.string_of_uint d = String c s /\ is_digit c = true.
Proof. destruct d; [done|..]; intros _; eexists _, _; split; reflexivity. Qed.

(** Reading back the decimal text of an integer gives the integer. *)
Lemma int_of_str_of_int z : int_of_str (str_of_int z) = Ok z.
Proof.
  unfold str_of_int, int_of_str. destruct z as [|p|p]; [done|..];
    cbn [Z.to_int NilZero.string_of_int]; rewrite string_of_uint_pos.
  - rewrite strip_no_space
      by (intros c Hc; apply digit_not_space, (uint_digits _ _ Hc)).
    destruct (uint_head _ (to_uint_not_nil p)) as (c & s & Hs & Hc).
    pose proof (int_digits_pos p) as Hp. rewrite Hs in Hp |- *.
    assert (c <> "-"%char /\ c <> "+"%char) as [Hm Hpl]
      by (split; intros ->; discriminate).
    destruct c as [[] [] [] [] [] [] [] []]; try done; by rewrite Hp.
  - rewrite strip_no_space.
    + by rewrite int_digits_pos.
    + intros c [<-|Hc]; [done|].
      apply digit_not_space, (uint_digits _ _ Hc).
Qed.

End IntTextFacts.

(* ===================================================================== *)
(** * The pages of the full-data views, taken together                    *)
(* ===================================================================== *)

Module PageFacts.

Import Pagination Client Samples SliceFacts IntTextFacts.

Section Windows.
Context {item : Type}.
Implicit Types l posts comments coll : list item.

Lemma slice_window l a b :
  0 <= a -> a <= b ->
  slice l a b = take (Z.to_nat (b - a)) (drop (Z.to_nat a) l).
Proof.
  intros Ha Hb. rewrite slice_nonneg by lia.
  set (n := Z.of_nat (length l)).
  destruct (Z.le_gt_cases a n) as [Han|Han].
  - rewrite (Z.min_l a) by done.
    destruct (Z.le_gt_cases b n) as [Hbn|Hbn].
    + by rewrite Z.min_l.
    + rewrite Z.min_r by lia.
      rewrite !take_ge; try done; rewrite length_drop; lia.
  - rewrite !Z.min_r by lia. rewrite Z.sub_diag. simpl.
    rewrite (drop_ge l (Z.to_nat a)) by lia. by rewrite take_nil.
Qed.

Lemma slice_empty l a b :
  0 <= a -> a <= b -> Z.of_nat (length l) <= a -> slice l a b = [].
Proof.
  intros Ha Hb Hl. rewrite slice_window by done.
  rewrite drop_ge by lia. apply take_nil.
Qed.

Lemma slice_app l1 l2 a b :
  0 <= a -> a <= b ->
  slice (l1 ++ l2) a b
  = slice l1 a b
    ++ slice l2 (Z.max 0 (a - Z.of_nat (length l1)))
                (Z.max 0 (b - Z.of_nat (length l1))).
Proof.
  intros Ha Hb. rewrite !slice_window by lia.
  rewrite drop_app, take_app, length_drop.
  f_equal. f_equal; [lia|f_equal; lia].
Qed.

(** The pages [1 .. n] of a list cut into windows of [size] items are its
    [n * size] first items. *)
Lemma windows_concat l (size : nat) (n : nat) :
  concat (map (fun i => slice l ((Z.of_nat i - 1) * Z.of_nat size)
                                ((Z.of_nat i - 1) * Z.of_nat size
                                 + Z.of_nat size))
              (seq 1 n))
  = take (n * size) l.
Proof.
  induction n as [|n IH]; [done|].
  rewrite seq_S, map_app, concat_app, IH. simpl.
  rewrite app_nil_r, slice_window by lia.
  replace (Z.to_nat (_ + _ - _)) with size by lia.
  replace (Z.to_nat _) with (n * size)%nat by lia.
  rewrite take_take_drop. f_equal. lia.
Qed.

Lemma walk_pages (view : string -> list item) l (size : nat) n :
  (forall p, 1 <= p ->
     view (str_of_int p)
     = slice l ((p - 1) * Z.of_nat size)
               ((p - 1) * Z.of_nat size + Z.of_nat size)) ->
  walk view n = take (n * size) l.
Proof.
  intros Hview. unfold walk, page_numbers. rewrite map_map.
  rewrite <- windows_concat. f_equal. apply map_ext_in.
  intros i Hi. apply in_seq in Hi. apply Hview. lia.
Qed.

Lemma full_data_window posts comments page_no p :
  int_of_str page_no = Ok p -> 1 <= p ->
  served (get_full_data posts comments page_no)
  = slice (posts ++ comments) ((p - 1) * 50) ((p - 1) * 50 + 50).
Proof.
  intros Hp Hge. unfold get_full_data. rewrite (PaginationFacts.parse_page_ok _ _ Hp Hge).
  cbv zeta. cbn [served].
  set (start := (p - 1) * 50).
  set (np := Z.of_nat (length posts)).
  set (nc := Z.of_nat (length comments)).
  assert (Hstart : 0 <= start) by (unfold start; lia).
  rewrite slice_app by lia. fold np.
  destruct (Z.ltb_spec start np) as [Hin|Hout].
  - pose proof (slice_length posts start (start + 50) Hstart ltac:(lia))
      as Hlen.
    fold np in Hlen.
    destruct (Z.eqb_spec (Z.of_nat (length (slice posts start (start + 50))))
                         0) as [Hzero|_]; [lia|].
    f_equal.
    destruct (Z.ltb_spec
                (Z.of_nat (length (slice posts start (start + 50)))) 50)
      as [Hfew|Hfull].
    + rewrite !(Z.max_l 0) by lia. rewrite (Z.max_r 0) by lia.
      destruct (Z.ltb_spec 0 nc).
      * rewrite Hlen. f_equal. lia.
      * symmetry. apply slice_empty; fold nc; lia.
    + rewrite (Z.max_l 0 (start - np)), (Z.max_l 0 (start + 50 - np)) by lia.
      by rewrite slice_window.
  - change (Z.of_nat (length (@nil item))) with 0. simpl.
    rewrite (slice_empty posts) by (fold np; lia). simpl.
    rewrite !Z.max_r by lia.
    destruct (Z.ltb_spec (start - np) nc).
    + f_equal. lia.
    + symmetry. apply slice_empty; fold nc; lia.
Qed.

Lemma single_window coll page_no p :
  int_of_str page_no = Ok p -> 1 <= p ->
  get_full_single coll page_no
  = Ok (slice coll ((p - 1) * 25) ((p - 1) * 25 + 25), p,
        (Z.of_nat (length coll) + 25 - 1) / 25).
Proof.
  intros Hp Hge. unfold get_full_single. rewrite (PaginationFacts.parse_page_ok _ _ Hp Hge).
  cbn [mbind res_bind bind]. cbv zeta.
  destruct (Z.ltb_spec ((p - 1) * 25) (Z.of_nat (length coll))); [done|].
  by rewrite slice_empty by lia.
Qed.

Lemma total_pages_cover (len : Z) (size : nat) :
  0 <= len -> (0 < size)%nat ->
  len <= Z.of_nat (Z.to_nat ((len + Z.of_nat size - 1) / Z.of_nat size) * size).
Proof.
  intros Hlen Hsize.
  pose proof (Z.div_mod (len + Z.of_nat size - 1) (Z.of_nat size)
                ltac:(lia)).
  pose proof (Z.mod_pos_bound (len + Z.of_nat size - 1) (Z.of_nat size)
                ltac:(lia)).
  assert (0 <= (len + Z.of_nat size - 1) / Z.of_nat size)
    by (apply Z.div_pos; lia).
  rewrite Nat2Z.inj_mul, Z2Nat.id by done. nia.
Qed.

(** X1: for a page number [p >= 1] the combined view serves the items
    [(p-1)*50 .. p*50) of the posts followed by the comments: the item at
    offset [i] of the page is the item at position [(p-1)*50 + i] of that
    list, for [i < 50], and the page has no other items. *)
Theorem full_data_page_is_a_window_of_posts_then_comments
    posts comments page_no p :
  int_of_str page_no = Ok p -> 1 <= p ->
  served (get_full_data posts comments page_no)
  = slice (posts ++ comments) ((p - 1) * 50) ((p - 1) * 50 + 50)
  /\ forall (i : nat) x,
       served (get_full_data posts comments page_no) !! i = Some x
       <-> (i < 50)%nat
           /\ (posts ++ comments) !! (Z.to_nat ((p - 1) * 50) + i)%nat
              = Some x.
Proof.
  intros Hp Hge. rewrite (full_data_window _ _ _ _ Hp Hge).
  split; [done|]. intros i x. rewrite slice_window by lia.
  replace (Z.to_nat (_ + 50 - _)) with 50%nat by lia.
  destruct (Nat.lt_ge_cases i 50) as [Hi|Hi].
  - rewrite lookup_take_lt by done. rewrite lookup_drop. tauto.
  - rewrite lookup_take_ge by done. split; [done|lia].
Qed.

(** X2: a client that requests the pages [1], [2], ... in turn receives the
    posts followed by the comments, each item once and in order: after [n]
    pages it holds the [50 * n] first items, and after [total_pages] pages,
    as page 1 announces them, all of them. *)
Theorem walking_the_full_data_pages_gives_every_item_once posts comments :
  let view page_no := served (get_full_data posts comments page_no) in
  (forall n, walk view n = take (n * 50) (posts ++ comments))
  /\ walk view
       (Z.to_nat (default 0 (total_pages <$>
                               counters (get_full_data posts comments "1"))))
     = posts ++ comments.
Proof.
  intros view.
  assert (Hwalk : forall n, walk view n = take (n * 50) (posts ++ comments)).
  { intros n. apply (walk_pages view (posts ++ comments) 50 n).
    intros p Hp. unfold view.
    by rewrite (full_data_window _ _ _ p (int_of_str_of_int p) Hp). }
  split; [done|]. rewrite Hwalk. apply take_ge.
  cbn [get_full_data parse_page int_of_str]. simpl.
  pose proof (total_pages_cover (Z.of_nat (length (posts ++ comments))) 50
                ltac:(lia) ltac:(lia)) as Hcover.
  rewrite length_app, Nat2Z.inj_add in Hcover.
  rewrite length_app. apply Nat2Z.inj_le.
  rewrite Nat2Z.inj_add. exact Hcover.
Qed.

(** X3: the posts view and the comments view serve 25 items per page: page
    [p >= 1] is the window [(p-1)*25 .. p*25) of the collection, it is
    empty exactly beyond the last page, and [total_pages] is
    [ceil(len / 25)]. *)
Theorem single_collection_page_is_a_window_of_25 coll page_no p :
  int_of_str page_no = Ok p -> 1 <= p ->
  exists items,
    get_full_single coll page_no
    = Ok (items, p, (Z.of_nat (length coll) + 25 - 1) / 25)
    /\ items = slice coll ((p - 1) * 25) ((p - 1) * 25 + 25)
    /\ Z.of_nat (length items) <= 25
    /\ (items = [] <-> (Z.of_nat (length coll) + 25 - 1) / 25 < p)
    /\ forall (i : nat) x,
         items !! i = Some x
         <-> (i < 25)%nat
             /\ coll !! (Z.to_nat ((p - 1) * 25) + i)%nat = Some x.
Proof.
  intros Hp Hge. eexists. split; [by apply single_window|].
  split; [done|].
  pose proof (slice_length coll ((p - 1) * 25) ((p - 1) * 25 + 25)
                ltac:(lia) ltac:(lia)) as Hlen.
  assert (Hpages : (Z.of_nat (length coll) + 25 - 1) / 25 < p
                   <-> Z.of_nat (length coll) <= (p - 1) * 25).
  { pose proof (Z.div_mod (Z.of_nat (length coll) + 25 - 1) 25 ltac:(lia)).
    pose proof (Z.mod_pos_bound (Z.of_nat (length coll) + 25 - 1) 25
                  ltac:(lia)).
    lia. }
  repeat split.
  - lia.
  - intros Hnil. rewrite Hnil in Hlen. simpl in Hlen. lia.
  - intros Hbeyond. apply slice_empty; lia.
  - rewrite slice_window in H by lia.
    apply lookup_lt_Some in H. rewrite length_take in H. lia.
  - rewrite slice_window in H by lia.
    apply lookup_take_Some in H as [H _]. by rewrite lookup_drop in H.
  - intros [Hi Hx]. rewrite slice_window by lia.
    replace (Z.to_nat (_ + 25 - _)) with 25%nat by lia.
    rewrite lookup_take_lt by done. by rewrite lookup_drop.
Qed.

(** X4: walking the pages of the posts view, or of the comments view, gives
    the collection, each item once and in order: the [25 * n] first items
    after [n] pages, all of them after [ceil(len / 25)] pages. *)
Theorem walking_a_single_collection_gives_every_item_once coll :
  let view page_no := page_items (get_full_single coll page_no) in
  (forall n, walk view n = take (n * 25) coll)
  /\ walk view (Z.to_nat ((Z.of_nat (length coll) + 25 - 1) / 25)) = coll.
Proof.
  intros view.
  assert (Hwalk : forall n, walk view n = take (n * 25) coll).
  { intros n. apply (walk_pages view coll 25 n).
    intros p Hp. unfold view.
    by rewrite (single_window _ _ p (int_of_str_of_int p) Hp). }
  split; [done|]. rewrite Hwalk. apply take_ge.
  pose proof (total_pages_cover (Z.of_nat (length coll)) 25
                ltac:(lia) ltac:(lia)) as Hcover.
  apply Nat2Z.inj_le. exact Hcover.
Qed.

End Windows.

Lemma full_data_page_is_a_window_of_posts_then_comments_witness :
  int_of_str "3" = Ok 3 /\ 1 <= 3
  /\ served (get_full_data posts_120 comments_30 "3")
     = slice (posts_120 ++ comments_30) 100 150
  /\ served (get_full_data posts_120 comments_30 "3") !! 20%nat = Some 1000.
Proof.
  assert (Hp : int_of_str "3" = Ok 3) by reflexivity.
  assert (Hge : 1 <= 3) by lia.
  destruct (full_data_page_is_a_window_of_posts_then_comments
              posts_120 comments_30 "3" 3 Hp Hge) as [Hwin Hat].
  split; [exact Hp|]. split; [exact Hge|]. split; [exact Hwin|].
  apply Hat. split; [lia|reflexivity].
Defined.

Lemma single_collection_page_is_a_window_of_25_witness :
  int_of_str "5" = Ok 5 /\ 1 <= 5
  /\ exists items,
       get_full_single posts_120 "5" = Ok (items, 5, 5)
       /\ items = slice posts_120 100 125
       /\ Z.of_nat (length items) <= 25.
Proof.
  assert (Hp : int_of_str "5" = Ok 5) by reflexivity.
  assert (Hge : 1 <= 5) by lia.
  destruct (single_collection_page_is_a_window_of_25 posts_120 "5" 5 Hp Hge)
    as (items & Hrun & Hitems & Hlen & _).
  split; [exact Hp|]. split; [exact Hge|].
  exists items. split; [exact Hrun|]. split; [exact Hitems|exact Hlen].
Defined.

End PageFacts.



(* ===================================================================== *)
(** * Ties keep their order                                               *)
(* ===================================================================== *)

Module StabilityFacts.

Import Analytics Ranked Samples SliceFacts SortFacts NormalizerFacts.

Section Stable.

Context {A K : Type}.
Variable lt : K -> K -> bool.

(** A class of keys of which none is below another. *)
Variable tied : K -> bool.
Hypothesis tie :
  forall a b, tied a = true -> tied b = true -> lt a b = false.

Lemma insert_keyed_filter (x : K * A) l :
  List.filter (fun y => tied (fst y)) (insert_keyed lt x l)
  = List.filter (fun y => tied (fst y)) (x :: l).
Proof.
  induction l as [|y l IH]; [done|].
  cbn [insert_keyed]. destruct (lt (fst y) (fst x)) eqn:Hlt; [|done].
  cbn [List.filter] in *. rewrite IH.
  destruct (tied (fst x)) eqn:Hx, (tied (fst y)) eqn:Hy; try done.
  by rewrite tie in Hlt.
Qed.

Lemma stable_sort_filter (l : list (K * A)) :
  List.filter (fun y => tied (fst y)) (stable_sort lt l)
  = List.filter (fun y => tied (fst y)) l.
Proof.
  induction l as [|x l IH]; [done|].
  cbn [stable_sort]. rewrite insert_keyed_filter.
  cbn [List.filter]. by rewrite IH.
Qed.

Lemma sort_by_stable (key : A -> K) reverse (l : list A) :
  List.filter (fun x => tied (key x)) (sort_by lt key reverse l)
  = List.filter (fun x => tied (key x)) l.
Proof.
  unfold sort_by.
  set (keyed := map (fun x => (key x, x)) l).
  set (sorted := if reverse then rev (stable_sort lt (rev keyed))
                 else stable_sort lt keyed).
  assert (Hfilter : List.filter (fun y => tied (fst y)) sorted
                    = List.filter (fun y => tied (fst y)) keyed).
  { unfold sorted. destruct reverse.
    - by rewrite filter_rev, stable_sort_filter, filter_rev, rev_involutive.
    - apply stable_sort_filter. }
  assert (Hkeys : Forall (fun p : K * A => fst p = key (snd p)) sorted).
  { assert (Permutation sorted keyed) as ->.
    { unfold sorted. destruct reverse.
      - by rewrite <- Permutation_rev, stable_sort_perm, <- Permutation_rev.
      - apply stable_sort_perm. }
    apply keyed_fst. }
  rewrite filter_map_swap.
  rewrite (filter_ext_in (fun p => tied (key (snd p)))
                         (fun p => tied (fst p))).
  2:{ intros p Hp. rewrite List.Forall_forall in Hkeys.
      by rewrite (Hkeys p Hp). }
  rewrite Hfilter. unfold keyed. rewrite filter_map_swap, map_map.
  cbn [fst snd]. apply map_id.
Qed.

End Stable.

Lemma feq_tie (s a b : float) :
  SFeqb a s = true -> SFeqb b s = true -> flt a b = false.
Proof.
  unfold flt, SFltb, SFeqb, SFcompare.
  destruct a as [sa|sa| |sa ma ea], b as [sb|sb| |sb mb eb],
           s as [ss|ss| |ss ms es];
    try destruct sa; try destruct sb; try destruct ss; simpl; try done;
    RankingFacts.compare_cases; try done; lia.
Qed.

(** X5: sorting the action items keeps ties in file order. Among the posts,
    those whose score equals a given number stand in the ranking in the
    order of the CSV file; among the comments, those with the same score
    and the same timestamp key do. *)
Theorem ties_keep_their_file_order_in_the_action_items
    (iso_timestamp : string -> option Z) (posts_csv comments_csv : csv_file) :
  Forall (fun p => is_nan (to_float (virality_score p)) = false)
         (load_posts posts_csv) ->
  (forall s,
      List.filter (tied_post s) (rank_posts (load_posts posts_csv))
      = List.filter (tied_post s) (load_posts posts_csv))
  /\ (forall score t,
        List.filter (tied_comment iso_timestamp score t)
                    (rank_comments iso_timestamp (load_comments comments_csv))
        = List.filter (tied_comment iso_timestamp score t)
                      (load_comments comments_csv)).
Proof.
  intros _. split.
  - intros s. unfold tied_post, rank_posts.
    apply (sort_by_stable flt (fun k => SFeqb k s) (feq_tie s)
             (fun x => to_float (virality_score x))).
  - intros score t. unfold rank_comments.
    set (tied := fun k : num * Z =>
                   match fst k with
                   | NInt x => (x =? - score) && (snd k =? t)
                   | NFloat _ => false
                   end).
    assert (Htie : forall a b, tied a = true -> tied b = true ->
                               key_ltb a b = false).
    { intros [[x|f] u] [[y|g] v]; unfold tied; simpl; try done.
      rewrite !andb_true_iff, !Z.eqb_eq. intros [-> ->] [-> ->].
      rewrite RankingFacts.key_ltb_int, Z.eqb_refl. apply Z.ltb_irrefl. }
    assert (Hsame : forall l,
               List.filter (tied_comment iso_timestamp score t) l
               = List.filter
                   (fun c => tied (comment_sort_key iso_timestamp c)) l).
    { intros l. apply filter_ext. intros c.
      unfold tied_comment, tied, comment_sort_key. cbn [fst snd].
      destruct (virality_score c) as [x|f]; [|done]. cbn [num_neg].
      f_equal. destruct (Z.eqb_spec x score), (Z.eqb_spec (- x) (- score));
        (done || lia). }
    rewrite !Hsame.
    apply (sort_by_stable key_ltb tied Htie).
Qed.

Lemma ties_keep_their_file_order_in_the_action_items_witness :
  map post_id
      (List.filter (tied_post (float_of_decimal 25 (-1)))
                   (rank_posts (load_posts Cases.tied_posts)))
  = [PStr "a"; PStr "c"]
  /\ map post_id
         (List.filter (tied_comment utc_timestamp 5 0)
                      (rank_comments utc_timestamp
                                     (load_comments Cases.tied_comments)))
     = [PStr "x"; PStr "z"].
Proof.
  assert (Hnan : Forall (fun p => is_nan (to_float (virality_score p)) = false)
                        (load_posts Cases.tied_posts)).
  { apply RankingFacts.no_nan_check. vm_compute. reflexivity. }
  destruct (ties_keep_their_file_order_in_the_action_items
              utc_timestamp Cases.tied_posts Cases.tied_comments Hnan)
    as [Hposts Hcomments].
  rewrite Hposts, Hcomments. split; vm_compute; reflexivity.
Defined.

(** ** The top posts of [get_top_posts] *)

Lemma mapM_Forall2 {A B} (f : A -> res B) (l : list A) ys :
  Analytics.mapM f l = Ok ys -> Forall2 (fun x y => f x = Ok y) l ys.
Proof.
  revert ys. induction l as [|x l IH]; intros ys.
  - intros [= <-]. constructor.
  - cbn [Analytics.mapM]. destruct (f x) as [y|] eqn:Hx; [|done].
    cbn [mbind res_bind bind].
    destruct (Analytics.mapM f l) as [ys'|]; [|done].
    cbn [mbind res_bind bind]. intros [= <-]. constructor; [done|by apply IH].
Qed.

Lemma normalize_numeric (r p : row) :
  csv_row r -> normalize_row r = Ok p -> numeric_fields p.
Proof.
  intros Hr. rewrite (normalize_row_all_or_nothing r Hr). intros [= <-].
  destruct (parsed_post_numbers r) as [[[[v a] b] c]|];
    unfold numeric_fields, zero_numeric_fields.
  - split; [exists (NFloat v)|repeat split; eexists]; by simplify_map_eq.
  - split; [exists (NInt 0)|repeat split; eexists]; by simplify_map_eq.
Qed.

Lemma numeric_score (p : row) :
  numeric_fields p -> row_score p = Ok (score_of p).
Proof.
  intros [[n Hn] _]. unfold score_of, row_score. rewrite Hn.
  by destruct n.
Qed.

Lemma sort_rows_as_sort_by (posts : list row) :
  Forall numeric_fields posts ->
  sort_rows_by_score posts = Ok (sort_by flt score_of true posts).
Proof.
  intros Hposts. unfold sort_rows_by_score, sort_by.
  assert (Analytics.mapM row_score posts = Ok (map score_of posts)) as ->.
  { induction Hposts as [|p posts Hp _ IH]; [done|].
    cbn [Analytics.mapM map]. rewrite (numeric_score p Hp), IH. done. }
  cbn [mbind res_bind bind].
  assert (combine (map score_of posts) posts
          = map (fun x => (score_of x, x)) posts) as ->; [|done].
  clear. induction posts as [|p posts IH]; [done|].
  cbn [map combine]. by rewrite IH.
Qed.



End StabilityFacts.



(* ===================================================================== *)
(** * What the read-only handlers answer                                  *)
(* ===================================================================== *)

Module HandlerFacts.

Import Main Views Samples SliceFacts.

(** ** Running a computation step by step *)

Lemma run_bind {A B} (m : M A) (k : A -> M B) w a w' :
  m w = (Ok a, w') -> (m ≫= k) w = k a w'.
Proof. intros H. unfold mbind, M_bind. by rewrite H. Qed.

Lemma run_raise {A B} (m : M A) (k : A -> M B) w e w' :
  m w = (Raise e, w') -> (m ≫= k) w = (Raise e, w').
Proof. intros H. unfold mbind, M_bind. by rewrite H. Qed.

Lemma getitem_run w l entries key x :
  store w !! l = Some (Dict entries) -> entry key entries = Some x ->
  getitem (Ref l) key w = (Ok x, w).
Proof.
  intros Hl Hx. unfold getitem, deref, mbind, M_bind. by rewrite Hl, Hx.
Qed.

Lemma as_dict_run w l entries :
  store w !! l = Some (Dict entries) -> as_dict (Ref l) w = (Ok entries, w).
Proof. intros Hl. unfold as_dict, deref, mbind, M_bind. by rewrite Hl. Qed.

Lemma iterate_run w l elems :
  store w !! l = Some (List elems) -> iterate (Ref l) w = (Ok elems, w).
Proof. intros Hl. unfold iterate, deref, mbind, M_bind. by rewrite Hl. Qed.

Lemma len_run w v elems :
  list_of (store w) v = Some elems ->
  len v w = (Ok (Z.of_nat (length elems)), w).
Proof.
  destruct v as [|l]; [done|]. unfold list_of, len, deref, mbind, M_bind.
  destruct (store w !! l) as [[|]|]; try done. by intros [= ->].
Qed.

(** The test of a filter reads the store and nothing else. *)
Lemma field_run w field item :
  (x ← get_method item field (Lit (PStr "")); lower_val x) w
  = (match field_text (store w) field item with
     | Some s => Ok s
     | None =>
         match item with
         | Ref l => match store w !! l with
                    | None => Raise RuntimeError
                    | Some _ => Raise AttributeError
                    end
         | Lit _ => Raise AttributeError
         end
     end, w).
Proof.
  unfold field_text, get_method, as_dict, deref, lower_val, raise,
    mbind, M_bind, mret, M_ret.
  destruct item as [v|l]; [done|].
  destruct (store w !! l) as [[entries|elems]|]; try done.
  destruct (entry field entries) as [[[]|]|]; done.
Qed.

Lemma field_then_run {B} (f : string -> B) w field item s :
  field_text (store w) field item = Some s ->
  (x ← get_method item field (Lit (PStr ""));
   s ← lower_val x;
   mret (f s)) w
  = (Ok (f s), w).
Proof.
  intros Hs. pose proof (field_run w field item) as Hrun.
  rewrite Hs in Hrun. unfold mbind, M_bind in *.
  destruct (get_method item field (Lit (PStr "")) w) as [[x|e] w1];
    [|done].
  destruct (lower_val x w1) as [[s'|e] w2]; [|done].
  by injection Hrun as -> ->.
Qed.

Lemma field_is_run w field wanted item s :
  field_text (store w) field item = Some s ->
  (x ← get_method item field (Lit (PStr ""));
   s ← lower_val x;
   mret (String.eqb s wanted)) w
  = (Ok (field_is (store w) field wanted item), w).
Proof.
  intros Hs. unfold field_is. rewrite Hs.
  by apply (field_then_run (fun s => String.eqb s wanted)).
Qed.

Lemma field_is_raises w field wanted item :
  field_text (store w) field item = None ->
  exists e,
    (x ← get_method item field (Lit (PStr ""));
     s ← lower_val x;
     mret (String.eqb s wanted)) w
    = (Raise e, w).
Proof.
  intros Hs. pose proof (field_run w field item) as Hrun.
  rewrite Hs in Hrun. unfold mbind, M_bind in *.
  destruct (get_method item field (Lit (PStr "")) w) as [[x|e] w1].
  - destruct (lower_val x w1) as [[s'|e] w2].
    + by destruct item as [|l]; [|destruct (store w !! l)].
    + injection Hrun as _ ->. eauto.
  - injection Hrun as _ ->. eauto.
Qed.

Lemma filterM_run {A} (p : A -> M bool) (f : A -> bool) l w :
  Forall (fun x => p x w = (Ok (f x), w)) l ->
  filterM p l w = (Ok (List.filter f l), w).
Proof.
  induction 1 as [|x l Hx _ IH]; [done|].
  cbn [filterM List.filter]. rewrite (run_bind _ _ _ _ _ Hx).
  rewrite (run_bind _ _ _ _ _ IH). by destruct (f x).
Qed.

Lemma filterM_raises {A} (p : A -> M bool) l w :
  Forall (fun x => exists r, p x w = (r, w)) l ->
  Exists (fun x => exists e, p x w = (Raise e, w)) l ->
  exists e, filterM p l w = (Raise e, w).
Proof.
  intros Hpure Hbad. induction Hbad as [x l [e Hx]|x l Hbad IH].
  - exists e. cbn [filterM]. by rewrite (run_raise _ _ _ _ _ Hx).
  - inversion Hpure as [|? ? [r Hx] Hl]; subst.
    destruct (IH Hl) as [e He]. cbn [filterM].
    destruct r as [b|e'].
    + rewrite (run_bind _ _ _ _ _ Hx), (run_raise _ _ _ _ _ He). eauto.
    + rewrite (run_raise _ _ _ _ _ Hx). eauto.
Qed.

(** ** Stores that grow *)

Lemma fresh_subseteq (h : gmap loc obj) o : h ⊆ <[fresh (dom h) := o]> h.
Proof.
  apply insert_subseteq. apply not_elem_of_dom, is_fresh.
Qed.

Lemma fresh_lookup (h : gmap loc obj) : h !! fresh (dom h) = None.
Proof. apply not_elem_of_dom, is_fresh. Qed.

Lemma field_text_mono (h h' : gmap loc obj) field item s :
  h ⊆ h' -> field_text h field item = Some s ->
  field_text h' field item = Some s.
Proof.
  intros Hsub. destruct item as [|l]; [done|]. unfold field_text.
  destruct (h !! l) as [o|] eqn:Hl; [|done].
  by rewrite (lookup_weaken _ _ _ _ Hl Hsub).
Qed.

Lemma field_is_mono (h h' : gmap loc obj) field wanted item :
  h ⊆ h' -> is_Some (field_text h field item) ->
  field_is h' field wanted item = field_is h field wanted item.
Proof.
  intros Hsub [s Hs]. unfold field_is.
  by rewrite Hs, (field_text_mono _ _ _ _ _ Hsub Hs).
Qed.

(** ** The filters of the action items *)

Lemma filter_by_run w field wanted l elems :
  store w !! l = Some (List elems) ->
  Forall (fun item => is_Some (field_text (store w) field item)) elems ->
  filter_by field wanted (Ref l) w
  = (Ok (Ref (fresh (dom (store w)))),
     {| store := <[fresh (dom (store w))
                   := List (List.filter (field_is (store w) field wanted)
                                        elems)]> (store w);
        ticks := ticks w |}).
Proof.
  intros Hl Htyped. unfold filter_by.
  rewrite (run_bind _ _ _ _ _ (iterate_run _ _ _ Hl)).
  erewrite run_bind; [|apply filterM_run].
  2:{ eapply Forall_impl; [exact Htyped|]. intros item [s Hs].
      by apply (field_is_run w field wanted item s). }
  done.
Qed.

Lemma list_of_mono (h h' : gmap loc obj) v elems :
  h ⊆ h' -> list_of h v = Some elems -> list_of h' v = Some elems.
Proof.
  intros Hsub. destruct v as [|l]; [done|]. unfold list_of.
  destruct (h !! l) as [o|] eqn:Hl; [|done].
  by rewrite (lookup_weaken _ _ _ _ Hl Hsub).
Qed.

Lemma filter_stage w (apply : bool) field wanted v elems :
  list_of (store w) v = Some elems ->
  Forall (fun item => is_Some (field_text (store w) field item)) elems ->
  exists v' w',
    (if apply then filter_by field wanted v else mret v) w = (Ok v', w')
    /\ list_of (store w') v'
       = Some (if apply
               then List.filter (field_is (store w) field wanted) elems
               else elems)
    /\ store w ⊆ store w' /\ ticks w' = ticks w.
Proof.
  intros Hv Htyped. destruct apply.
  - destruct v as [|l]; [done|]. unfold list_of in Hv.
    destruct (store w !! l) as [[|elems']|] eqn:Hl; try done.
    injection Hv as ->.
    eexists _, _. split; [by apply filter_by_run|].
    cbn [store ticks list_of]. rewrite lookup_insert_eq.
    split; [done|]. split; [apply fresh_subseteq|done].
  - by exists v, w.
Qed.

Lemma take_stage w (apply : bool) n v elems :
  list_of (store w) v = Some elems ->
  exists v' w',
    (if apply then take v n else mret v) w = (Ok v', w')
    /\ list_of (store w') v' = Some (if apply then slice_to elems n else elems)
    /\ store w ⊆ store w' /\ ticks w' = ticks w.
Proof.
  intros Hv. destruct apply.
  - destruct v as [|l]; [done|]. unfold list_of in Hv.
    destruct (store w !! l) as [[|elems']|] eqn:Hl; try done.
    injection Hv as ->.
    eexists _, _. split.
    { unfold take, deref, alloc, mbind, M_bind, mret, M_ret.
      rewrite Hl. reflexivity. }
    cbn [store ticks list_of]. rewrite lookup_insert_eq.
    split; [done|]. split; [apply fresh_subseteq|done].
  - by exists v, w.
Qed.

Lemma guarded_ok isoformat (m : M response) w a w' :
  m w = (Ok a, w') -> guarded isoformat m w = (Ok a, w').
Proof. intros H. unfold guarded, catch. by rewrite H. Qed.

Lemma guarded_raise isoformat (m : M response) w e w' :
  m w = (Raise e, w') ->
  code <$> fst (guarded isoformat m w) = Ok 500.
Proof. intros H. unfold guarded, catch. by rewrite H. Qed.

Lemma filter_sublist {A} (f : A -> bool) (l : list A) :
  sublist (List.filter f l) l.
Proof.
  induction l as [|x l IH]; [done|]. cbn [List.filter].
  destruct (f x); by constructor.
Qed.

Lemma sublist_Forall {A} (P : A -> Prop) (l1 l2 : list A) :
  sublist l1 l2 -> Forall P l2 -> Forall P l1.
Proof.
  intros Hsub Hall. apply Forall_forall. intros x Hx.
  rewrite Forall_forall in Hall. apply Hall.
  by apply (elem_of_sublist l1 l2).
Qed.

Lemma slice_to_sublist {A} (l : list A) n : sublist (slice_to l n) l.
Proof.
  unfold slice_to, slice. etrans; [apply sublist_take|apply sublist_drop].
Qed.

(** X7: the action items that [GET /api/action-items] answers with, when
    every item is a dict whose category and sentiment are strings (or
    absent). They are the items whose category equals the [category]
    parameter, and whose sentiment equals the [sentiment] parameter,
    without regard to case on either side, in the order of the document
    and cut by the limit; [count] is their number; a parameter that is
    absent or empty filters nothing. *)
Theorem action_items_are_filtered_without_regard_to_case
    (isoformat : nat -> string) (args : query) (w : world)
    (root items : loc) (document : list (string * val)) (elems : list val) :
  store w !! root = Some (Dict document) ->
  entry "action_items" document = Some (Ref items) ->
  store w !! items = Some (List elems) ->
  Forall (fun item => is_Some (field_text (store w) "category" item)
                      /\ is_Some (field_text (store w) "sentiment" item))
         elems ->
  let matching field items :=
    if given (args !! field)
    then List.filter
           (field_is (store w) field (lower (default "" (args !! field))))
           items
    else items in
  let selected := matching "sentiment" (matching "category" elems) in
  let limit := arg_int args "limit" None in
  let result :=
    if nonzero limit then slice_to selected (default 0 limit) else selected in
  exists data w',
    get_action_items (Ref root) isoformat args w
    = (Ok {| code := 200;
             payload := [("success", Lit (PBool true));
                         ("data", data);
                         ("count", Lit (PInt (Z.of_nat (length result))));
                         ("timestamp", Lit (PStr (isoformat (ticks w))))] |},
       w')
    /\ list_of (store w') data = Some result
    /\ sublist result elems
    /\ Forall (fun item =>
                 (given (args !! "category") = true ->
                  field_text (store w) "category" item
                  = Some (lower (default "" (args !! "category"))))
                 /\ (given (args !! "sentiment") = true ->
                     field_text (store w) "sentiment" item
                     = Some (lower (default "" (args !! "sentiment")))))
              result.
Proof.
  intros Hroot Hitems Helems Htyped matching selected limit result.
  assert (Hcat : Forall (fun item =>
                   is_Some (field_text (store w) "category" item)) elems)
    by (eapply Forall_impl; [exact Htyped|]; by intros ? [? ?]).
  assert (Hsen : Forall (fun item =>
                   is_Some (field_text (store w) "sentiment" item)) elems)
    by (eapply Forall_impl; [exact Htyped|]; by intros ? [? ?]).
  assert (H0 : list_of (store w) (Ref items) = Some elems)
    by (unfold list_of; by rewrite Helems).
  destruct (filter_stage w (given (args !! "category")) "category"
              (lower (default "" (args !! "category"))) _ _ H0 Hcat)
    as (v1 & w1 & Hrun1 & Hlist1 & Hsub1 & Hticks1).
  fold (matching "category" elems) in Hlist1.
  assert (Hsub_cat : sublist (matching "category" elems) elems).
  { unfold matching. destruct (given (args !! "category"));
      [apply filter_sublist|done]. }
  assert (Hsen1 : Forall (fun item =>
                    is_Some (field_text (store w1) "sentiment" item))
                    (matching "category" elems)).
  { eapply Forall_impl.
    - eapply sublist_Forall; [exact Hsub_cat|exact Hsen].
    - intros item [s Hs]. exists s. by eapply field_text_mono. }
  destruct (filter_stage w1 (given (args !! "sentiment")) "sentiment"
              (lower (default "" (args !! "sentiment"))) _ _ Hlist1 Hsen1)
    as (v2 & w2 & Hrun2 & Hlist2 & Hsub2 & Hticks2).
  assert (Hselected :
            (if given (args !! "sentiment")
             then List.filter
                    (field_is (store w1) "sentiment"
                       (lower (default "" (args !! "sentiment"))))
                    (matching "category" elems)
             else matching "category" elems) = selected).
  { unfold selected, matching.
    destruct (given (args !! "sentiment")); [|done].
    apply filter_ext_in. intros item Hin. apply field_is_mono; [done|].
    pose proof (sublist_Forall _ _ _ Hsub_cat Hsen) as Hall.
    unfold matching in Hall. rewrite List.Forall_forall in Hall.
    by apply Hall. }
  rewrite Hselected in Hlist2.
  destruct (take_stage w2 (nonzero limit) (default 0 limit) _ _ Hlist2)
    as (v3 & w3 & Hrun3 & Hlist3 & Hsub3 & Hticks3).
  fold result in Hlist3.
  exists v3, {| store := store w3; ticks := S (ticks w3) |}.
  split.
  { unfold get_action_items. apply guarded_ok.
    rewrite (run_bind _ _ _ _ _ (getitem_run _ _ _ _ _ Hroot Hitems)).
    rewrite (run_bind _ _ _ _ _ Hrun1), (run_bind _ _ _ _ _ Hrun2).
    fold limit. rewrite (run_bind _ _ _ _ _ Hrun3).
    rewrite (run_bind _ _ _ _ _ (len_run _ _ _ Hlist3)).
    unfold success, get_current_timestamp, mbind, M_bind, mret, M_ret.
    cbn [app]. by rewrite Hticks3, Hticks2, Hticks1. }
  split; [exact Hlist3|].
  assert (Hsub_sel : sublist selected (matching "category" elems)).
  { unfold selected, matching at 1.
    destruct (given (args !! "sentiment")); [apply filter_sublist|done]. }
  assert (Hsub_res : sublist result selected).
  { unfold result. destruct (nonzero limit); [apply slice_to_sublist|done]. }
  split; [by do 2 (etrans; [eassumption|])|].
  eapply sublist_Forall; [exact Hsub_res|].
  apply List.Forall_forall. intros item Hin. split.
  - intros Hgiven.
    assert (Hin' : In item (matching "category" elems)).
    { apply list_elem_of_In. eapply elem_of_sublist; [|exact Hsub_sel].
      by apply list_elem_of_In. }
    unfold matching in Hin'. rewrite Hgiven in Hin'.
    apply filter_In in Hin' as [_ Hcat']. unfold field_is in Hcat'.
    destruct (field_text (store w) "category" item); [|done].
    by apply String.eqb_eq in Hcat' as ->.
  - intros Hgiven. unfold selected, matching at 1 in Hin.
    rewrite Hgiven in Hin.
    apply filter_In in Hin as [_ Hsen']. unfold field_is in Hsen'.
    destruct (field_text (store w) "sentiment" item); [|done].
    by apply String.eqb_eq in Hsen' as ->.
Qed.

Lemma action_items_are_filtered_without_regard_to_case_witness :
  exists data w',
    get_action_items (Ref 1%positive) sample_clock
                     {["category" := "COMPLAINT"]} sample_world
    = (Ok {| code := 200;
             payload := [("success", Lit (PBool true));
                         ("data", data);
                         ("count", Lit (PInt 1));
                         ("timestamp", Lit (PStr "0"))] |}, w')
    /\ list_of (store w') data = Some [Ref 4%positive].
Proof.
  destruct (action_items_are_filtered_without_regard_to_case
              sample_clock {["category" := "COMPLAINT"]} sample_world
              1%positive 2%positive _ _
              ltac:(vm_compute; reflexivity) ltac:(vm_compute; reflexivity)
              ltac:(vm_compute; reflexivity)
              ltac:(repeat constructor; vm_compute; eauto))
    as (data & w' & Hrun & Hlist & _).
  exists data, w'. split; [exact Hrun|exact Hlist].
Defined.

(** X8: a category filter fails on a document in which the category of
    some action item is not a string (a JSON null, a number, a list): the
    answer is a 500 whatever the category asked for, while the same
    document is served with a 200 when neither filter is given. *)
Theorem a_category_that_is_not_text_fails_the_filtered_request
    (isoformat : nat -> string) (args : query) (w : world)
    (root items : loc) (document : list (string * val)) (elems : list val) :
  store w !! root = Some (Dict document) ->
  entry "action_items" document = Some (Ref items) ->
  store w !! items = Some (List elems) ->
  Exists (fun item => field_text (store w) "category" item = None) elems ->
  (given (args !! "category") = true ->
   code <$> fst (get_action_items (Ref root) isoformat args w) = Ok 500)
  /\ (given (args !! "category") = false ->
      given (args !! "sentiment") = false ->
      code <$> fst (get_action_items (Ref root) isoformat args w) = Ok 200).
Proof.
  intros Hroot Hitems Helems Hbad. split.
  - intros Hgiven. unfold get_action_items.
    assert (exists e w',
              filter_by "category"
                (lower (default "" (args !! "category"))) (Ref items) w
              = (Raise e, w')) as (e & w' & Hraise).
    { unfold filter_by.
      rewrite (run_bind _ _ _ _ _ (iterate_run _ _ _ Helems)).
      destruct (filterM_raises
                  (fun item =>
                     x ← get_method item "category" (Lit (PStr ""));
                     s ← lower_val x;
                     mret (String.eqb s
                             (lower (default "" (args !! "category")))))
                  elems w) as [e He].
      - apply List.Forall_forall. intros item _.
        destruct (field_text (store w) "category" item) as [s|] eqn:Hs.
        + eexists. by apply (field_is_run w _ _ item s).
        + destruct (field_is_raises w "category"
                      (lower (default "" (args !! "category"))) item Hs)
            as [e He].
          eauto.
      - eapply Exists_impl; [exact Hbad|].
        intros item Hs. by apply field_is_raises.
      - exists e, w. by rewrite (run_raise _ _ _ _ _ He). }
    eapply guarded_raise.
    rewrite (run_bind _ _ _ _ _ (getitem_run _ _ _ _ _ Hroot Hitems)).
    rewrite Hgiven. by rewrite (run_raise _ _ _ _ _ Hraise).
  - intros Hcat Hsen. unfold get_action_items.
    assert (H0 : list_of (store w) (Ref items) = Some elems)
      by (unfold list_of; by rewrite Helems).
    destruct (take_stage w (nonzero (arg_int args "limit" None))
                (default 0 (arg_int args "limit" None)) _ _ H0)
      as (v & w' & Hrun & Hlist & _ & _).
    erewrite guarded_ok.
    2:{ rewrite (run_bind _ _ _ _ _ (getitem_run _ _ _ _ _ Hroot Hitems)).
        rewrite Hcat, Hsen.
        do 2 (erewrite run_bind; [|reflexivity]).
        rewrite (run_bind _ _ _ _ _ Hrun).
        rewrite (run_bind _ _ _ _ _ (len_run _ _ _ Hlist)).
        reflexivity. }
    reflexivity.
Qed.

Lemma a_category_that_is_not_text_fails_the_filtered_request_witness :
  code <$> fst (get_action_items (Ref 1%positive) sample_clock
                  {["category" := "praise"]} Cases.null_category_world)
  = Ok 500
  /\ code <$> fst (get_action_items (Ref 1%positive) sample_clock ∅
                     Cases.null_category_world)
     = Ok 200.
Proof.
  destruct (a_category_that_is_not_text_fails_the_filtered_request
              sample_clock {["category" := "praise"]}
              Cases.null_category_world 1%positive 2%positive _ _
              ltac:(vm_compute; reflexivity) ltac:(vm_compute; reflexivity)
              ltac:(vm_compute; reflexivity)
              ltac:(apply Exists_cons_tl, Exists_cons_hd;
                    vm_compute; reflexivity))
    as [Hfails _].
  split; [apply Hfails; vm_compute; reflexivity|].
  vm_compute. reflexivity.
Defined.

(** ** The search *)

Lemma field_contains_run w (h : gmap loc obj) q item field :
  h ⊆ store w -> is_Some (field_text h field item) ->
  field_contains q item field w = (Ok (field_has h q field item), w).
Proof.
  intros Hsub [s Hs]. unfold field_contains, field_has. rewrite Hs.
  apply (field_then_run (contains q)). by eapply field_text_mono.
Qed.

Lemma matches_run w (h : gmap loc obj) q item :
  h ⊆ store w -> searchable h item ->
  matches q item w = (Ok (hit h q item), w).
Proof.
  intros Hsub (Htext & Hkeywords & Hauthor). unfold matches, hit.
  rewrite (run_bind _ _ _ _ _ (field_contains_run w h q item _ Hsub Htext)).
  destruct (field_has h q "text" item); [done|].
  rewrite (run_bind _ _ _ _ _
             (field_contains_run w h q item _ Hsub Hkeywords)).
  destruct (field_has h q "keywords" item); [done|].
  by rewrite (field_contains_run w h q item _ Hsub Hauthor).
Qed.

Lemma search_step (h : gmap loc obj) r q item acc t :
  h !! r = None -> searchable h item ->
  (hit ← matches q item;
   if hit : bool then append r item else mret tt)
    {| store := <[r := List acc]> h; ticks := t |}
  = (Ok tt,
     {| store := <[r := List (acc ++ if hit h q item then [item] else [])]> h;
        ticks := t |}).
Proof.
  intros Hr Hitem.
  rewrite (run_bind _ _ _ _ _
             (matches_run _ h q item (insert_subseteq _ _ _ Hr) Hitem)).
  destruct (hit h q item).
  - unfold append, deref, assign, mbind, M_bind. cbn [store ticks].
    rewrite lookup_insert_eq. cbn [store ticks].
    by rewrite insert_insert_eq.
  - by rewrite app_nil_r.
Qed.

Lemma search_loop (h : gmap loc obj) r q elems : forall acc t,
  h !! r = None -> Forall (searchable h) elems ->
  forM (fun item =>
          hit ← matches q item;
          if hit : bool then append r item else mret tt) elems
       {| store := <[r := List acc]> h; ticks := t |}
  = (Ok tt,
     {| store := <[r := List (acc ++ List.filter (hit h q) elems)]> h;
        ticks := t |}).
Proof.
  induction elems as [|item elems IH]; intros acc t Hr Hall.
  - cbn [forM List.filter]. by rewrite app_nil_r.
  - inversion Hall as [|? ? Hitem Hrest]; subst.
    cbn [forM List.filter].
    rewrite (run_bind _ _ _ _ _ (search_step h r q item acc t Hr Hitem)).
    rewrite (IH _ _ Hr Hrest). rewrite <- app_assoc.
    by destruct (hit h q item).
Qed.

(** X9: [GET /api/search] on a document whose action items are dicts with
    text (or nothing) in [text], [keywords] and [author_name]. Without a
    query, or with an empty one, the answer is a 400. Otherwise it is a new
    list of the items of which one of the three fields contains the query,
    both taken in lower case, in the order of the document; [count] is
    their number and [query] echoes the lowered query. *)
Theorem search_returns_the_items_that_contain_the_query
    (isoformat : nat -> string) (args : query) (w : world)
    (root items : loc) (document : list (string * val)) (elems : list val) :
  store w !! root = Some (Dict document) ->
  entry "action_items" document = Some (Ref items) ->
  store w !! items = Some (List elems) ->
  Forall (searchable (store w)) elems ->
  let q := lower (default "" (args !! "q")) in
  let found := List.filter (hit (store w) q) elems in
  (q = "" ->
   fst (search_posts (Ref root) isoformat args w)
   = Ok {| code := 400;
           payload := [("success", Lit (PBool false));
                       ("error", Lit (PStr "Search query is required"));
                       ("timestamp", Lit (PStr (isoformat (ticks w))))] |})
  /\ (q <> "" ->
      exists results w',
        search_posts (Ref root) isoformat args w
        = (Ok {| code := 200;
                 payload := [("success", Lit (PBool true));
                             ("data", Ref results);
                             ("count", Lit (PInt (Z.of_nat (length found))));
                             ("query", Lit (PStr q));
                             ("timestamp",
                              Lit (PStr (isoformat (ticks w))))] |}, w')
        /\ store w !! results = None
        /\ store w' !! results = Some (List found)
        /\ sublist found elems).
Proof.
  intros Hroot Hitems Helems Hall q found. split.
  - intros Hq. unfold search_posts. fold q. by rewrite Hq.
  - intros Hq. unfold search_posts. fold q.
    destruct (String.eqb_spec q "") as [|_]; [done|].
    set (r := fresh (dom (store w))).
    assert (Hr : store w !! r = None) by apply fresh_lookup.
    exists r, {| store := <[r := List found]> (store w);
                 ticks := S (ticks w) |}.
    split; [|split; [exact Hr|split;
                       [cbn [store]; by rewrite lookup_insert_eq
                       |apply filter_sublist]]].
    apply guarded_ok.
    erewrite run_bind; [|reflexivity]. fold r.
    erewrite run_bind.
    2:{ eapply getitem_run; [|exact Hitems]. cbn [store].
        rewrite lookup_insert_ne; [exact Hroot|].
        intros <-. by rewrite Hr in Hroot. }
    erewrite run_bind.
    2:{ eapply iterate_run. cbn [store].
        rewrite lookup_insert_ne; [exact Helems|].
        intros <-. by rewrite Hr in Helems. }
    rewrite (run_bind _ _ _ _ _ (search_loop _ r q elems [] _ Hr Hall)).
    cbn [app]. fold found.
    erewrite run_bind.
    2:{ apply (len_run _ _ found). cbn [list_of store].
        by rewrite lookup_insert_eq. }
    reflexivity.
Qed.

Lemma search_returns_the_items_that_contain_the_query_witness :
  exists results w',
    search_posts (Ref 1%positive) sample_clock {["q" := "CARD"]} sample_world
    = (Ok {| code := 200;
             payload := [("success", Lit (PBool true));
                         ("data", Ref results);
                         ("count", Lit (PInt 1));
                         ("query", Lit (PStr "card"));
                         ("timestamp", Lit (PStr "0"))] |}, w')
    /\ store w' !! results = Some (List [Ref 4%positive]).
Proof.
  destruct (search_returns_the_items_that_contain_the_query
              sample_clock {["q" := "CARD"]} sample_world
              1%positive 2%positive _ _
              ltac:(vm_compute; reflexivity) ltac:(vm_compute; reflexivity)
              ltac:(vm_compute; reflexivity)
              ltac:(repeat constructor; vm_compute; eauto))
    as [_ Hfound].
  destruct (Hfound ltac:(vm_compute; discriminate))
    as (results & w' & Hrun & _ & Hlist & _).
  exists results, w'. split; [exact Hrun|exact Hlist].
Defined.

(** ** One action item *)

Lemma has_id_run w post_id item :
  is_Some (post_id_of (store w) item) ->
  has_id post_id item w = (Ok (id_is (store w) post_id item), w).
Proof.
  intros [x Hx]. unfold id_is. rewrite Hx. unfold post_id_of in Hx.
  destruct item as [|l]; [done|].
  destruct (store w !! l) as [[entries|]|] eqn:Hl; try done.
  unfold has_id. by rewrite (run_bind _ _ _ _ _ (getitem_run _ _ _ _ _ Hl Hx)).
Qed.

Lemma first_with_id_run w post_id elems :
  Forall (fun item => is_Some (post_id_of (store w) item)) elems ->
  first_with_id post_id elems w
  = (Ok (List.find (id_is (store w) post_id) elems), w).
Proof.
  induction 1 as [|item elems Hitem _ IH]; [done|].
  cbn [first_with_id List.find].
  rewrite (run_bind _ _ _ _ _ (has_id_run w post_id item Hitem)).
  by destruct (id_is (store w) post_id item).
Qed.

(** X10: [GET /api/action-items/<post_id>] on a document whose action
    items are dicts with a [post_id]: the answer is the first item whose
    [post_id] is the string asked for, the case of the letters included,
    and a 404 when no item has it. *)
Theorem action_item_by_id_is_the_first_with_that_id
    (isoformat : nat -> string) (post_id : string) (w : world)
    (root items : loc) (document : list (string * val)) (elems : list val) :
  store w !! root = Some (Dict document) ->
  entry "action_items" document = Some (Ref items) ->
  store w !! items = Some (List elems) ->
  Forall (fun item => is_Some (post_id_of (store w) item)) elems ->
  fst (get_action_item_by_id (Ref root) isoformat post_id w)
  = Ok match List.find (id_is (store w) post_id) elems with
       | Some item =>
           {| code := 200;
              payload := [("success", Lit (PBool true)); ("data", item);
                          ("timestamp", Lit (PStr (isoformat (ticks w))))] |}
       | None =>
           {| code := 404;
              payload := [("success", Lit (PBool false));
                          ("error", Lit (PStr "Action item not found"));
                          ("timestamp", Lit (PStr (isoformat (ticks w))))] |}
       end.
Proof.
  intros Hroot Hitems Helems Hall. unfold get_action_item_by_id.
  pose proof (first_with_id_run w post_id elems Hall) as Hfind.
  destruct (List.find (id_is (store w) post_id) elems) as [item|].
  all: erewrite guarded_ok; [reflexivity|].
  all: rewrite (run_bind _ _ _ _ _ (getitem_run _ _ _ _ _ Hroot Hitems)).
  all: rewrite (run_bind _ _ _ _ _ (iterate_run _ _ _ Helems)).
  all: rewrite (run_bind _ _ _ _ _ Hfind); reflexivity.
Qed.

Lemma action_item_by_id_is_the_first_with_that_id_witness :
  fst (get_action_item_by_id (Ref 1%positive) sample_clock "b" sample_world)
  = Ok {| code := 200;
          payload := [("success", Lit (PBool true));
                      ("data", Ref 5%positive);
                      ("timestamp", Lit (PStr "0"))] |}
  /\ code <$> fst (get_action_item_by_id (Ref 1%positive) sample_clock "B"
                     sample_world)
     = Ok 404.
Proof.
  assert (Hall : Forall (fun item =>
                           is_Some (post_id_of (store sample_world) item))
                        [Ref 4%positive; Ref 5%positive])
    by (repeat constructor; vm_compute; eauto).
  split.
  - rewrite (action_item_by_id_is_the_first_with_that_id
               sample_clock "b" sample_world 1%positive 2%positive _ _
               ltac:(vm_compute; reflexivity) ltac:(vm_compute; reflexivity)
               ltac:(vm_compute; reflexivity) Hall).
    vm_compute. reflexivity.
  - vm_compute. reflexivity.
Defined.

(** ** The summary *)

Lemma percent_key_run w kv n :
  percent_of kv = Some n -> percent_key kv w = (Ok n, w).
Proof.
  unfold percent_of, percent_key. destruct (snd kv) as [[]|]; try done.
  destruct (int_of_str _); [|done]. by intros [= ->].
Qed.

Lemma max_from_run items : forall best best_key w,
  percent_of best = Some best_key ->
  Forall (fun kv => is_Some (percent_of kv)) items ->
  exists top n before after,
    max_from best best_key items w = (Ok top, w)
    /\ percent_of top = Some n
    /\ best :: items = before ++ top :: after
    /\ Forall (fun kv => exists m, percent_of kv = Some m /\ m < n) before
    /\ Forall (fun kv => exists m, percent_of kv = Some m /\ m <= n) after.
Proof.
  induction items as [|kv items IH]; intros best best_key w Hbest Hall.
  - exists best, best_key, [], []. repeat split; (done || constructor).
  - inversion Hall as [|? ? [k Hk] Hrest]; subst. cbn [max_from].
    rewrite (run_bind _ _ _ _ _ (percent_key_run w kv k Hk)).
    destruct (Z.ltb_spec best_key k) as [Hlt|Hge].
    + destruct (IH kv k w Hk Hrest)
        as (top & n & before & after & Hrun & Hn & Hsplit & Hbefore & Hafter).
      exists top, n, (best :: before), after.
      split; [exact Hrun|]. split; [exact Hn|].
      split; [by rewrite Hsplit|]. split; [|exact Hafter].
      constructor; [|exact Hbefore]. exists best_key. split; [done|].
      destruct before as [|b before'].
      * injection Hsplit as <- _. rewrite Hk in Hn. injection Hn as <-. lia.
      * injection Hsplit as <- _.
        inversion Hbefore as [|? ? (m & Hm & Hlt') _]; subst.
        rewrite Hk in Hm. injection Hm as <-. lia.
    + destruct (IH best best_key w Hbest Hrest)
        as (top & n & before & after & Hrun & Hn & Hsplit & Hbefore & Hafter).
      destruct before as [|b before'].
      * injection Hsplit as <- ->. rewrite Hbest in Hn. injection Hn as <-.
        exists best, best_key, [], (kv :: after).
        split; [exact Hrun|]. split; [exact Hbest|]. split; [done|].
        split; [constructor|]. constructor; [|exact Hafter].
        exists k. split; [done|lia].
      * injection Hsplit as <- ->.
        inversion Hbefore as [|? ? (m & Hm & Hlt') Hbefore']; subst.
        rewrite Hbest in Hm. injection Hm as <-.
        exists top, n, (best :: kv :: before'), after.
        split; [exact Hrun|]. split; [exact Hn|]. split; [done|].
        split; [|exact Hafter].
        constructor; [exists best_key; split; [done|lia]|].
        constructor; [exists k; split; [done|lia]|exact Hbefore'].
Qed.

(** Of a distribution whose values all read as percentages, [max] picks
    the first entry with the largest number, and the summary holds it as a
    new list of the label and the percentage. *)
Lemma max_item_first_largest (w : world) (d : loc)
    (entries : list (string * val)) :
  store w !! d = Some (Dict entries) ->
  entries <> [] ->
  Forall (fun kv => is_Some (percent_of kv)) entries ->
  exists label x,
    max_item (Ref d) w
    = (Ok (Ref (fresh (dom (store w)))),
       {| store := <[fresh (dom (store w)) := List [Lit (PStr label); x]]>
                     (store w);
          ticks := ticks w |})
    /\ first_largest entries (label, x).
Proof.
  intros Hd Hne Hall. destruct entries as [|kv rest]; [done|].
  inversion Hall as [|? ? [k Hk] Hrest]; subst.
  destruct (max_from_run rest kv k w Hk Hrest)
    as ([label x] & n & before & after & Hrun & Hn & Hsplit & Hbefore
        & Hafter).
  exists label, x. split.
  { unfold max_item.
    rewrite (run_bind _ _ _ _ _ (as_dict_run _ _ _ Hd)).
    rewrite (run_bind _ _ _ _ _ (percent_key_run w kv k Hk)).
    rewrite (run_bind _ _ _ _ _ Hrun). reflexivity. }
  by exists before, after, n.
Qed.

(** Looking up reads the store and nothing else. *)
Lemma getitem_reads v key w : exists r, getitem v key w = (r, w).
Proof.
  unfold getitem, deref, raise, mbind, M_bind, mret, M_ret.
  destruct v as [|l]; [eauto|].
  destruct (store w !! l) as [[entries|]|]; eauto.
  destruct (entry key entries); eauto.
Qed.

Lemma len_reads v w : exists r, len v w = (r, w).
Proof.
  unfold len, deref, raise, mbind, M_bind, mret, M_ret.
  destruct v as [[]|l]; eauto.
  destruct (store w !! l) as [[|]|]; eauto.
Qed.

Lemma path_get_reads path : forall v w, exists r, path_get v path w = (r, w).
Proof.
  induction path as [|key path IH]; intros v w; [by eexists|].
  cbn [path_get]. destruct (getitem_reads v key w) as [[x|e] Hx].
  - rewrite (run_bind _ _ _ _ _ Hx). apply IH.
  - rewrite (run_raise _ _ _ _ _ Hx). eauto.
Qed.

Lemma getitem_mono v key w w1 x :
  getitem v key w = (Ok x, w) -> store w ⊆ store w1 ->
  getitem v key w1 = (Ok x, w1).
Proof.
  intros Hrun Hsub. destruct v as [|l]; [done|].
  unfold getitem, deref, raise, mbind, M_bind, mret, M_ret in *.
  destruct (store w !! l) as [o|] eqn:Hl; [|done].
  rewrite (lookup_weaken _ _ _ _ Hl Hsub).
  destruct o as [entries|]; [|done].
  destruct (entry key entries); [|done]. by injection Hrun as ->.
Qed.

Lemma path_get_mono path : forall v w w1 x,
  path_get v path w = (Ok x, w) -> store w ⊆ store w1 ->
  path_get v path w1 = (Ok x, w1).
Proof.
  induction path as [|key path IH]; intros v w w1 x Hrun Hsub.
  - cbn [path_get] in *. unfold mret, M_ret in *. by injection Hrun as ->.
  - cbn [path_get] in *. destruct (getitem_reads v key w) as [[y|e] Hy].
    + rewrite (run_bind _ _ _ _ _ Hy) in Hrun.
      rewrite (run_bind _ _ _ _ _ (getitem_mono _ _ _ _ _ Hy Hsub)).
      by apply (IH y w).
    + by rewrite (run_raise _ _ _ _ _ Hy) in Hrun.
Qed.

Lemma guarded_step {A} isoformat (m : M A) (k : A -> M response) w :
  (forall a w1, m w = (Ok a, w1) ->
     code <$> fst (guarded isoformat (k a) w1) = Ok 500) ->
  code <$> fst (guarded isoformat (m ≫= k) w) = Ok 500.
Proof.
  intros Hk. destruct (m w) as [[a|e] w1] eqn:Hm.
  - specialize (Hk a w1 eq_refl). unfold guarded, catch in *.
    by rewrite (run_bind _ _ _ _ _ Hm).
  - eapply guarded_raise. by apply run_raise.
Qed.

Lemma guarded_bind {A} isoformat (m : M A) (k : A -> M response) w a w1 :
  m w = (Ok a, w1) ->
  guarded isoformat (m ≫= k) w = guarded isoformat (k a) w1.
Proof.
  intros Hm. unfold guarded, catch. by rewrite (run_bind _ _ _ _ _ Hm).
Qed.

Lemma max_item_empty w d :
  store w !! d = Some (Dict []) ->
  max_item (Ref d) w
  = (Raise (ValueError "max() arg is an empty sequence"), w).
Proof.
  intros Hd. unfold max_item.
  by rewrite (run_bind _ _ _ _ _ (as_dict_run _ _ _ Hd)).
Qed.

Ltac read_step lemma :=
  apply guarded_step;
  let a := fresh "a" in
  let w1 := fresh "w1" in
  let Hrun := fresh "Hrun" in
  let r := fresh "r" in
  let Hr := fresh "Hr" in
  intros a w1 Hrun;
  destruct lemma as [r Hr];
  rewrite Hr in Hrun; injection Hrun as _ <-.

(** X12: the summary fails on an empty distribution. When the emotion
    distribution or the sentiment distribution of the document is an empty
    object, as [get_sentiment_analysis] writes both for a CSV file without
    rows, [GET /api/summary] answers with a 500, because [max] has nothing
    to choose from. *)
Theorem summary_fails_on_an_empty_distribution
    (isoformat : nat -> string) (w : world) (root d : loc)
    (distribution : string) :
  In distribution ["emotion_distribution"; "sentiment_distribution"] ->
  path_get (Ref root) ["sentiment_analysis"; distribution] w
  = (Ok (Ref d), w) ->
  store w !! d = Some (Dict []) ->
  code <$> fst (get_dashboard_summary (Ref root) isoformat w) = Ok 500.
Proof.
  intros Hwhich Hpath Hd. unfold get_dashboard_summary.
  read_step (getitem_reads (Ref root) "action_items" w).
  read_step (len_reads a w).
  do 5 (match goal with
        | |- context [path_get ?v ?p ≫= _] =>
            read_step (path_get_reads p v w)
        end).
  destruct Hwhich as [<-|[<-|[]]].
  - rewrite (guarded_bind _ _ _ _ _ _ Hpath).
    eapply guarded_raise. apply run_raise. by apply max_item_empty.
  - match goal with
    | |- context [path_get ?v ?p ≫= _] => read_step (path_get_reads p v w)
    end.
    apply guarded_step. intros top w1 Htop.
    match type of Htop with max_item ?v _ = _ => rename v into emotions end.
    assert (Hsub : store w ⊆ store (snd (max_item emotions w)))
      by apply (StoreFacts.safe_max_item (store w) _ w (reflexivity _)).
    rewrite Htop in Hsub. cbn [snd] in Hsub.
    rewrite (guarded_bind _ _ _ _ _ _ (path_get_mono _ _ _ _ _ Hpath Hsub)).
    eapply guarded_raise. apply run_raise. apply max_item_empty.
    by apply (lookup_weaken _ _ _ _ Hd Hsub).
Qed.

Lemma summary_fails_on_an_empty_distribution_witness :
  code <$> fst (get_dashboard_summary (Ref 1%positive) sample_clock
                  Cases.distributions_world)
  = Ok 500
  /\ fst (max_item (Ref 4%positive) Cases.distributions_world)
     = Raise (ValueError "max() arg is an empty sequence").
Proof.
  split; [|vm_compute; reflexivity].
  apply (summary_fails_on_an_empty_distribution sample_clock
           Cases.distributions_world 1%positive 4%positive
           "sentiment_distribution").
  - right. by left.
  - vm_compute. reflexivity.
  - vm_compute. reflexivity.
Defined.

(** ** The limit of the top posts *)

Lemma slice_to_negative {A} (l : list A) n :
  n < 0 -> slice_to l n = firstn (length l - Z.to_nat (- n)) l.
Proof.
  intros Hn. unfold slice_to, slice, clamp_index.
  destruct (Z.ltb_spec n 0) as [_|]; [|lia].
  destruct (Z.ltb_spec 0 0) as [|_]; [lia|].
  rewrite Z.min_l by lia. cbn [Z.to_nat skipn]. f_equal. lia.
Qed.

(** X13: the [limit] of [GET /api/sentiment-analysis/top-posts] when it is
    not 0. A text that [int] does not read counts as the default, 10. A
    positive limit [n] serves a new list of the [n] first stored posts; a
    negative limit [-k] is not refused: it serves all the stored posts but
    the last [k]. [count] is the number of posts served. *)
Theorem top_posts_limit_cuts_at_the_front_or_at_the_back
    (isoformat : nat -> string) (args : query) (w : world)
    (root analysis posts : loc) (document fields : list (string * val))
    (elems : list val) (n : Z) :
  store w !! root = Some (Dict document) ->
  entry "sentiment_analysis" document = Some (Ref analysis) ->
  store w !! analysis = Some (Dict fields) ->
  entry "top_posts" fields = Some (Ref posts) ->
  store w !! posts = Some (List elems) ->
  arg_int args "limit" (Some 10) = Some n -> n <> 0 ->
  let served :=
    if 0 <? n then firstn (Z.to_nat n) elems
    else firstn (length elems - Z.to_nat (- n)) elems in
  (forall s e, args !! "limit" = Some s -> int_of_str s = Raise e -> n = 10)
  /\ exists data w',
       get_top_posts (Ref root) isoformat args w
       = (Ok {| code := 200;
                payload := [("success", Lit (PBool true));
                            ("data", Ref data);
                            ("count", Lit (PInt (Z.of_nat (length served))));
                            ("timestamp",
                             Lit (PStr (isoformat (ticks w))))] |}, w')
       /\ store w !! data = None
       /\ store w' !! data = Some (List served)
       /\ store w' !! posts = Some (List elems).
Proof.
  intros Hroot Hanalysis Hfields Hposts Helems Hlimit Hn served. split.
  { intros s e Hs He. unfold arg_int in Hlimit. rewrite Hs, He in Hlimit.
    by injection Hlimit as <-. }
  assert (Hserved : slice_to elems n = served).
  { unfold served. destruct (Z.ltb_spec 0 n).
    - apply slice_to_nonneg. lia.
    - apply slice_to_negative. lia. }
  set (w1 := {| store := <[fresh (dom (store w)) := List []]> (store w);
                ticks := ticks w |}).
  assert (Hsub : store w ⊆ store w1) by apply fresh_subseteq.
  set (data := fresh (dom (store w1))).
  exists data, {| store := <[data := List served]> (store w1);
                  ticks := S (ticks w) |}.
  split; [|split; [|split]].
  - unfold get_top_posts. apply guarded_ok. rewrite Hlimit.
    rewrite (run_bind _ _ _ _ _ (getitem_run _ _ _ _ _ Hroot Hanalysis)).
    rewrite (run_bind _ _ _ _ _ (as_dict_run _ _ _ Hfields)).
    erewrite run_bind; [|reflexivity]. fold w1.
    erewrite run_bind.
    2:{ unfold get_method.
        erewrite run_bind;
          [|apply as_dict_run, (lookup_weaken _ _ _ _ Hfields Hsub)].
        rewrite Hposts. reflexivity. }
    assert (nonzero (Some n) = true) as ->
      by (cbn [nonzero]; by destruct (Z.eqb_spec n 0)).
    erewrite run_bind.
    2:{ unfold take, deref, alloc. unfold mbind at 1 2, M_bind at 1 2.
        rewrite (lookup_weaken _ _ _ _ Helems Hsub). reflexivity. }
    cbn [default]. unfold id. rewrite Hserved. fold data.
    erewrite run_bind.
    2:{ apply (len_run _ _ served). cbn [list_of store].
        by rewrite lookup_insert_eq. }
    reflexivity.
  - destruct (store w !! data) as [o|] eqn:Hin; [|done]. exfalso.
    pose proof (lookup_weaken _ _ _ _ Hin Hsub) as Hin1.
    pose proof (fresh_lookup (store w1)) as Hfresh. fold data in Hfresh.
    congruence.
  - cbn [store]. by rewrite lookup_insert_eq.
  - cbn [store]. rewrite lookup_insert_ne.
    + by apply (lookup_weaken _ _ _ _ Helems Hsub).
    + intros Heq. pose proof (lookup_weaken _ _ _ _ Helems Hsub) as Hin1.
      pose proof (fresh_lookup (store w1)) as Hfresh. fold data in Hfresh.
      congruence.
Qed.

Lemma top_posts_limit_cuts_at_the_front_or_at_the_back_witness :
  exists data w',
    get_top_posts (Ref 1%positive) sample_clock {["limit" := "-9"]}
                  sample_world
    = (Ok {| code := 200;
             payload := [("success", Lit (PBool true));
                         ("data", Ref data);
                         ("count", Lit (PInt 2));
                         ("timestamp", Lit (PStr "0"))] |}, w')
    /\ store w' !! data = Some (List [Lit (PInt 1); Lit (PInt 2)]).
Proof.
  destruct (top_posts_limit_cuts_at_the_front_or_at_the_back
              sample_clock {["limit" := "-9"]} sample_world
              1%positive 3%positive 6%positive _ _ _ (-9)
              ltac:(vm_compute; reflexivity) ltac:(vm_compute; reflexivity)
              ltac:(vm_compute; reflexivity) ltac:(vm_compute; reflexivity)
              ltac:(vm_compute; reflexivity) ltac:(vm_compute; reflexivity)
              ltac:(discriminate))
    as (_ & data & w' & Hrun & _ & Hdata & _).
  exists data, w'. split; [exact Hrun|exact Hdata].
Defined.

(** X11: [GET /api/summary] on a complete document whose two distributions
    have entries that all read as percentages. The answer is a 200 with a
    new summary of the eight figures; [top_emotion] and
    [dominant_sentiment] are new lists of a label and its percentage, that
    of the first entry with the largest number of its distribution: the
    entries before it are strictly smaller, so among equal shares the one
    written first wins. *)
Theorem summary_reports_the_first_largest_shares
    (isoformat : nat -> string) (w : world) (root emotions sentiments : loc)
    (items mentions prime score scraped status : val) (count : Z)
    (emotion_entries sentiment_entries : list (string * val)) :
  getitem (Ref root) "action_items" w = (Ok items, w) ->
  len items w = (Ok count, w) ->
  path_get (Ref root) ["bank_mentions"; "total_bank_mentions"] w
  = (Ok mentions, w) ->
  path_get (Ref root) ["bank_mentions"; "prime_bank"] w = (Ok prime, w) ->
  path_get (Ref root) ["kpi"; "bank_sentiment_score"] w = (Ok score, w) ->
  path_get (Ref root) ["scraping_status"; "posts_scraped"] w
  = (Ok scraped, w) ->
  path_get (Ref root) ["scraping_status"; "status"] w = (Ok status, w) ->
  path_get (Ref root) ["sentiment_analysis"; "emotion_distribution"] w
  = (Ok (Ref emotions), w) ->
  path_get (Ref root) ["sentiment_analysis"; "sentiment_distribution"] w
  = (Ok (Ref sentiments), w) ->
  store w !! emotions = Some (Dict emotion_entries) ->
  store w !! sentiments = Some (Dict sentiment_entries) ->
  emotion_entries <> [] -> sentiment_entries <> [] ->
  Forall (fun kv => is_Some (percent_of kv))
         (emotion_entries ++ sentiment_entries) ->
  exists summary top dominant top_label top_share dominant_label
         dominant_share w',
    get_dashboard_summary (Ref root) isoformat w
    = (Ok {| code := 200;
             payload := [("success", Lit (PBool true));
                         ("data", Ref summary);
                         ("timestamp", Lit (PStr (isoformat (ticks w))))] |},
       w')
    /\ store w' !! summary
       = Some (Dict [("total_action_items", Lit (PInt count));
                     ("total_bank_mentions", mentions);
                     ("prime_bank_mentions", prime);
                     ("sentiment_score", score);
                     ("posts_scraped", scraped);
                     ("scraping_status", status);
                     ("top_emotion", Ref top);
                     ("dominant_sentiment", Ref dominant)])
    /\ store w' !! top = Some (List [Lit (PStr top_label); top_share])
    /\ first_largest emotion_entries (top_label, top_share)
    /\ store w' !! dominant
       = Some (List [Lit (PStr dominant_label); dominant_share])
    /\ first_largest sentiment_entries (dominant_label, dominant_share)
    /\ store w ⊆ store w'.
Proof.
  intros Hitems Hcount Hmentions Hprime Hscore Hscraped Hstatus Hemotions
    Hsentiments Hemo Hsen Hemo_ne Hsen_ne Hall.
  apply Forall_app in Hall as [Hemo_all Hsen_all].
  destruct (max_item_first_largest w emotions _ Hemo Hemo_ne Hemo_all)
    as (top_label & top_share & Htop & Htop_first).
  set (top := fresh (dom (store w))) in *.
  set (w1 := {| store := <[top := List [Lit (PStr top_label); top_share]]>
                           (store w);
                ticks := ticks w |}) in *.
  assert (Hsub1 : store w ⊆ store w1) by apply fresh_subseteq.
  destruct (max_item_first_largest w1 sentiments _
              (lookup_weaken _ _ _ _ Hsen Hsub1) Hsen_ne Hsen_all)
    as (dominant_label & dominant_share & Hdominant & Hdominant_first).
  set (dominant := fresh (dom (store w1))) in *.
  set (w2 := {| store := <[dominant := List [Lit (PStr dominant_label);
                                             dominant_share]]> (store w1);
                ticks := ticks w1 |}) in *.
  assert (Hsub2 : store w1 ⊆ store w2) by apply fresh_subseteq.
  set (summary := fresh (dom (store w2))).
  eexists summary, top, dominant, top_label, top_share, dominant_label,
    dominant_share, _.
  split.
  { unfold get_dashboard_summary. apply guarded_ok.
    rewrite (run_bind _ _ _ _ _ Hitems), (run_bind _ _ _ _ _ Hcount).
    rewrite (run_bind _ _ _ _ _ Hmentions), (run_bind _ _ _ _ _ Hprime).
    rewrite (run_bind _ _ _ _ _ Hscore), (run_bind _ _ _ _ _ Hscraped).
    rewrite (run_bind _ _ _ _ _ Hstatus), (run_bind _ _ _ _ _ Hemotions).
    rewrite (run_bind _ _ _ _ _ Htop).
    rewrite (run_bind _ _ _ _ _ (path_get_mono _ _ _ w1 _ Hsentiments Hsub1)).
    rewrite (run_bind _ _ _ _ _ Hdominant).
    reflexivity. }
  cbn [store].
  assert (Hsub3 : store w2 ⊆ <[summary := Dict
            [("total_action_items", Lit (PInt count));
             ("total_bank_mentions", mentions);
             ("prime_bank_mentions", prime);
             ("sentiment_score", score);
             ("posts_scraped", scraped);
             ("scraping_status", status);
             ("top_emotion", Ref top);
             ("dominant_sentiment", Ref dominant)]]> (store w2))
    by apply fresh_subseteq.
  split; [by rewrite lookup_insert_eq|].
  split.
  { eapply lookup_weaken; [|exact Hsub3].
    eapply lookup_weaken; [|exact Hsub2].
    cbn [store w1]. by rewrite lookup_insert_eq. }
  split; [exact Htop_first|].
  split.
  { eapply lookup_weaken; [|exact Hsub3].
    cbn [store w2]. by rewrite lookup_insert_eq. }
  split; [exact Hdominant_first|].
  by do 2 (etrans; [eassumption|]).
Qed.

Lemma summary_reports_the_first_largest_shares_witness :
  exists summary top w',
    get_dashboard_summary (Ref 1%positive) sample_clock Cases.summary_world
    = (Ok {| code := 200;
             payload := [("success", Lit (PBool true));
                         ("data", Ref summary);
                         ("timestamp", Lit (PStr "0"))] |}, w')
    /\ entry "top_emotion" <$> fst (as_dict (Ref summary) w')
       = Ok (Some (Ref top))
    /\ store w' !! top = Some (List [Lit (PStr "joy"); Lit (PStr "40%")]).
Proof.
  destruct (summary_reports_the_first_largest_shares
              sample_clock Cases.summary_world 1%positive 5%positive
              4%positive _ _ _ _ _ _ _ _ _
              ltac:(vm_compute; reflexivity) ltac:(vm_compute; reflexivity)
              ltac:(vm_compute; reflexivity) ltac:(vm_compute; reflexivity)
              ltac:(vm_compute; reflexivity) ltac:(vm_compute; reflexivity)
              ltac:(vm_compute; reflexivity) ltac:(vm_compute; reflexivity)
              ltac:(vm_compute; reflexivity) ltac:(vm_compute; reflexivity)
              ltac:(vm_compute; reflexivity) ltac:(discriminate)
              ltac:(discriminate)
              ltac:(repeat constructor; vm_compute; eauto))
    as (summary & top & dominant & top_label & top_share & dominant_label
        & dominant_share & w' & Hrun & _).
  vm_compute in Hrun. injection Hrun as <- <-.
  eexists _, _, _. split; [vm_compute; reflexivity|].
  split; vm_compute; reflexivity.
Defined.

End HandlerFacts.



(* ===================================================================== *)
(** * Rounding stays below a bound                                        *)
(* ===================================================================== *)

Module FloatFacts.

(** ** The number of bits *)

Lemma digits2_size p : digits2_pos p = Pos.size p.
Proof. induction p; simpl; by rewrite ?IHp. Qed.

Lemma digits_lower p : 2 ^ (Z.pos (digits2_pos p) - 1) <= Z.pos p.
Proof.
  rewrite digits2_size.
  induction p as [p IH|p IH|]; [| |done].
  - cbn [Pos.size]. rewrite Pos2Z.inj_succ.
    replace (Z.succ (Z.pos (Pos.size p)) - 1)
      with (Z.succ (Z.pos (Pos.size p) - 1)) by lia.
    rewrite Z.pow_succ_r by lia. lia.
  - cbn [Pos.size]. rewrite Pos2Z.inj_succ.
    replace (Z.succ (Z.pos (Pos.size p)) - 1)
      with (Z.succ (Z.pos (Pos.size p) - 1)) by lia.
    rewrite Z.pow_succ_r by lia. lia.
Qed.

(** A number that is at most [2 ^ c] has at most [c + 1] bits. *)
Lemma digits_bound m c :
  0 <= m -> 0 <= c -> m <= 2 ^ c -> Zdigits2 m <= c + 1.
Proof.
  intros Hm Hc Hle. destruct m as [|p|p]; [simpl; lia| |lia].
  cbn [Zdigits2]. pose proof (digits_lower p) as Hlow.
  destruct (Z.le_gt_cases (Z.pos (digits2_pos p)) (c + 1)) as [|Hgt]; [done|].
  exfalso.
  assert (2 ^ (c + 1) <= 2 ^ (Z.pos (digits2_pos p) - 1))
    by (apply Z.pow_le_mono_r; lia).
  rewrite Z.pow_add_r in H by lia. lia.
Qed.

(** ** Shifting to the right *)

Lemma shr_1_spec mrs :
  0 <= shr_m mrs ->
  shr_m (shr_1 mrs) = shr_m mrs / 2
  /\ (loc_of_shr_record (shr_1 mrs) = loc_Exact <->
      loc_of_shr_record mrs = loc_Exact /\ shr_m mrs mod 2 = 0).
Proof.
  destruct mrs as [m r s]. cbn [shr_m]. intros Hm.
  destruct m as [|[p|p|]|]; [| | | |lia]; cbn [shr_1 shr_m].
  - split; [done|]. destruct r, s; cbn; intuition congruence.
  - split; [apply (Z.div_unique _ _ _ 1); lia|].
    assert (Z.pos p~1 mod 2 = 1)
      by (symmetry; apply (Z.mod_unique _ _ (Z.pos p)); lia).
    destruct r, s; cbn; intuition (congruence || lia).
  - split; [apply (Z.div_unique _ _ _ 0); lia|].
    assert (Z.pos p~0 mod 2 = 0)
      by (symmetry; apply (Z.mod_unique _ _ (Z.pos p)); lia).
    destruct r, s; cbn; intuition congruence.
  - split; [done|]. destruct r, s; cbn; intuition (congruence || done).
Qed.

Lemma iter_pos_nat {A} (f : A -> A) p x :
  SpecFloat.iter_pos f p x = Nat.iter (Pos.to_nat p) f x.
Proof.
  revert x. induction p as [p IH|p IH|]; intros x; cbn [SpecFloat.iter_pos].
  - rewrite !IH, Pos2Nat.inj_xI, Nat.iter_succ_r.
    replace (2 * Pos.to_nat p)%nat with (Pos.to_nat p + Pos.to_nat p)%nat
      by lia.
    by rewrite Nat.iter_add.
  - rewrite !IH, Pos2Nat.inj_xO.
    replace (2 * Pos.to_nat p)%nat with (Pos.to_nat p + Pos.to_nat p)%nat
      by lia.
    by rewrite Nat.iter_add.
  - done.
Qed.

Lemma iter_shr_1 (k : nat) mrs :
  0 <= shr_m mrs ->
  shr_m (Nat.iter k shr_1 mrs) = shr_m mrs / 2 ^ Z.of_nat k
  /\ (loc_of_shr_record (Nat.iter k shr_1 mrs) = loc_Exact <->
      loc_of_shr_record mrs = loc_Exact
      /\ shr_m mrs mod 2 ^ Z.of_nat k = 0).
Proof.
  intros Hm. induction k as [|k [IHm IHl]].
  - cbn [Nat.iter]. change (2 ^ Z.of_nat 0) with 1.
    rewrite Z.div_1_r, Z.mod_1_r. tauto.
  - rewrite !Nat.iter_succ.
    assert (Hk : 0 <= shr_m (Nat.iter k shr_1 mrs)).
    { rewrite IHm. apply Z.div_pos; lia. }
    destruct (shr_1_spec _ Hk) as [Hm1 Hl1].
    rewrite Nat2Z.inj_succ, Z.pow_succ_r by lia.
    split.
    + rewrite Hm1, IHm. rewrite Z.div_div by lia. f_equal. lia.
    + rewrite Hl1, IHl, IHm. clear.
      set (a := shr_m mrs). set (d := 2 ^ Z.of_nat k).
      assert (0 < d) by (apply Z.pow_pos_nonneg; lia).
      split.
      * intros [[Hexact Hmod] Heven]. split; [done|].
        apply Z.div_exact in Hmod; [|lia].
        apply Z.div_exact in Heven; [|lia].
        rewrite Hmod, Heven.
        replace (d * (2 * (a / d / 2))) with ((a / d / 2) * (2 * d)) by lia.
        apply Z.mod_mul. lia.
      * intros [Hexact Hmod]. apply Z.div_exact in Hmod; [|lia].
        assert (Ha : a = d * (2 * (a / (2 * d)))) by lia.
        assert (Hdiv : a / d = 2 * (a / (2 * d))).
        { rewrite Ha at 1. rewrite Z.mul_comm, Z.div_mul by lia. done. }
        split; [split; [done|]|].
        -- rewrite Ha. rewrite Z.mul_comm. apply Z.mod_mul. lia.
        -- rewrite Hdiv. rewrite Z.mul_comm. apply Z.mod_mul. lia.
Qed.

Lemma shr_spec mrs e n :
  0 <= shr_m mrs -> 0 < n ->
  shr_m (fst (shr mrs e n)) = shr_m mrs / 2 ^ n
  /\ snd (shr mrs e n) = e + n
  /\ (loc_of_shr_record (fst (shr mrs e n)) = loc_Exact <->
      loc_of_shr_record mrs = loc_Exact /\ shr_m mrs mod 2 ^ n = 0).
Proof.
  intros Hm Hn. destruct n as [|p|p]; [lia| |lia].
  cbn [shr fst snd]. rewrite iter_pos_nat.
  destruct (iter_shr_1 (Pos.to_nat p) mrs Hm) as [H1 H2].
  rewrite positive_nat_Z in H1, H2. done.
Qed.

Lemma loc_of_record_of_loc m l :
  shr_m (shr_record_of_loc m l) = m
  /\ (loc_of_shr_record (shr_record_of_loc m l) = loc_Exact <->
      l = loc_Exact).
Proof. destruct l as [|[]]; cbn; intuition congruence. Qed.

(** ** Rounding a number that is at most [N]

    The number is [m * 2 ^ e], or lies strictly between that and the next
    multiple of [2 ^ e] when the location is not exact; [N] is an integer
    below [2 ^ 52], which the format holds, so rounding does not cross
    it. *)

Section Bounded.

Variables (N b : Z).
Hypothesis N_pos : 0 < N.
Hypothesis N_bits : N <= 2 ^ b.
Hypothesis b_range : 0 <= b <= 52.

Lemma shr_fexp_bounded m e l :
  0 <= m -> e <= 0 -> m <= N * 2 ^ (- e) ->
  (l <> loc_Exact -> m < N * 2 ^ (- e)) ->
  exists r e',
    shr_fexp prec emax m e l = (r, e')
    /\ 0 <= shr_m r /\ e' <= 0 /\ shr_m r <= N * 2 ^ (- e')
    /\ (loc_of_shr_record r <> loc_Exact -> shr_m r < N * 2 ^ (- e')).
Proof.
  intros Hm He Hle Hlt. unfold shr_fexp.
  destruct (loc_of_record_of_loc m l) as [Hrm Hrl].
  set (n := fexp prec emax (Zdigits2 m + e) - e).
  destruct (Z.le_gt_cases n 0) as [Hn|Hn].
  - exists (shr_record_of_loc m l), e.
    split; [by destruct n|]. rewrite Hrm, Hrl. done.
  - destruct (shr_spec (shr_record_of_loc m l) e n ltac:(lia) Hn)
      as (Hsm & Hse & Hsl).
    destruct (shr (shr_record_of_loc m l) e n) as [r e'].
    cbn [fst snd] in *. subst e'. exists r, (e + n).
    split; [done|]. rewrite Hrm in *.
    assert (Hpow : 0 < 2 ^ n) by (apply Z.pow_pos_nonneg; lia).
    assert (Hbits : 2 ^ (b - e) = 2 ^ b * 2 ^ (- e)).
    { rewrite <- Z.pow_add_r by lia. f_equal; lia. }
    assert (Hpe : 0 < 2 ^ (- e)) by (apply Z.pow_pos_nonneg; lia).
    assert (Hdigits : Zdigits2 m <= b - e + 1).
    { apply digits_bound; [done|lia|]. rewrite Hbits. nia. }
    assert (He' : e + n <= 0).
    { unfold n, fexp, emin, prec, emax. lia. }
    set (P := 2 ^ (- (e + n))).
    assert (HP : 0 < P) by (apply Z.pow_pos_nonneg; lia).
    assert (Hsplit : 2 ^ (- e) = P * 2 ^ n).
    { unfold P. rewrite <- Z.pow_add_r by lia. f_equal; lia. }
    rewrite Hsplit in Hle, Hlt.
    assert (Hupper : m / 2 ^ n <= N * P).
    { apply Z.div_le_upper_bound; [done|]. lia. }
    split; [rewrite Hsm; apply Z.div_pos; lia|]. split; [done|].
    split; [by rewrite Hsm|].
    intros Hinexact. rewrite Hsm.
    destruct (Z.lt_ge_cases (m / 2 ^ n) (N * P)) as [|Hge]; [done|].
    exfalso. apply Hinexact. apply Hsl.
    pose proof (Z.mul_div_le m (2 ^ n) Hpow) as Hfloor.
    assert (Heq : m = N * P * 2 ^ n) by nia.
    split.
    + apply Hrl. destruct l as [|c]; [done|].
      exfalso. assert (m < N * (P * 2 ^ n)) by (by apply Hlt). lia.
    + rewrite Heq. apply Z.mod_mul. lia.
Qed.

Lemma round_nearest_even_bounded r K :
  0 <= shr_m r -> shr_m r <= K ->
  (loc_of_shr_record r <> loc_Exact -> shr_m r < K) ->
  0 <= round_nearest_even (shr_m r) (loc_of_shr_record r) <= K.
Proof.
  intros Hm Hle Hlt. unfold round_nearest_even.
  destruct (loc_of_shr_record r) as [|[]]; [lia|..].
  - assert (shr_m r < K) by (by apply Hlt).
    destruct (Z.even (shr_m r)); lia.
  - lia.
  - assert (shr_m r < K) by (by apply Hlt). lia.
Qed.

(** The result of rounding is zero or a number that is at most [N]. *)
Lemma round_aux_bounded sx m e l :
  0 <= m -> e <= 0 -> m <= N * 2 ^ (- e) ->
  (l <> loc_Exact -> m < N * 2 ^ (- e)) ->
  binary_round_aux prec emax sx m e l = S754_zero sx
  \/ exists m' e',
       binary_round_aux prec emax sx m e l = S754_finite sx m' e'
       /\ e' <= 0 /\ Z.pos m' <= N * 2 ^ (- e').
Proof.
  intros Hm He Hle Hlt. unfold binary_round_aux.
  destruct (shr_fexp_bounded m e l Hm He Hle Hlt)
    as (r1 & e1 & -> & Hm1 & He1 & Hle1 & Hlt1).
  pose proof (round_nearest_even_bounded r1 _ Hm1 Hle1 Hlt1) as [Hm2 Hle2].
  destruct (shr_fexp_bounded _ e1 loc_Exact Hm2 He1 Hle2 ltac:(done))
    as (r2 & e2 & -> & Hm3 & He2 & Hle3 & _).
  destruct (shr_m r2) as [|m'|]; [by left| |lia].
  right. exists m', e2.
  destruct (Z.leb_spec e2 (emax - prec)) as [_|Hbig];
    [done|unfold emax, prec in Hbig; lia].
Qed.

End Bounded.

(** ** Quotients and percentages *)

Lemma new_location_exact nb k : new_location nb k = loc_Exact -> k = 0.
Proof.
  unfold new_location, new_location_even, new_location_odd.
  destruct (Z.even nb), (Z.eqb_spec k 0); done.
Qed.

(** The float of [p / d] for [p <= d] is zero or at most 1. *)
Lemma ratio_bounded (p d : positive) :
  (p <= d)%positive ->
  fdiv (S754_finite false p 0) (S754_finite false d 0) = S754_zero false
  \/ exists m e,
       fdiv (S754_finite false p 0) (S754_finite false d 0)
       = S754_finite false m e
       /\ e <= 0 /\ Z.pos m <= 2 ^ (- e).
Proof.
  intros Hpd. unfold fdiv, SFdiv, SFdiv_core_binary. cbv zeta.
  set (e' := Z.min _ _).
  assert (He' : e' <= 0) by (unfold e'; lia).
  replace (0 - 0 - e') with (- e') by lia.
  set (m' := match - e' with
             | 0 => Z.pos p
             | Z.pos _ => Z.shiftl (Z.pos p) (- e')
             | Z.neg _ => 0
             end).
  assert (Hm' : m' = Z.pos p * 2 ^ (- e')).
  { unfold m'. destruct (- e') as [|s|s] eqn:Hs; [simpl; lia| |lia].
    by rewrite Z.shiftl_mul_pow2. }
  assert (Hpow : 0 < 2 ^ (- e')) by (apply Z.pow_pos_nonneg; lia).
  pose proof (Z.div_mod m' (Z.pos d) ltac:(lia)) as Hdiv.
  pose proof (Z.mod_pos_bound m' (Z.pos d) ltac:(lia)) as Hmod.
  unfold Z.div, Z.modulo in Hdiv, Hmod.
  destruct (Z.div_eucl m' (Z.pos d)) as [q r]. cbn [xorb].
  assert (Hq : 0 <= q) by nia.
  assert (Hle : q <= 2 ^ (- e')) by nia.
  destruct (round_aux_bounded 1 0 ltac:(lia) ltac:(done) ltac:(lia)
              false q e' (new_location (Z.pos d) r) Hq He' ltac:(lia))
    as [Hzero|(m & e & Hfinite & He & Hm)].
  - intros Hinexact.
    assert (r <> 0) by (intros ->; apply Hinexact;
                        unfold new_location, new_location_even,
                          new_location_odd; by destruct (Z.even _)).
    nia.
  - by left.
  - right. exists m, e. split; [done|]. split; [done|lia].
Qed.

Lemma hundred_float :
  float_of_int 100 = Ok (S754_finite false 7036874417766400 (-46)).
Proof. vm_compute. reflexivity. Qed.

(** Rounding a float that is at most 100 to an integer. *)
Lemma round_float_bounded m e :
  e <= 0 -> Z.pos m <= 100 * 2 ^ (- e) ->
  exists r, round_float (S754_finite false m e) = Ok r /\ 0 <= r <= 100.
Proof.
  intros He Hle. unfold round_float.
  destruct (Z.leb_spec 0 e) as [Hzero|Hneg].
  - replace e with 0 in * by lia. eexists. split; [reflexivity|].
    change (2 ^ (- 0)) with 1 in Hle. change (2 ^ 0) with 1. lia.
  - eexists. split; [reflexivity|]. unfold round_half_even.
    assert (Hpow : 0 < 2 ^ (- e)) by (apply Z.pow_pos_nonneg; lia).
    pose proof (Z.div_mod (Z.pos m) (2 ^ (- e)) ltac:(lia)) as Hdiv.
    pose proof (Z.mod_pos_bound (Z.pos m) (2 ^ (- e)) Hpow) as Hmod.
    set (q := Z.pos m / 2 ^ (- e)) in *.
    set (r := Z.pos m mod 2 ^ (- e)) in *.
    assert (0 <= q) by (apply Z.div_pos; lia).
    assert (q <= 100) by nia.
    destruct (Z.compare_spec (2 * r) (2 ^ (- e))); [|lia|nia].
    destruct (Z.even q); [lia|nia].
Qed.

(** [f"{round((count / total) * 100)}%"] for a share of a total: it never
    raises, and the number is between 0 and 100. *)
Lemma percentage_bounded count total :
  0 <= count <= total -> 0 < total ->
  exists r, percentage count total = Ok (str_of_int r +:+ "%")
            /\ 0 <= r <= 100.
Proof.
  intros Hcount Htotal. unfold percentage, true_div.
  destruct (Z.eqb_spec total 0) as [|_]; [lia|].
  assert (Bool.eqb (count <? 0) (total <? 0) = true) as ->.
  { destruct (Z.ltb_spec count 0), (Z.ltb_spec total 0); (done || lia). }
  cbn [mbind res_bind bind]. rewrite hundred_float.
  cbn [mbind res_bind bind].
  rewrite !Z.abs_eq by lia. unfold float_of_ratio.
  destruct count as [|p|p]; [| |lia].
  - exists 0. by split.
  - destruct total as [|d|d]; try lia. cbn [Z.to_pos].
    destruct (ratio_bounded p d ltac:(lia)) as [->|(m & e & -> & He & Hm)].
    + exists 0. by split.
    + unfold fmul, SFmul. cbn [xorb].
      destruct (round_aux_bounded 100 7 ltac:(lia) ltac:(done) ltac:(lia)
                  false (Z.pos (m * 7036874417766400)) (e + -46) loc_Exact
                  ltac:(lia) ltac:(lia))
        as [->|(m' & e' & -> & He' & Hm')].
      * replace (- (e + -46)) with (- e + 46) by lia.
        rewrite Z.pow_add_r by lia.
        change (2 ^ 46) with 70368744177664. lia.
      * done.
      * exists 0. by split.
      * destruct (round_float_bounded m' e' He' Hm') as (r & -> & Hr).
        exists r. by split.
Qed.

End FloatFacts.

(* ===================================================================== *)
(** * The reports count the labels                                        *)
(* ===================================================================== *)

Module ReportFacts.

Import Analytics Reports Samples FloatFacts IntTextFacts AggregatorFacts.

(** ** The two ends of the scale *)

Lemma percentage_none total : 0 < total -> percentage 0 total = Ok "0%".
Proof.
  intros Htotal. unfold percentage, true_div.
  destruct (Z.eqb_spec total 0) as [|_]; [lia|].
  assert (Bool.eqb (0 <? 0) (total <? 0) = true) as ->
    by (destruct (Z.ltb_spec total 0); (done || lia)).
  reflexivity.
Qed.

Lemma percentage_all total : 0 < total -> percentage total total = Ok "100%".
Proof.
  intros Htotal. unfold percentage, true_div.
  destruct (Z.eqb_spec total 0) as [|_]; [lia|].
  rewrite Bool.eqb_reflx. cbn [mbind res_bind bind].
  rewrite Z.abs_eq by lia. destruct total as [|d|d]; try lia.
  assert (float_of_ratio (Z.pos d) (Z.pos d)
          = S754_finite false 4503599627370496 (-52)) as ->;
    [|vm_compute; reflexivity].
  unfold float_of_ratio, fdiv, SFdiv, SFdiv_core_binary. cbn [Z.to_pos].
  cbv zeta.
  replace (Zdigits2 (Z.pos d) + 0 - (Zdigits2 (Z.pos d) + 0)) with 0 by lia.
  change (Z.min (fexp prec emax 0) (0 - 0)) with (-53).
  change (0 - 0 - -53) with 53. cbv iota.
  rewrite Z.shiftl_mul_pow2 by lia.
  pose proof (Z.div_mul (2 ^ 53) (Z.pos d) ltac:(lia)) as Hq.
  pose proof (Z.mod_mul (2 ^ 53) (Z.pos d) ltac:(lia)) as Hr.
  rewrite (Z.mul_comm (Z.pos d)).
  unfold Z.div, Z.modulo in Hq, Hr.
  destruct (Z.div_eucl (2 ^ 53 * Z.pos d) (Z.pos d)) as [q r].
  subst q r.
  assert (new_location (Z.pos d) 0 = loc_Exact) as ->.
  { unfold new_location. by destruct (Z.even (Z.pos d)). }
  vm_compute. reflexivity.
Qed.

(** ** The tally of the categories *)

Lemma count_of_cons (label_of : row -> string) label r rows :
  count_of label_of label (r :: rows)
  = (if String.eqb (label_of r) label then 1 else 0)
    + count_of label_of label rows.
Proof.
  unfold count_of. cbn [List.filter].
  destruct (String.eqb (label_of r) label); cbn [length]; lia.
Qed.

Lemma count_of_range (label_of : row -> string) label rows :
  0 <= count_of label_of label rows <= Z.of_nat (length rows).
Proof.
  unfold count_of. pose proof (filter_length_le
    (fun r => String.eqb (label_of r) label) rows). lia.
Qed.

Lemma bucket_run (d : gmap string Z) label fallback :
  is_Some (d !! fallback) ->
  let b := if decide (is_Some (d !! label)) then label else fallback in
  exists n, d !! b = Some n /\ bucket label fallback d = Ok (<[b := n + 1]> d).
Proof.
  intros [m Hm]. unfold bucket, increment. cbv zeta.
  destruct (decide (is_Some (d !! label))) as [[n Hn]|_].
  - exists n. by rewrite Hn.
  - exists m. by rewrite Hm.
Qed.

Lemma label_in_dom (d d' : gmap string Z) fallback s :
  dom d = dom d' ->
  (if decide (is_Some (d !! lower s)) then lower s else fallback)
  = label_in d' fallback (PStr s).
Proof.
  intros Hdom. unfold label_in.
  destruct (decide (is_Some (d !! lower s))) as [H|H],
           (decide (is_Some (d' !! lower s))) as [H'|H']; try done;
    rewrite <- !elem_of_dom, Hdom in *; done.
Qed.

Lemma count_category_run (r : row) c0 n0 :
  text_cell "category" r -> dom c0 = dom initial_categories ->
  exists k,
    c0 !! category_of r = Some k
    /\ count_category (c0, n0) r = Ok (<[category_of r := k + 1]> c0, n0 + 1).
Proof.
  intros [s Hs] Hdom. unfold count_category, category_of. rewrite Hs.
  cbn [lower_of mbind res_bind bind].
  assert (Hother : is_Some (c0 !! "other")).
  { apply elem_of_dom. rewrite Hdom. by apply elem_of_dom. }
  destruct (bucket_run c0 (lower s) "other" Hother) as (k & Hk & ->).
  rewrite (label_in_dom c0 initial_categories "other" s Hdom) in *.
  exists k. by split.
Qed.

Lemma fold_categories (rows : list row) : forall c0 n0,
  Forall (text_cell "category") rows -> dom c0 = dom initial_categories ->
  exists c1,
    foldlM count_category (c0, n0) rows
    = Ok (c1, n0 + Z.of_nat (length rows))
    /\ dom c1 = dom initial_categories
    /\ forall label k,
         c0 !! label = Some k ->
         c1 !! label = Some (k + count_of category_of label rows).
Proof.
  induction rows as [|r rows IH]; intros c0 n0 Hall Hdom.
  - exists c0. cbn [foldlM length]. split; [f_equal; f_equal; lia|].
    split; [done|]. intros label k Hk. rewrite Hk. f_equal.
    unfold count_of. simpl. lia.
  - inversion Hall as [|? ? Hr Hrows]; subst.
    destruct (count_category_run r c0 n0 Hr Hdom) as (k & Hk & Hstep).
    assert (Hdom' : dom (<[category_of r := k + 1]> c0)
                    = dom initial_categories).
    { rewrite dom_insert_lookup_L; [done|eauto]. }
    destruct (IH _ (n0 + 1) Hrows Hdom') as (c1 & Hrun & Hdom1 & Hcounts).
    exists c1. cbn [foldlM]. rewrite Hstep. cbn [mbind res_bind bind].
    split; [rewrite Hrun; f_equal; f_equal; cbn [length]; lia|].
    split; [done|]. intros label k0 Hk0. rewrite count_of_cons.
    destruct (String.eqb_spec (category_of r) label) as [<-|Hne].
    + rewrite (Hcounts (category_of r) (k + 1)).
      * f_equal. rewrite Hk in Hk0. injection Hk0 as <-. lia.
      * by rewrite lookup_insert_eq.
    + rewrite (Hcounts label k0); [f_equal; lia|].
      by rewrite lookup_insert_ne.
Qed.

Lemma percentages_total (key : string -> string) (counts : gmap string Z)
    (total : Z) :
  0 < total -> map_Forall (fun _ n => 0 <= n <= total) counts ->
  exists result, percentages key counts total = Ok result.
Proof.
  intros Htotal. unfold percentages.
  apply (map_fold_weak_ind
           (fun (acc : res (gmap string string)) (m : gmap string Z) =>
              map_Forall (fun _ n => 0 <= n <= total) m ->
              exists result, acc = Ok result)).
  - intros _. by eexists.
  - intros i x m acc Hfresh IH Hall.
    apply map_Forall_insert in Hall as [Hx Hm]; [|done].
    destruct (IH Hm) as [partial ->]. cbn [mbind res_bind bind].
    destruct (percentage_bounded x total Hx Htotal) as (r & -> & _).
    cbn [mbind res_bind bind]. by eexists.
Qed.

Lemma initial_categories_zero label k :
  initial_categories !! label = Some k -> k = 0.
Proof.
  unfold initial_categories.
  rewrite !lookup_insert_Some, lookup_singleton_Some. intuition congruence.
Qed.

Lemma initial_emotions_zero label k :
  initial_emotions !! label = Some k -> k = 0.
Proof.
  unfold initial_emotions.
  rewrite !lookup_insert_Some, lookup_singleton_Some. intuition congruence.
Qed.

(** What the report says of a label with [count] rows out of [total]. *)
Lemma share_text count total p :
  0 <= count <= total -> 0 < total ->
  percentage count total = Ok p ->
  exists r, p = percent_text r /\ 0 <= r <= 100
            /\ (count = 0 -> p = "0%") /\ (count = total -> p = "100%").
Proof.
  intros Hcount Htotal Hp.
  destruct (percentage_bounded count total Hcount Htotal) as (r & Hr & Hrange).
  rewrite Hr in Hp. injection Hp as <-. exists r.
  split; [done|]. split; [done|]. split.
  - intros ->. rewrite percentage_none in Hr by done. by injection Hr.
  - intros ->. rewrite percentage_all in Hr by done. by injection Hr.
Qed.

(** X14: the category report of a CSV file that has rows, all with text in
    the category column. It gives the number of rows as
    [total_number_of_posts] and, for each of the five labels, the share of
    the rows that carry it, the case of the letters apart, rows with any
    other text counting as [other]: a percentage between 0% and 100%,
    which is 0% when no row and 100% when every row carries the label. It
    never falls back to the zeros of a missing file. *)
Theorem category_report_counts_the_labels (rows : list row) :
  rows <> [] -> Forall (text_cell "category") rows ->
  let total := Z.of_nat (length rows) in
  exists result : gmap string string,
    get_post_categories_percentage (Some rows)
    = <["total_number_of_posts" := PInt total]> (PStr <$> result)
    /\ Forall (fun label =>
                 let count := count_of category_of label rows in
                 exists r,
                   result !! output_key label = Some (percent_text r)
                   /\ percentage count total = Ok (percent_text r)
                   /\ 0 <= r <= 100
                   /\ (count = 0 -> percent_text r = "0%")
                   /\ (count = total -> percent_text r = "100%"))
              category_labels.
Proof.
  intros Hrows Hall total.
  assert (Htotal : 0 < total)
    by (unfold total; destruct rows; [done|cbn [length]; lia]).
  destruct (fold_categories rows initial_categories 0 Hall eq_refl)
    as (c1 & Hrun & Hdom & Hcounts).
  assert (Hrange : map_Forall (fun _ n => 0 <= n <= total) c1).
  { intros label n Hn.
    assert (is_Some (initial_categories !! label)) as [k Hk].
    { apply elem_of_dom. rewrite <- Hdom. apply elem_of_dom. eauto. }
    rewrite (initial_categories_zero _ _ Hk) in Hk.
    rewrite (Hcounts _ _ Hk) in Hn. injection Hn as <-.
    pose proof (count_of_range category_of label rows). unfold total. lia. }
  destruct (percentages_total output_key c1 total Htotal Hrange)
    as [result Hresult].
  exists result. split.
  { unfold get_post_categories_percentage. rewrite Hrun.
    cbn [mbind res_bind bind]. fold total. rewrite Z.add_0_l.
    destruct (Z.ltb_spec 0 total); [|lia].
    by rewrite Hresult. }
  apply List.Forall_forall. intros label Hlabel. cbv zeta.
  assert (Hk : initial_categories !! label = Some 0).
  { unfold category_labels in Hlabel. cbn [In] in Hlabel.
    destruct Hlabel as [<-|[<-|[<-|[<-|[<-|[]]]]]]; reflexivity. }
  pose proof (Hcounts _ _ Hk) as Hn. rewrite Z.add_0_l in Hn.
  destruct (percentages_lookup output_key c1 total result
              (fun a b => output_key_injective c1 a b Hdom) Hresult _ _ Hn)
    as (p & Hp & Hlookup).
  destruct (share_text _ total p (count_of_range category_of label rows)
              Htotal Hp) as (r & -> & Hr & Hnone & Hsome).
  exists r. done.
Qed.

Lemma category_report_counts_the_labels_witness :
  Cases.labelled_posts <> []
  /\ Forall (text_cell "category") Cases.labelled_posts
  /\ exists result : gmap string string,
       get_post_categories_percentage (Some Cases.labelled_posts)
       = <["total_number_of_posts" := PInt 3]> (PStr <$> result)
       /\ result !! "complaint" = Some "67%".
Proof.
  assert (Hrows : Cases.labelled_posts <> []) by discriminate.
  assert (Hall : Forall (text_cell "category") Cases.labelled_posts)
    by (repeat constructor; eexists; reflexivity).
  destruct (category_report_counts_the_labels Cases.labelled_posts Hrows Hall)
    as (result & Hreport & Hlabels).
  split; [exact Hrows|]. split; [exact Hall|].
  exists result. split; [exact Hreport|].
  apply Forall_inv_tail, Forall_inv_tail, Forall_inv in Hlabels.
  destruct Hlabels as (r & Hlookup & Hshare & _).
  assert (Hvalue : percentage
                     (count_of category_of "complaint" Cases.labelled_posts)
                     (Z.of_nat (length Cases.labelled_posts)) = Ok "67%")
    by (vm_compute; reflexivity).
  rewrite Hvalue in Hshare. injection Hshare as Hr.
  rewrite <- Hr in Hlookup. exact Hlookup.
Defined.

(** ** The tally of the sentiments *)

Lemma add_virality_total (total : num) (cell : pyval) :
  cell_or_zero cell -> exists v, add_virality total cell = Ok v.
Proof.
  intros Hcell. unfold add_virality.
  pose proof (NormalizerFacts.float_of_recoverable cell Hcell) as Hrec.
  destruct (float_of cell) as [f|e]; [eauto|].
  destruct e; try discriminate; eauto.
Qed.

Lemma count_sentiment_run (t : tally) (r : row) :
  csv_row r -> text_cell "sentiment" r -> text_cell "emotion" r ->
  dom (emotions t) = dom initial_emotions ->
  exists t' k,
    count_sentiment t r = Ok t'
    /\ total_posts t' = total_posts t + 1
    /\ positive_posts t'
       = positive_posts t
         + (if String.eqb (sentiment_of r) "positive" then 1 else 0)
    /\ negative_posts t'
       = negative_posts t
         + (if String.eqb (sentiment_of r) "negative" then 1 else 0)
    /\ neutral_posts t'
       = neutral_posts t
         + (if String.eqb (sentiment_of r) "neutral" then 1 else 0)
    /\ emotions t !! emotion_of r = Some k
    /\ emotions t' = <[emotion_of r := k + 1]> (emotions t).
Proof.
  intros Hrow [s Hs] [m Hm] Hdom.
  unfold count_sentiment, sentiment_of, emotion_of. rewrite Hs, Hm.
  cbn [lower_of mbind res_bind bind].
  destruct (add_virality_total (total_virality t)
              (get r "virality_score" (PInt 0))
              (NormalizerFacts.get_csv_row r _ Hrow)) as [v ->].
  assert (Hneutral : is_Some (emotions t !! "neutral")).
  { apply elem_of_dom. rewrite Hdom. by apply elem_of_dom. }
  destruct (bucket_run (emotions t) (lower m) "neutral" Hneutral)
    as (k & Hk & Hbucket).
  rewrite (label_in_dom (emotions t) initial_emotions "neutral" m Hdom)
    in Hk, Hbucket.
  destruct (decide (lower s = "positive")) as [Hp|Hp];
    [|destruct (decide (lower s = "negative")) as [Hn|Hn]];
    cbn [mbind res_bind bind]; rewrite Hbucket; cbn [mbind res_bind bind];
    eexists _, k; (split; [reflexivity|]);
    cbn [total_posts positive_posts negative_posts neutral_posts emotions];
    repeat split; try exact Hk; cbn [String.eqb Ascii.eqb Bool.eqb]; lia.
Qed.

Lemma fold_sentiments (rows : list row) : forall t0,
  Forall csv_row rows ->
  Forall (text_cell "sentiment") rows -> Forall (text_cell "emotion") rows ->
  dom (emotions t0) = dom initial_emotions ->
  exists t1,
    foldlM count_sentiment t0 rows = Ok t1
    /\ total_posts t1 = total_posts t0 + Z.of_nat (length rows)
    /\ positive_posts t1
       = positive_posts t0 + count_of sentiment_of "positive" rows
    /\ negative_posts t1
       = negative_posts t0 + count_of sentiment_of "negative" rows
    /\ neutral_posts t1
       = neutral_posts t0 + count_of sentiment_of "neutral" rows
    /\ dom (emotions t1) = dom initial_emotions
    /\ forall label k,
         emotions t0 !! label = Some k ->
         emotions t1 !! label = Some (k + count_of emotion_of label rows).
Proof.
  induction rows as [|r rows IH]; intros t0 Hcsv Hsen Hemo Hdom.
  - exists t0. cbn [foldlM length]. unfold count_of. cbn.
    repeat split; try lia; try done.
    intros label k ->. f_equal. lia.
  - inversion Hcsv as [|? ? Hr Hcsv']; subst.
    inversion Hsen as [|? ? Hs Hsen']; subst.
    inversion Hemo as [|? ? He Hemo']; subst.
    destruct (count_sentiment_run t0 r Hr Hs He Hdom)
      as (t' & k & Hstep & Htot & Hpos & Hneg & Hneu & Hk & Hemotions).
    assert (Hdom' : dom (emotions t') = dom initial_emotions).
    { rewrite Hemotions. rewrite dom_insert_lookup_L; [done|eauto]. }
    destruct (IH t' Hcsv' Hsen' Hemo' Hdom')
      as (t1 & Hrun & Htot1 & Hpos1 & Hneg1 & Hneu1 & Hdom1 & Hcounts).
    exists t1. cbn [foldlM]. rewrite Hstep. cbn [mbind res_bind bind].
    rewrite !count_of_cons. cbn [length].
    split; [exact Hrun|]. split; [lia|]. split; [lia|]. split; [lia|].
    split; [lia|]. split; [done|].
    intros label k0 Hk0. rewrite count_of_cons.
    destruct (String.eqb_spec (emotion_of r) label) as [<-|Hne].
    + rewrite (Hcounts (emotion_of r) (k + 1)).
      * f_equal. rewrite Hk in Hk0. injection Hk0 as <-. lia.
      * by rewrite Hemotions, lookup_insert_eq.
    + rewrite (Hcounts label k0); [f_equal; lia|].
      by rewrite Hemotions, lookup_insert_ne.
Qed.

(** The report of a file with rows and text in the label columns: the
    tally that it is made of. *)
Lemma sentiment_report_run (rows : list row) :
  rows <> [] -> Forall csv_row rows ->
  Forall (text_cell "sentiment") rows -> Forall (text_cell "emotion") rows ->
  let total := Z.of_nat (length rows) in
  exists (virality : num) (positive negative neutral : string)
         (dist : gmap string string),
    get_sentiment_analysis (Some rows)
    = {| bank_sentiment_score :=
           count_of sentiment_of "positive" rows
           - count_of sentiment_of "negative" rows;
         engagement_weighted_sentiment := virality;
         sentiment_distribution :=
           <["positive" := positive]>
             (<["negative" := negative]> {["neutral" := neutral]});
         emotion_distribution := dist |}
    /\ percentage (count_of sentiment_of "positive" rows) total = Ok positive
    /\ percentage (count_of sentiment_of "negative" rows) total = Ok negative
    /\ percentage (count_of sentiment_of "neutral" rows) total = Ok neutral
    /\ forall label,
         In label emotion_labels ->
         exists p, percentage (count_of emotion_of label rows) total = Ok p
                   /\ dist !! label = Some p.
Proof.
  intros Hrows Hcsv Hsen Hemo total.
  assert (Htotal : 0 < total)
    by (unfold total; destruct rows; [done|cbn [length]; lia]).
  destruct (fold_sentiments rows initial_tally Hcsv Hsen Hemo eq_refl)
    as (t & Hrun & Htot & Hpos & Hneg & Hneu & Hdom & Hcounts).
  cbn [initial_tally total_posts positive_posts negative_posts
         neutral_posts emotions] in Htot, Hpos, Hneg, Hneu, Hcounts.
  rewrite Z.add_0_l in Htot, Hpos, Hneg, Hneu. fold total in Htot.
  pose proof (count_of_range sentiment_of "positive" rows) as Rpos.
  pose proof (count_of_range sentiment_of "negative" rows) as Rneg.
  pose proof (count_of_range sentiment_of "neutral" rows) as Rneu.
  fold total in Rpos, Rneg, Rneu.
  destruct (percentage_bounded _ total Rpos Htotal) as (rp & Hrp & _).
  destruct (percentage_bounded _ total Rneg Htotal) as (rn & Hrn & _).
  destruct (percentage_bounded _ total Rneu Htotal) as (ru & Hru & _).
  assert (Hrange : map_Forall (fun _ n => 0 <= n <= total) (emotions t)).
  { intros label n Hn.
    assert (is_Some (initial_emotions !! label)) as [k Hk].
    { apply elem_of_dom. rewrite <- Hdom. apply elem_of_dom. eauto. }
    rewrite (initial_emotions_zero _ _ Hk) in Hk.
    rewrite (Hcounts _ _ Hk) in Hn. injection Hn as <-.
    pose proof (count_of_range emotion_of label rows). unfold total. lia. }
  destruct (percentages_total id (emotions t) total Htotal Hrange)
    as [dist Hdist].
  eexists (num_round_2 (total_virality t)), _, _, _, dist.
  split; [|split; [exact Hrp|split; [exact Hrn|split; [exact Hru|]]]].
  { unfold get_sentiment_analysis. rewrite Hrun.
    cbn [mbind res_bind bind]. rewrite Htot, Hpos, Hneg, Hneu.
    destruct (Z.ltb_spec 0 total); [|lia].
    rewrite Hrp, Hrn, Hru. cbn [mbind res_bind bind].
    rewrite Hdist. reflexivity. }
  intros label Hlabel.
  assert (Hk : initial_emotions !! label = Some 0).
  { unfold emotion_labels in Hlabel. cbn [In] in Hlabel.
    destruct Hlabel as [<-|[<-|[<-|[<-|[]]]]]; reflexivity. }
  pose proof (Hcounts _ _ Hk) as Hn. rewrite Z.add_0_l in Hn.
  apply (percentages_lookup id (emotions t) total dist
           ltac:(by intros a b _ _ ?) Hdist _ _ Hn).
Qed.

(** X15: the sentiment report of a CSV file that has rows, all with text
    in the sentiment and emotion columns. [bank_sentiment_score] is the
    number of positive rows minus the number of negative rows, the case of
    the letters apart. The two distributions give, for each of their
    labels, the share of the rows that carry it, an unknown sentiment
    counting as neutral and an unknown emotion as neutral: a percentage
    between 0% and 100%, 0% for no row and 100% for every row. *)
Theorem sentiment_report_counts_the_labels (rows : list row) :
  rows <> [] -> Forall csv_row rows ->
  Forall (text_cell "sentiment") rows -> Forall (text_cell "emotion") rows ->
  let total := Z.of_nat (length rows) in
  let report := get_sentiment_analysis (Some rows) in
  let share label_of (distribution : gmap string string) label :=
    let count := count_of label_of label rows in
    exists r,
      distribution !! label = Some (percent_text r)
      /\ percentage count total = Ok (percent_text r)
      /\ 0 <= r <= 100
      /\ (count = 0 -> percent_text r = "0%")
      /\ (count = total -> percent_text r = "100%") in
  bank_sentiment_score report
  = count_of sentiment_of "positive" rows
    - count_of sentiment_of "negative" rows
  /\ - total <= bank_sentiment_score report <= total
  /\ Forall (share sentiment_of (sentiment_distribution report))
            sentiment_labels
  /\ Forall (share emotion_of (emotion_distribution report)) emotion_labels.
Proof.
  intros Hrows Hcsv Hsen Hemo total report share.
  assert (Htotal : 0 < total)
    by (unfold total; destruct rows; [done|cbn [length]; lia]).
  destruct (sentiment_report_run rows Hrows Hcsv Hsen Hemo)
    as (virality & positive & negative & neutral & dist & Hreport
        & Hpos & Hneg & Hneu & Hemotions).
  fold total in Hpos, Hneg, Hneu, Hemotions.
  pose proof (count_of_range sentiment_of "positive" rows) as Rpos.
  pose proof (count_of_range sentiment_of "negative" rows) as Rneg.
  pose proof (count_of_range sentiment_of "neutral" rows) as Rneu.
  fold total in Rpos, Rneg, Rneu.
  unfold report. rewrite Hreport.
  cbn [bank_sentiment_score sentiment_distribution emotion_distribution].
  split; [done|]. split; [lia|]. split.
  - unfold sentiment_labels, share. repeat constructor.
    + destruct (share_text _ total _ Rpos Htotal Hpos) as (r & -> & Hr).
      exists r. by rewrite lookup_insert_eq.
    + destruct (share_text _ total _ Rneg Htotal Hneg) as (r & -> & Hr).
      exists r. rewrite lookup_insert_ne by done.
      by rewrite lookup_insert_eq.
    + destruct (share_text _ total _ Rneu Htotal Hneu) as (r & -> & Hr).
      exists r. rewrite !lookup_insert_ne by done.
      by rewrite lookup_singleton_eq.
  - apply List.Forall_forall. intros label Hlabel. unfold share.
    destruct (Hemotions label Hlabel) as (p & Hp & Hlookup).
    destruct (share_text _ total p (count_of_range emotion_of label rows)
                Htotal Hp) as (r & -> & Hr).
    exists r. done.
Qed.

Lemma csv_row_labelled c s e : csv_row (Cases.labelled c s e).
Proof.
  unfold Cases.labelled.
  repeat (apply NormalizerFacts.csv_row_insert; [exact I|]).
  apply map_Forall_empty.
Qed.

Lemma sentiment_report_counts_the_labels_witness :
  Cases.labelled_posts <> [] /\ Forall csv_row Cases.labelled_posts
  /\ Forall (text_cell "sentiment") Cases.labelled_posts
  /\ Forall (text_cell "emotion") Cases.labelled_posts
  /\ bank_sentiment_score (get_sentiment_analysis (Some Cases.labelled_posts))
     = -1
  /\ sentiment_distribution (get_sentiment_analysis (Some Cases.labelled_posts))
     !! "negative" = Some "67%".
Proof.
  assert (Hrows : Cases.labelled_posts <> []) by discriminate.
  assert (Hcsv : Forall csv_row Cases.labelled_posts)
    by (repeat constructor; apply csv_row_labelled).
  assert (Hsen : Forall (text_cell "sentiment") Cases.labelled_posts)
    by (repeat constructor; eexists; reflexivity).
  assert (Hemo : Forall (text_cell "emotion") Cases.labelled_posts)
    by (repeat constructor; eexists; reflexivity).
  destruct (sentiment_report_counts_the_labels Cases.labelled_posts
              Hrows Hcsv Hsen Hemo) as (Hscore & _ & Hdist & _).
  split; [exact Hrows|]. split; [exact Hcsv|]. split; [exact Hsen|].
  split; [exact Hemo|]. split.
  - rewrite Hscore. vm_compute. reflexivity.
  - apply Forall_inv_tail, Forall_inv in Hdist.
    destruct Hdist as (r & Hlookup & Hshare & _).
    assert (Hvalue : percentage
                       (count_of sentiment_of "negative" Cases.labelled_posts)
                       (Z.of_nat (length Cases.labelled_posts)) = Ok "67%")
      by (vm_compute; reflexivity).
    rewrite Hvalue in Hshare. injection Hshare as Hr.
    rewrite <- Hr in Hlookup. exact Hlookup.
Defined.

(** ** A row that is cut short *)

Lemma foldlM_raises {A B} (f : B -> A -> res B) (l : list A) :
  Exists (fun x => forall b, exists e, f b x = Raise e) l ->
  forall b, exists e, foldlM f b l = Raise e.
Proof.
  induction 1 as [x l Hx|x l _ IH]; intros b; cbn [foldlM].
  - destruct (Hx b) as [e ->]. by exists e.
  - destruct (f b x) as [b'|e]; cbn [mbind res_bind bind]; [apply IH|eauto].
Qed.

(** X16: one row without text in a label column wipes out the report. A
    line of the CSV file that is shorter than the header gives a row whose
    missing cells are [None]; on such a row [.lower()] raises, the handler
    of the report catches it, and the report is that of a missing file:
    every share is 0% and [total_number_of_posts] is 0, however many rows
    the file has. *)
Theorem a_row_without_a_label_wipes_out_the_report (rows : list row) :
  (Exists (fun r => ~ text_cell "category" r) rows ->
   get_post_categories_percentage (Some rows) = zero_categories)
  /\ (Exists (fun r => ~ text_cell "sentiment" r \/ ~ text_cell "emotion" r)
             rows ->
      get_sentiment_analysis (Some rows) = zero_sentiment)
  /\ get_post_categories_percentage (Some [Cases.short_row])
     = zero_categories
  /\ zero_categories !! "total_number_of_posts" = Some (PInt 0).
Proof.
  split; [|split; [|split; reflexivity]].
  - intros Hbad. unfold get_post_categories_percentage.
    destruct (foldlM_raises count_category rows) with (b := (initial_categories, 0))
      as [e ->]; [|done].
    eapply Exists_impl; [exact Hbad|]. intros r Hr [c n].
    unfold count_category.
    destruct (get r "category" (PStr "")) as [| | | |s] eqn:Hcell;
      cbn [lower_of mbind res_bind bind]; eauto.
    exfalso. apply Hr. by exists s.
  - intros Hbad. unfold get_sentiment_analysis.
    destruct (foldlM_raises count_sentiment rows) with (b := initial_tally)
      as [e ->]; [|done].
    eapply Exists_impl; [exact Hbad|]. intros r Hr t.
    unfold count_sentiment.
    destruct (get r "sentiment" (PStr "")) as [| | | |s] eqn:Hs;
      cbn [lower_of mbind res_bind bind]; eauto.
    destruct Hr as [Hr|Hr]; [exfalso; apply Hr; by exists s|].
    destruct (decide (lower s = "positive")),
             (decide (lower s = "negative"));
      (destruct (add_virality _ _); cbn [mbind res_bind bind]; eauto);
      (destruct (get r "emotion" (PStr "")) as [| | | |m] eqn:Hm;
       cbn [lower_of mbind res_bind bind]; eauto);
      exfalso; apply Hr; by exists m.
Qed.

(** ** From the reports to the summary *)

Lemma replace_percent s :
  (forall c, In c (list_ascii_of_string s) -> c <> "%"%char) ->
  replace_char "%" "" (s +:+ "%") = s.
Proof.
  induction s as [|c s IH]; intros Hs; [done|].
  change (String c s +:+ "%") with (String c (s +:+ "%")).
  cbn [replace_char].
  destruct (Ascii.eqb_spec c "%") as [->|_].
  - exfalso. apply (Hs "%"%char); [|done]. cbn. auto.
  - f_equal. apply IH. intros c' Hc'. apply Hs. cbn. auto.
Qed.

Lemma str_of_int_no_percent z c :
  In c (list_ascii_of_string (str_of_int z)) -> c <> "%"%char.
Proof.
  unfold str_of_int. destruct z as [|p|p];
    cbn [Z.to_int NilZero.string_of_int]; rewrite ?string_of_uint_pos.
  - intros [<-|[]]. done.
  - intros Hc ->. by apply uint_digits in Hc.
  - intros [<-|Hc]; [done|]. intros ->. by apply uint_digits in Hc.
Qed.

(** The summary reads the number that the reports wrote. *)
Lemma percent_of_text label r :
  Views.percent_of (label, Main.Lit (PStr (percent_text r))) = Some r.
Proof.
  unfold Views.percent_of, percent_text. cbn [snd].
  rewrite replace_percent by apply str_of_int_no_percent.
  by rewrite int_of_str_of_int.
Qed.

Lemma stored_shares (dist : gmap string string) (labels : list string) :
  Forall (fun label => exists r, dist !! label = Some (percent_text r)
                                 /\ 0 <= r <= 100) labels ->
  length (stored dist labels) = length labels
  /\ Forall (fun kv => exists r, kv = (fst kv, Main.Lit (PStr (percent_text r)))
                                 /\ In (fst kv) labels /\ 0 <= r <= 100)
            (stored dist labels).
Proof.
  induction 1 as [|label labels (r & Hr & Hrange) _ [IHlen IHall]];
    [by split|].
  unfold stored in *. cbn [omap list_omap]. rewrite Hr. cbn [fmap option_fmap option_map].
  split; [cbn [length]; by rewrite IHlen|].
  constructor.
  - exists r. cbn [fst In]. auto.
  - eapply Forall_impl; [exact IHall|].
    intros kv (r' & Hkv & Hin & Hr'). exists r'. cbn [In]. auto.
Qed.

(** X17: the summary reads what the sentiment report writes. When a
    distribution of the document is the one that [get_sentiment_analysis]
    returns for a CSV file with rows and text in the label columns, its
    labels in the order of the report, [max] of the summary does not fail:
    every share is the text of a number with a percent sign, which
    [int(x.replace('%', ''))] reads back as that number, and the entry it
    picks is a label of the report with a share between 0% and 100%, the
    first of the largest. *)
Theorem summary_reads_the_shares_that_the_report_writes
    (rows : list row) (w : Main.world) (d : Main.loc) (emotions : bool) :
  rows <> [] -> Forall csv_row rows ->
  Forall (text_cell "sentiment") rows -> Forall (text_cell "emotion") rows ->
  let report := get_sentiment_analysis (Some rows) in
  let entries :=
    if emotions then stored (emotion_distribution report) emotion_labels
    else stored (sentiment_distribution report) sentiment_labels in
  Main.store w !! d = Some (Main.Dict entries) ->
  (forall label r,
      Views.percent_of (label, Main.Lit (PStr (percent_text r))) = Some r)
  /\ exists label n pair w',
       Main.max_item (Main.Ref d) w = (Ok (Main.Ref pair), w')
       /\ Main.store w' !! pair
          = Some (Main.List [Main.Lit (PStr label);
                             Main.Lit (PStr (percent_text n))])
       /\ 0 <= n <= 100
       /\ In label (if emotions then emotion_labels else sentiment_labels)
       /\ Views.first_largest entries
            (label, Main.Lit (PStr (percent_text n))).
Proof.
  intros Hrows Hcsv Hsen Hemo report entries Hd.
  split; [apply percent_of_text|].
  assert (Htotal : 0 < Z.of_nat (length rows))
    by (destruct rows; [done|cbn [length]; lia]).
  destruct (sentiment_report_run rows Hrows Hcsv Hsen Hemo)
    as (virality & positive & negative & neutral & dist & Hreport
        & Hpos & Hneg & Hneu & Hemotions).
  assert (Hshares :
            length entries
            = length (if emotions then emotion_labels else sentiment_labels)
            /\ Forall (fun kv =>
                        exists r,
                          kv = (fst kv, Main.Lit (PStr (percent_text r)))
                          /\ In (fst kv) (if emotions then emotion_labels
                                          else sentiment_labels)
                          /\ 0 <= r <= 100) entries).
  { unfold entries, report. rewrite Hreport.
    cbn [sentiment_distribution emotion_distribution].
    destruct emotions; apply stored_shares.
    - apply List.Forall_forall. intros label Hlabel.
      destruct (Hemotions label Hlabel) as (p & Hp & Hlookup).
      destruct (share_text _ _ p (count_of_range emotion_of label rows)
                  Htotal Hp) as (r & -> & Hr & _).
      eauto.
    - destruct (share_text _ _ _ (count_of_range _ _ rows) Htotal Hpos)
        as (rp & -> & Hrp & _).
      destruct (share_text _ _ _ (count_of_range _ _ rows) Htotal Hneg)
        as (rn & -> & Hrn & _).
      destruct (share_text _ _ _ (count_of_range _ _ rows) Htotal Hneu)
        as (ru & -> & Hru & _).
      unfold sentiment_labels. repeat constructor.
      + exists rp. by rewrite lookup_insert_eq.
      + exists rn. rewrite lookup_insert_ne by done.
        by rewrite lookup_insert_eq.
      + exists ru. rewrite !lookup_insert_ne by done.
        by rewrite lookup_singleton_eq. }
  destruct Hshares as [Hlen Hall].
  assert (Hne : entries <> []).
  { intros Hnil. rewrite Hnil in Hlen. by destruct emotions. }
  assert (Htyped : Forall (fun kv => is_Some (Views.percent_of kv)) entries).
  { eapply Forall_impl; [exact Hall|].
    intros kv (r & -> & _). rewrite percent_of_text. eauto. }
  destruct (HandlerFacts.max_item_first_largest w d entries Hd Hne Htyped)
    as (label & x & Hrun & Hfirst).
  assert (Hin : In (label, x) entries).
  { destruct Hfirst as (before & after & n & -> & _).
    apply in_or_app. right. by left. }
  rewrite List.Forall_forall in Hall.
  destruct (Hall _ Hin) as (n & Hkv & Hlabel & Hrange).
  cbn [fst] in Hkv, Hlabel. injection Hkv as ->.
  eexists label, n, _, _. split; [exact Hrun|].
  cbn [Main.store]. split; [by rewrite lookup_insert_eq|].
  split; [exact Hrange|]. split; [exact Hlabel|exact Hfirst].
Qed.

Lemma summary_reads_the_shares_that_the_report_writes_witness :
  exists label n pair w',
    Main.max_item (Main.Ref 1%positive)
      {| Main.store :=
           {[1%positive :=
               Main.Dict (stored (sentiment_distribution
                                    (get_sentiment_analysis
                                       (Some Cases.labelled_posts)))
                                 sentiment_labels)]};
         Main.ticks := 0 |}
    = (Ok (Main.Ref pair), w')
    /\ Main.store w' !! pair
       = Some (Main.List [Main.Lit (PStr label);
                          Main.Lit (PStr (percent_text n))])
    /\ 0 <= n <= 100.
Proof.
  destruct (summary_reads_the_shares_that_the_report_writes
              Cases.labelled_posts
              {| Main.store :=
                   {[1%positive :=
                       Main.Dict (stored (sentiment_distribution
                                            (get_sentiment_analysis
                                               (Some Cases.labelled_posts)))
                                         sentiment_labels)]};
                 Main.ticks := 0 |}
              1%positive false
              ltac:(discriminate)
              ltac:(repeat constructor; apply csv_row_labelled)
              ltac:(repeat constructor; eexists; reflexivity)
              ltac:(repeat constructor; eexists; reflexivity)
              ltac:(cbn [Main.store]; apply lookup_singleton_eq))
    as (_ & label & n & pair & w' & Hrun & Hpair & Hrange & _).
  exists label, n, pair, w'.
  split; [exact Hrun|]. split; [exact Hpair|exact Hrange].
Defined.

End ReportFacts.



(* ===================================================================== *)
(** * The routes of the Flask API                                         *)
(* ===================================================================== *)

Module TriggerFacts.

Import Analytics Api Runs.

Lemma asks_content word (d : gmap string jval) :
  d !! "content" = Some (JScalar (PStr word)) ->
  (size d =? 0)%nat = false.
Proof.
  intros Hd. apply Nat.eqb_neq. intros Hsize.
  apply map_size_empty_iff in Hsize. subst. by rewrite lookup_empty in Hd.
Qed.

Lemma is_reanalyze_spec v :
  is_reanalyze v = true <-> v = Some (JScalar (PStr "reanalyze")).
Proof.
  unfold is_reanalyze. destruct v as [[[| | | |s]| |]|]; try (split; done).
  destruct (String.eqb_spec s "reanalyze") as [->|Hs]; split; try done.
  intros [= ->]. done.
Qed.

Lemma validate_counts_run p o a b :
  int_of_json p = Ok a -> int_of_json o = Ok b ->
  1 <= a <= 200 -> 1 <= b <= 200 ->
  validate_counts p o = Ok (inr (a, b)).
Proof.
  intros Hp Ho Ha Hb. unfold validate_counts. rewrite Hp, Ho.
  cbn [mbind res_bind bind].
  destruct (Z.ltb_spec a 1), (Z.ltb_spec 200 a); try lia.
  destruct (Z.ltb_spec b 1), (Z.ltb_spec 200 b); try lia.
  reflexivity.
Qed.

(** A valid request starts a run when none is recorded as running. *)
Lemma valid_request_runs scraper (d : gmap string jval) a b :
  d !! "content" = Some (JScalar (PStr "reanalyze")) ->
  status scraper <> "running" ->
  requested d "prime_bank_posts" 20 = Ok a ->
  requested d "other_banks_posts" 15 = Ok b ->
  1 <= a <= 200 -> 1 <= b <= 200 ->
  reanalyze scraper (JsonDict d)
  = {| code := 200; reply := Running a b; started := Some (a, b) |}.
Proof.
  intros Hcontent Hrun Hp Ho Ha Hb. unfold reanalyze.
  rewrite (asks_content _ _ Hcontent).
  apply is_reanalyze_spec in Hcontent. rewrite Hcontent. cbn [negb orb].
  destruct (String.eqb_spec (status scraper) "running") as [|_]; [done|].
  unfold requested in Hp, Ho.
  by rewrite (validate_counts_run _ _ a b Hp Ho Ha Hb).
Qed.

(** X18: [POST /api/reanalyze] starts a scraper run exactly when the body is
    a JSON object whose content is "reanalyze", the recorded status is not
    'running', and the two counts, 20 and 15 where the body gives none, are
    read by [int()] as numbers between 1 and 200; the run gets these two
    numbers, and the answer is then 200 with them. *)
Theorem a_run_starts_exactly_for_a_valid_request_while_none_runs
    scraper request a b :
  (started (reanalyze scraper request) = Some (a, b)
   <-> exists d,
         request = JsonDict d
         /\ d !! "content" = Some (JScalar (PStr "reanalyze"))
         /\ status scraper <> "running"
         /\ requested d "prime_bank_posts" 20 = Ok a
         /\ requested d "other_banks_posts" 15 = Ok b
         /\ 1 <= a <= 200 /\ 1 <= b <= 200)
  /\ (started (reanalyze scraper request) = Some (a, b) ->
      reanalyze scraper request
      = {| code := 200; reply := Running a b; started := Some (a, b) |}).
Proof.
  assert (Hvalid :
    started (reanalyze scraper request) = Some (a, b) ->
    exists d,
      request = JsonDict d
      /\ d !! "content" = Some (JScalar (PStr "reanalyze"))
      /\ status scraper <> "running"
      /\ requested d "prime_bank_posts" 20 = Ok a
      /\ requested d "other_banks_posts" 15 = Ok b
      /\ 1 <= a <= 200 /\ 1 <= b <= 200).
  { unfold reanalyze.
    destruct request as [|d|[|]]; cbn; try discriminate.
    destruct (size d =? 0)%nat eqn:Hsize; cbn; [discriminate|].
    destruct (is_reanalyze (d !! "content")) eqn:Hcontent;
      cbn; [|discriminate].
    apply is_reanalyze_spec in Hcontent.
    destruct (String.eqb_spec (status scraper) "running") as [Hrun|Hrun];
      cbn; [discriminate|].
    destruct (validate_counts _ _) as [[refusal|[x y]]|e] eqn:Hv; cbn.
    - apply ReanalyzeFacts.validate_counts_accepts in Hv as [_ ->].
      discriminate.
    - intros [= -> ->].
      apply ReanalyzeFacts.validate_counts_accepts in Hv
        as (Hx & Hy & Ha & Hb).
      exists d. unfold requested. done.
    - discriminate. }
  split; [split; [exact Hvalid|]|].
  - intros (d & -> & Hcontent & Hrun & Hp & Ho & Ha & Hb).
    by rewrite (valid_request_runs scraper d a b).
  - intros Hstarted.
    destruct (Hvalid Hstarted) as (d & -> & Hcontent & Hrun & Hp & Ho & Ha & Hb).
    by apply valid_request_runs.
Qed.

End TriggerFacts.

(* ===================================================================== *)
(** * The legacy full data                                                *)
(* ===================================================================== *)

Module LegacyFacts.

Import Analytics Api Legacy Runs.

Lemma is_give_full_data_spec v :
  is_give_full_data v = true <-> v = Some (JScalar (PStr "give_full_data")).
Proof.
  unfold is_give_full_data.
  destruct v as [[[| | | |s]| |]|]; try (split; done).
  destruct (String.eqb_spec s "give_full_data") as [->|Hs];
    split; try done.
  intros [= ->]. done.
Qed.

(** The request passes the check of the body. *)
Lemma asked_full_data request posts_csv comments_csv :
  asks "give_full_data" request ->
  get_full_data request posts_csv comments_csv
  = try_except
      (posts ← posts_data posts_csv;
       Ok (FullData posts (comments_data comments_csv)
             {| total_posts := Z.of_nat (length posts);
                total_comments :=
                  Z.of_nat (length (comments_data comments_csv));
                posts_csv_exists := bool_decide (is_Some posts_csv);
                comments_csv_exists :=
                  bool_decide (is_Some comments_csv) |}))
      (fun _ => Refused 500 "Internal server error").
Proof.
  intros (d & -> & Hcontent). unfold get_full_data.
  rewrite (TriggerFacts.asks_content _ _ Hcontent).
  apply is_give_full_data_spec in Hcontent. by rewrite Hcontent.
Qed.

Lemma mapM_raises {A B} (f : A -> res B) (l : list A) :
  Exists (fun x => exists e, f x = Raise e) l ->
  exists e, mapM f l = Raise e.
Proof.
  induction 1 as [x l [e He]|x l _ [e IH]]; cbn [mapM].
  - rewrite He. by exists e.
  - destruct (f x) as [y|e']; cbn [mbind res_bind bind]; [|by exists e'].
    rewrite IH. by exists e.
Qed.

Lemma mapM_run {A B} (f : A -> res B) (R : A -> B -> Prop) (l : list A) :
  Forall (fun x => exists y, f x = Ok y /\ R x y) l ->
  exists ys, mapM f l = Ok ys /\ Forall2 R l ys.
Proof.
  induction 1 as [|x l (y & Hy & HR) _ (ys & IH & HF)]; cbn [mapM].
  - exists []. by split.
  - rewrite Hy, IH. exists (y :: ys). split; [done|by constructor].
Qed.

Lemma blank_count_raises (r : row) key :
  blank (r !! key) -> exists e, int_of (get r key (PInt 0)) = Raise e.
Proof.
  unfold get. intros [-> | ->]; [by exists TypeError|].
  eexists. by vm_compute.
Qed.

Lemma blank_row_raises (r : row) key :
  key ∈ count_columns -> blank (r !! key) ->
  exists e, post_data_of r = Raise e.
Proof.
  intros Hkey Hblank. unfold post_data_of.
  destruct (blank_count_raises r key Hblank) as [e He].
  unfold count_columns in Hkey.
  destruct (int_of (get r "reaction_count" (PInt 0))) as [a|e1] eqn:Ha;
    cbn [mbind res_bind bind]; [|by eexists].
  destruct (int_of (get r "comments_count" (PInt 0))) as [b|e2] eqn:Hb;
    cbn [mbind res_bind bind]; [|by eexists].
  destruct (int_of (get r "share_count" (PInt 0))) as [c|e3] eqn:Hc;
    cbn [mbind res_bind bind]; [|by eexists].
  exfalso.
  repeat (apply elem_of_cons in Hkey as [->|Hkey]; [congruence|]).
  by apply elem_of_nil in Hkey.
Qed.

(** X19: one post row with an empty count cell, or one too short to have
    the cell, makes the legacy [POST /api/full_data] answer 500 to a valid
    request, whatever the other rows and the comments file hold. *)
Theorem a_blank_count_in_one_post_fails_the_legacy_full_data
    request rows comments_csv :
  asks "give_full_data" request ->
  Exists (fun r => exists key, key ∈ count_columns /\ blank (r !! key))
         rows ->
  get_full_data request (Some rows) comments_csv
  = Refused 500 "Internal server error".
Proof.
  intros Hasks Hrows. rewrite (asked_full_data _ _ _ Hasks).
  destruct (mapM_raises post_data_of rows) as [e He].
  { eapply Exists_impl; [exact Hrows|].
    intros r (key & Hkey & Hblank). by eapply blank_row_raises. }
  cbn [posts_data]. by rewrite He.
Qed.

Lemma a_blank_count_in_one_post_fails_the_legacy_full_data_witness :
  get_full_data Traces.give_full_data
    (Some [Samples.clean_post; Traces.blank_shares]) Samples.two_comments
  = Refused 500 "Internal server error".
Proof.
  apply a_blank_count_in_one_post_fails_the_legacy_full_data.
  - eexists. split; reflexivity.
  - apply Exists_cons_tl, Exists_cons_hd. exists "share_count".
    split; [unfold count_columns; set_solver|right; reflexivity].
Defined.

Lemma written_count_run (r : row) key n :
  written (r !! key) n -> int_of (get r key (PInt 0)) = Ok n.
Proof.
  intros [Hcell _]. unfold get. rewrite Hcell. cbn [int_of].
  apply IntTextFacts.int_of_str_of_int.
Qed.

Lemma virality_run (r : row) :
  virality_readable (r !! "virality_score") ->
  exists f,
    float_of (py_or (get r "virality_score" (PInt 0)) (PInt 0)) = Ok f.
Proof.
  unfold virality_readable, get.
  destruct (r !! "virality_score") as [[| | | |s]|]; try done.
  - intros _. eexists. by vm_compute.
  - intros [->|[f Hf]]; [eexists; by vm_compute|].
    unfold py_or. cbn [truthy].
    destruct (String.eqb_spec s "") as [->|_]; cbn [negb].
    + eexists. by vm_compute.
    + by exists f.
  - intros _. eexists. by vm_compute.
Qed.

Lemma readable_post_run (r : row) :
  readable_post r -> exists p, post_data_of r = Ok p /\ shows r p.
Proof.
  intros [Hcounts Hvirality].
  destruct (Hcounts "reaction_count") as [a Ha];
    [unfold count_columns; set_solver|].
  destruct (Hcounts "comments_count") as [b Hb];
    [unfold count_columns; set_solver|].
  destruct (Hcounts "share_count") as [c Hc];
    [unfold count_columns; set_solver|].
  destruct (virality_run r Hvirality) as [f Hf].
  unfold post_data_of.
  rewrite (written_count_run _ _ _ Ha), (written_count_run _ _ _ Hb),
    (written_count_run _ _ _ Hc), Hf.
  cbn [mbind res_bind bind]. eexists. split; [reflexivity|].
  unfold shows. cbn. done.
Qed.


Lemma written_cell (r : row) key (n : Z) :
  r !! key = Some (PStr (str_of_int n)) -> 0 <= n < 2 ^ 63 ->
  exists n, written (r !! key) n.
Proof. intros Hcell Hn. by exists n. Qed.


(** ** The comments *)

Lemma collect_cut {A B} (f : A -> res B) (R : A -> B -> Prop)
    (before : list A) (bad : A) (after : list A) :
  Forall (fun x => exists y, f x = Ok y /\ R x y) before ->
  (exists e, f bad = Raise e) ->
  exists ys, collect f (before ++ bad :: after) = ys /\ Forall2 R before ys.
Proof.
  intros Hbefore [e Hbad].
  induction Hbefore as [|x before (y & Hy & HR) _ (ys & IH & HF)];
    cbn [app collect].
  - rewrite Hbad. exists []. by split.
  - rewrite Hy, IH. exists (y :: ys). split; [done|by constructor].
Qed.

Lemma comment_count_run (r : row) key :
  r !! key = None \/ blank (r !! key) \/ (exists n, written (r !! key) n) ->
  exists n, int_of (py_or (get r key (PInt 0)) (PInt 0)) = Ok n.
Proof.
  unfold get. intros [->|[[->| ->]|[n [-> _]]]]; try (by eexists).
  unfold py_or. destruct (truthy _); [|by eexists].
  exists n. apply IntTextFacts.int_of_str_of_int.
Qed.

Lemma readable_comment_run (r : row) :
  readable_comment r ->
  exists c, comment_data_of r = Ok c /\ Api.whole_row c = r.
Proof.
  intros Hr. unfold comment_data_of.
  destruct (comment_count_run r "likes_count") as [likes ->];
    [apply Hr; unfold comment_columns; set_solver|].
  destruct (comment_count_run r "comments_count") as [replies ->];
    [apply Hr; unfold comment_columns; set_solver|].
  cbn [mbind res_bind bind]. eexists. by split.
Qed.

Lemma unreadable_comment_raises (r : row) :
  unreadable_comment r -> exists e, comment_data_of r = Raise e.
Proof.
  intros (key & s & e & Hkey & Hcell & Hs & He).
  assert (Hraise : int_of (py_or (get r key (PInt 0)) (PInt 0)) = Raise e).
  { unfold get, py_or. rewrite Hcell. cbn [truthy].
    by destruct (String.eqb_spec s "") as [|_]. }
  unfold comment_data_of, comment_columns in *.
  apply elem_of_cons in Hkey as [->|Hkey].
  - rewrite Hraise. by exists e.
  - apply elem_of_cons in Hkey as [->|Hkey]; [|by apply elem_of_nil in Hkey].
    destruct (int_of (py_or (get r "likes_count" _) _)) as [likes|e'];
      cbn [mbind res_bind bind]; [|by exists e'].
    rewrite Hraise. by exists e.
Qed.

Lemma rows_of_records {A B} (g : B -> A) (l : list A) (ys : list B) :
  Forall2 (fun x y => g y = x) l ys -> map g ys = l.
Proof.
  induction 1 as [|x y l ys Hy _ IH]; [done|]. cbn [map]. by rewrite Hy, IH.
Qed.

Lemma readable_posts_run posts_csv :
  readable_posts posts_csv -> exists posts, posts_data posts_csv = Ok posts.
Proof.
  destruct posts_csv as [rows|]; [|by exists []].
  intros Hrows. cbn [posts_data].
  destruct (mapM_run post_data_of shows rows) as (posts & Hposts & _).
  { eapply Forall_impl; [exact Hrows|]. apply readable_post_run. }
  by exists posts.
Qed.



End LegacyFacts.



(* ===================================================================== *)
(** * A run of the scraper                                                *)
(* ===================================================================== *)

Module ScraperFacts.

Import Api Scraper Runs.

(** ** The duration *)

(** The float of [p / d] is zero or finite when the quotient is at most
    [2 ^ 52]. *)
Lemma ratio_finite (p d : positive) :
  Z.pos p <= 2 ^ 52 * Z.pos d ->
  fdiv (S754_finite false p 0) (S754_finite false d 0) = S754_zero false
  \/ exists m e,
       fdiv (S754_finite false p 0) (S754_finite false d 0)
       = S754_finite false m e.
Proof.
  intros Hpd. unfold fdiv, SFdiv, SFdiv_core_binary. cbv zeta.
  set (e' := Z.min _ _).
  assert (He' : e' <= 0) by (unfold e'; lia).
  replace (0 - 0 - e') with (- e') by lia.
  set (m' := match - e' with
             | 0 => Z.pos p
             | Z.pos _ => Z.shiftl (Z.pos p) (- e')
             | Z.neg _ => 0
             end).
  assert (Hm' : m' = Z.pos p * 2 ^ (- e')).
  { unfold m'. destruct (- e') as [|s|s] eqn:Hs; [simpl; lia| |lia].
    by rewrite Z.shiftl_mul_pow2. }
  assert (Hpow : 0 < 2 ^ (- e')) by (apply Z.pow_pos_nonneg; lia).
  pose proof (Z.div_mod m' (Z.pos d) ltac:(lia)) as Hdiv.
  pose proof (Z.mod_pos_bound m' (Z.pos d) ltac:(lia)) as Hmod.
  unfold Z.div, Z.modulo in Hdiv, Hmod.
  destruct (Z.div_eucl m' (Z.pos d)) as [q r]. cbn [xorb].
  assert (Hq : 0 <= q) by nia.
  assert (Hle : q <= 2 ^ 52 * 2 ^ (- e')) by nia.
  destruct (FloatFacts.round_aux_bounded (2 ^ 52) 52 ltac:(lia) ltac:(lia)
              ltac:(lia) false q e' (new_location (Z.pos d) r) Hq He' Hle)
    as [Hzero|(m & e & Hfinite & _)].
  - intros Hinexact.
    assert (r <> 0) by (intros ->; apply Hinexact;
                        unfold new_location, new_location_even,
                          new_location_odd; by destruct (Z.even _)).
    nia.
  - by left.
  - right. by exists m, e.
Qed.

(** The seconds between two instants that are less than [2 ^ 52] seconds
    apart are computed and rounded without an exception. *)
Lemma seconds_run (a b : Z) :
  Z.abs (b - a) <= 2 ^ 52 * 1000000 ->
  exists duration seconds,
    total_seconds a b = Ok duration /\ round_float duration = Ok seconds.
Proof.
  intros Hab. unfold total_seconds, true_div.
  change (1000000 =? 0) with false. cbv iota.
  assert (Hratio :
    float_of_ratio (Z.abs (b - a)) (Z.abs 1000000) = S754_zero false
    \/ exists m e, float_of_ratio (Z.abs (b - a)) (Z.abs 1000000)
                   = S754_finite false m e).
  { unfold float_of_ratio. destruct (Z.abs (b - a)) as [|p|p] eqn:Hp;
      [by left| |by left].
    apply ratio_finite. change (Z.pos (Z.to_pos (Z.abs 1000000)))
      with 1000000. lia. }
  destruct Hratio as [->|(m & e & ->)];
    destruct (Bool.eqb _ _); eexists; eexists; split; reflexivity.
Qed.

(** ** The loop over the output *)

Lemma int_digits_all s :
  Forall (fun c => is_digit c = true) (list_ascii_of_string s) ->
  forall acc seen, s <> "" \/ seen = true ->
  exists z, int_digits s acc seen = Some z.
Proof.
  induction s as [|c s IH]; intros Hs acc seen Hseen.
  - destruct Hseen as [ | -> ]; [done|]. by exists acc.
  - cbn [list_ascii_of_string] in Hs. apply Forall_cons in Hs as [Hc Hs].
    cbn [int_digits]. rewrite Hc. apply IH; [done|by right].
Qed.

Lemma digits_prefix_digits s :
  Forall (fun c => is_digit c = true)
         (list_ascii_of_string (digits_prefix s)).
Proof.
  induction s as [|c s IH]; [constructor|].
  cbn [digits_prefix]. destruct (is_digit c) eqn:Hc; [|constructor].
  by constructor.
Qed.

(** [int()] reads every number that the pattern finds. *)
Lemma first_number_read line digits :
  first_number line = Some digits -> exists n, int_of_str digits = Ok n.
Proof.
  induction line as [|c s IH]; [done|].
  cbn [first_number]. destruct (is_digit c) eqn:Hc; [|exact IH].
  intros [= <-]. cbn [digits_prefix]. rewrite Hc.
  pose proof (digits_prefix_digits s) as Hs.
  assert (Hall : Forall (fun c => is_digit c = true)
                        (list_ascii_of_string (String c (digits_prefix s))))
    by (by constructor).
  unfold int_of_str. rewrite IntTextFacts.strip_no_space.
  2:{ intros c' Hc'. apply IntTextFacts.digit_not_space.
      rewrite Forall_forall in Hall. by apply Hall, list_elem_of_In. }
  destruct (int_digits_all _ Hall 0 false ltac:(by left)) as [z Hz].
  exists z.
  assert (c <> "-"%char /\ c <> "+"%char) as [Hm Hpl]
    by (split; intros ->; discriminate).
  destruct c as [[] [] [] [] [] [] [] []]; try done; by rewrite Hz.
Qed.

(** What one line does to the status. *)
Lemma read_stats_run st line :
  exists st',
    read_stats st line = Ok st'
    /\ status st' = status st /\ last_run st' = last_run st
    /\ duration_seconds st' = duration_seconds st
    /\ (if posts_line line
        then exists digits, first_number line = Some digits
                            /\ int_of_str digits = Ok (posts_scraped st')
        else posts_scraped st' = posts_scraped st)
    /\ (if comments_line line
        then exists digits, first_number line = Some digits
                            /\ int_of_str digits = Ok (comments_scraped st')
        else comments_scraped st' = comments_scraped st).
Proof.
  unfold read_stats, posts_line, comments_line.
  destruct (contains "posts scraped" (lower line)); cbn [negb andb].
  - destruct (first_number line) as [digits|] eqn:Hnumber.
    + destruct (first_number_read _ _ Hnumber) as [n Hn]. rewrite Hn.
      cbn [mbind res_bind bind]. eexists. split; [reflexivity|].
      rewrite bool_decide_eq_true_2 by done. cbn.
      repeat split; try done. by exists digits.
    + eexists. split; [reflexivity|].
      rewrite bool_decide_eq_false_2 by (by intros [? ?]). done.
  - destruct (contains "comments scraped" (lower line)); cbn [andb].
    + destruct (first_number line) as [digits|] eqn:Hnumber.
      * destruct (first_number_read _ _ Hnumber) as [n Hn]. rewrite Hn.
        cbn [mbind res_bind bind]. eexists. split; [reflexivity|].
        rewrite bool_decide_eq_true_2 by done. cbn.
        repeat split; try done. by exists digits.
      * eexists. split; [reflexivity|].
        rewrite bool_decide_eq_false_2 by (by intros [? ?]). done.
    + eexists. split; [reflexivity|]. done.
Qed.

Lemma extract_stats_snoc st lines line :
  exists st',
    read_stats (extract_stats st lines) line = Ok st'
    /\ extract_stats st (lines ++ [line]) = st'.
Proof.
  revert st. induction lines as [|l lines IH]; intros st; cbn.
  - destruct (read_stats_run st line) as (st' & Hrun & _).
    rewrite Hrun. by exists st'.
  - destruct (read_stats_run st l) as (st1 & -> & _). apply IH.
Qed.

(** The loop changes the two counts only. *)
Lemma extract_stats_keeps st lines :
  status (extract_stats st lines) = status st
  /\ last_run (extract_stats st lines) = last_run st
  /\ duration_seconds (extract_stats st lines) = duration_seconds st.
Proof.
  revert st. induction lines as [|l lines IH]; intros st; cbn; [done|].
  destruct (read_stats_run st l) as (st1 & -> & Hs & Hl & Hd & _).
  destruct (IH st1) as (-> & -> & ->). done.
Qed.

(** Lines that report no count leave it as it was. *)
Lemma extract_stats_silent st lines :
  (Forall (fun l => posts_line l = false) lines ->
   posts_scraped (extract_stats st lines) = posts_scraped st)
  /\ (Forall (fun l => comments_line l = false) lines ->
      comments_scraped (extract_stats st lines) = comments_scraped st).
Proof.
  revert st. induction lines as [|l lines IH]; intros st; cbn; [done|].
  destruct (read_stats_run st l) as (st1 & -> & _ & _ & _ & Hp & Hc).
  destruct (IH st1) as [IHp IHc].
  split; intros Hall; apply Forall_cons in Hall as [Hl Hall];
    rewrite Hl in *; [rewrite IHp|rewrite IHc]; done.
Qed.

(** The count is read from the last line that reports it. *)
Lemma extract_stats_last st before line after :
  (posts_line line = true ->
   Forall (fun l => posts_line l = false) after ->
   exists digits,
     first_number line = Some digits
     /\ int_of_str digits
        = Ok (posts_scraped (extract_stats st (before ++ line :: after))))
  /\ (comments_line line = true ->
      Forall (fun l => comments_line l = false) after ->
      exists digits,
        first_number line = Some digits
        /\ int_of_str digits
           = Ok (comments_scraped
                   (extract_stats st (before ++ line :: after)))).
Proof.
  assert (Hsplit : forall st l1 l2,
    extract_stats st (l1 ++ l2) = extract_stats (extract_stats st l1) l2).
  { intros st0 l1. revert st0. induction l1 as [|l l1 IH]; intros st0 l2;
      cbn; [done|].
    destruct (read_stats_run st0 l) as (st1 & -> & _). apply IH. }
  rewrite Hsplit. cbn [extract_stats].
  destruct (read_stats_run (extract_stats st before) line)
    as (st1 & -> & _ & _ & _ & Hp & Hc).
  destruct (extract_stats_silent st1 after) as [Hsp Hsc].
  split; intros Hline Hafter.
  - rewrite Hline in Hp. rewrite (Hsp Hafter). exact Hp.
  - rewrite Hline in Hc. rewrite (Hsc Hafter). exact Hc.
Qed.

(** ** The run *)

Section Run.

Variable isoformat : Z -> string.
Variable clock : nat -> Z.

(** A run in which the clock behaves. *)
Lemma attempt_run_exited st output returncode :
  timed clock ->
  exists seconds,
    attempt_run isoformat clock st (Exited output returncode)
    = (let ended :=
         with_duration
           (with_last_run
              (with_status (with_status st "running")
                 (if returncode =? 0 then "completed" else "failed"))
              (isoformat (clock 1%nat)))
           seconds in
       if returncode =? 0
       then extract_stats ended (output_lines output) else ended,
       None, 2%nat).
Proof.
  intros Htimed. unfold attempt_run.
  destruct (seconds_run (clock 0%nat) (clock 1%nat) Htimed)
    as (duration & seconds & -> & ->).
  by exists seconds.
Qed.

Lemma not_clean_exit p :
  ~ clean_exit p ->
  (exists e, p = Broken e)
  \/ (exists output returncode,
        p = Exited output returncode /\ returncode <> 0).
Proof.
  intros Hp. destruct p as [e|output returncode]; [left; by exists e|].
  right. exists output, returncode. split; [done|].
  intros ->. apply Hp. by exists output.
Qed.

Lemma handler_keeps (st : scraper_status) (started later : Z) :
  let st' :=
    match duration ← total_seconds started later; round_float duration with
    | Ok seconds => with_duration st seconds
    | Raise _ => st
    end in
  status st' = status st /\ last_run st' = last_run st
  /\ posts_scraped st' = posts_scraped st
  /\ comments_scraped st' = comments_scraped st.
Proof. cbv zeta. by destruct (_ ≫= _). Qed.

(** The counts after a run that failed. *)
Lemma failed_run_counts s p :
  ~ clean_exit p ->
  posts_scraped (public (run_scraper isoformat clock s p))
  = posts_scraped (public s)
  /\ comments_scraped (public (run_scraper isoformat clock s p))
     = comments_scraped (public s).
Proof.
  intros Hp. unfold run_scraper.
  destruct (not_clean_exit p Hp) as [[e ->]|(output & rc & -> & Hrc)].
  - cbn [attempt_run public].
    by destruct (handler_keeps
                   (with_last_run
                      (with_status (with_status (public s) "running")
                                   "failed")
                      (isoformat (clock 1%nat)))
                   (clock 0%nat) (clock 2%nat)) as (_ & _ & -> & ->).
  - unfold attempt_run.
    destruct (total_seconds _ _) as [duration|e].
    + apply Z.eqb_neq in Hrc. rewrite Hrc.
      destruct (round_float duration) as [seconds|e]; [done|].
      cbn [public].
      by destruct (handler_keeps
                     (with_last_run
                        (with_status
                           (with_last_run
                              (with_status
                                 (with_status (public s) "running")
                                 "failed")
                              (isoformat (clock 1%nat)))
                           "failed")
                        (isoformat (clock 2%nat)))
                     (clock 0%nat) (clock 3%nat)) as (_ & _ & -> & ->).
    + cbn [public].
      by destruct (handler_keeps
                     (with_last_run
                        (with_status (with_status (public s) "running")
                                     "failed")
                        (isoformat (clock 2%nat)))
                     (clock 0%nat) (clock 3%nat)) as (_ & _ & -> & ->).
Qed.

(** X21: when the run's two clock readings are less than [2 ^ 52] seconds
    apart, [run_scraper] leaves the status 'completed' exactly when the
    pipeline process ended with return code 0 and 'failed' in every other
    case, also when the process could not be launched or read; it is never
    left 'running' or 'idle'. The time of the last run is the first clock
    reading after the process, and the start is the reading before it. *)
Theorem a_run_ends_completed_exactly_on_return_code_zero s p :
  timed clock ->
  let s' := run_scraper isoformat clock s p in
  (clean_exit p -> status (public s') = "completed")
  /\ (~ clean_exit p -> status (public s') = "failed")
  /\ last_run (public s') = PStr (isoformat (clock 1%nat))
  /\ start_time s' = Some (clock 0%nat).
Proof.
  intros Htimed. cbv zeta. unfold run_scraper.
  destruct p as [e|output returncode].
  - cbn [attempt_run].
    destruct (handler_keeps
                (with_last_run
                   (with_status (with_status (public s) "running") "failed")
                   (isoformat (clock 1%nat)))
                (clock 0%nat) (clock 2%nat)) as (Hs & Hl & _).
    cbn [public start_time]. rewrite Hs, Hl.
    split; [intros [output Hp]; discriminate|]. done.
  - destruct (attempt_run_exited (public s) output returncode Htimed)
      as [seconds ->].
    cbv zeta. cbn [public start_time].
    destruct (Z.eqb_spec returncode 0) as [->|Hrc].
    + destruct (extract_stats_keeps
                  (with_duration
                     (with_last_run
                        (with_status (with_status (public s) "running")
                                     "completed")
                        (isoformat (clock 1%nat)))
                     seconds)
                  (output_lines output)) as (-> & -> & _).
      split; [done|]. split; [|done].
      intros Hp. exfalso. apply Hp. by exists output.
    + split; [|done]. intros [output' [= _ Hzero]]. done.
Qed.

(** X22: a run that did not end with return code 0 leaves the two counts
    of the run before it; so does a run that ended with return code 0 for
    each count that no line of its output reports, where a line reports the
    posts when it contains "posts scraped" in any case and a number, and
    the comments when it contains "comments scraped" and a number but not
    "posts scraped". The lines are ASCII text. *)
Theorem a_run_without_a_report_keeps_the_counts_of_the_run_before
    s p :
  let s' := run_scraper isoformat clock s p in
  (~ clean_exit p ->
   posts_scraped (public s') = posts_scraped (public s)
   /\ comments_scraped (public s') = comments_scraped (public s))
  /\ (forall output,
        p = Exited output 0 -> Forall plain output ->
        (Forall (fun l => posts_line l = false) (output_lines output) ->
         posts_scraped (public s') = posts_scraped (public s))
        /\ (Forall (fun l => comments_line l = false)
                   (output_lines output) ->
            comments_scraped (public s') = comments_scraped (public s))).
Proof.
  cbv zeta. split; [apply failed_run_counts|].
  intros output -> _. unfold run_scraper, attempt_run.
  destruct (total_seconds _ _) as [duration|e].
  - change (0 =? 0) with true. cbv iota.
    destruct (round_float duration) as [seconds|e].
    + cbn [public].
      destruct (extract_stats_silent
                  (with_duration
                     (with_last_run
                        (with_status (with_status (public s) "running")
                                     "completed")
                        (isoformat (clock 1%nat)))
                     seconds)
                  (output_lines output)) as [Hp Hc].
      split; intros Hall; [by rewrite Hp|by rewrite Hc].
    + cbn [public].
      destruct (handler_keeps
                  (with_last_run
                     (with_status
                        (with_last_run
                           (with_status (with_status (public s) "running")
                                        "completed")
                           (isoformat (clock 1%nat)))
                        "failed")
                     (isoformat (clock 2%nat)))
                  (clock 0%nat) (clock 3%nat)) as (_ & _ & -> & ->).
      done.
  - cbn [public].
    destruct (handler_keeps
                (with_last_run
                   (with_status (with_status (public s) "running")
                                "failed")
                   (isoformat (clock 2%nat)))
                (clock 0%nat) (clock 3%nat)) as (_ & _ & -> & ->).
    done.
Qed.


(** Whatever happens in a run, it ends 'completed' or 'failed'. *)
Lemma run_ends s p :
  status (public (run_scraper isoformat clock s p)) = "completed"
  \/ status (public (run_scraper isoformat clock s p)) = "failed".
Proof.
  unfold run_scraper.
  assert (Hhandler : forall st n,
    status (public
      {| public :=
           match duration ← total_seconds (clock 0%nat) (clock (S n));
                 round_float duration with
           | Ok seconds =>
               with_duration
                 (with_last_run (with_status st "failed")
                                (isoformat (clock n))) seconds
           | Raise _ =>
               with_last_run (with_status st "failed") (isoformat (clock n))
           end;
         start_time := Some (clock 0%nat) |}) = "failed").
  { intros st n. cbn [public]. by destruct (_ ≫= _). }
  destruct p as [e|output returncode]; cbn [attempt_run].
  - right. apply Hhandler.
  - destruct (total_seconds _ _) as [duration|e]; [|right; apply Hhandler].
    destruct (round_float duration) as [seconds|e];
      [|right; apply Hhandler].
    cbn [public]. destruct (returncode =? 0); [|by right].
    left. by destruct (extract_stats_keeps
                    (with_duration
                       (with_last_run
                          (with_status (with_status (public s) "running")
                                       "completed")
                          (isoformat (clock 1%nat)))
                       seconds)
                    (output_lines output)) as (-> & _).
Qed.

(** X29: a request for a run is refused while the status says 'running',
    which the thread of a run sets first, and a run that has ended never
    blocks the next one: whatever became of the process and whatever the
    clock gave, the status that [GET /api/status] shows after the run is
    not 'running', and a valid request then starts a run with the counts
    that it asks for. *)
Theorem a_run_that_has_ended_never_blocks_the_next_one
    s p (d : gmap string jval) a b :
  d !! "content" = Some (JScalar (PStr "reanalyze")) ->
  requested d "prime_bank_posts" 20 = Ok a ->
  requested d "other_banks_posts" 15 = Ok b ->
  1 <= a <= 200 -> 1 <= b <= 200 ->
  reanalyze (with_status (public s) "running") (JsonDict d)
  = refuse 400 "Scraper is already running"
  /\ status (get_scraper_status (run_scraper isoformat clock s p))
     <> "running"
  /\ reanalyze (get_scraper_status (run_scraper isoformat clock s p))
       (JsonDict d)
     = {| code := 200; reply := Running a b; started := Some (a, b) |}.
Proof.
  intros Hcontent Hp Ho Ha Hb.
  assert (Hended :
    status (get_scraper_status (run_scraper isoformat clock s p))
    <> "running").
  { unfold get_scraper_status. by destruct (run_ends s p) as [-> | ->]. }
  split; [|split; [exact Hended|]].
  - apply ReanalyzeFacts.reanalyze_refuses_while_running; [done|].
    by apply TriggerFacts.is_reanalyze_spec.
  - by apply TriggerFacts.valid_request_runs.
Qed.

End Run.

Lemma timed_every_90_seconds : timed Traces.every_90_seconds.
Proof. unfold timed, Traces.every_90_seconds. cbn. lia. Qed.

Ltac plain_lines :=
  repeat (constructor;
          [split; [apply Nat.leb_le; vm_compute; reflexivity|];
           cbn [String.append list_ascii_of_string];
           repeat (constructor; [apply Nat.ltb_lt; vm_compute; reflexivity|]);
           constructor|]);
  constructor.

Lemma plain_step_output : Forall plain Traces.step_output.
Proof. unfold Traces.step_output, Traces.line, plain. plain_lines. Qed.

Lemma plain_quiet_output : Forall plain Traces.quiet_output.
Proof. unfold Traces.quiet_output, Traces.line, plain. plain_lines. Qed.

Lemma a_run_ends_completed_exactly_on_return_code_zero_witness :
  status (public (run_scraper Traces.shown Traces.every_90_seconds
                    Traces.earlier (Exited Traces.step_output 0)))
  = "completed"
  /\ status (public (run_scraper Traces.shown Traces.every_90_seconds
                       Traces.earlier (Exited Traces.step_output 1)))
     = "failed"
  /\ status (public (run_scraper Traces.shown Traces.every_90_seconds
                       Traces.earlier (Broken RuntimeError)))
     = "failed".
Proof.
  split; [|split].
  - apply (a_run_ends_completed_exactly_on_return_code_zero
             Traces.shown Traces.every_90_seconds Traces.earlier
             (Exited Traces.step_output 0) timed_every_90_seconds).
    by exists Traces.step_output.
  - apply (a_run_ends_completed_exactly_on_return_code_zero
             Traces.shown Traces.every_90_seconds Traces.earlier
             (Exited Traces.step_output 1) timed_every_90_seconds).
    intros [output Hp]. discriminate.
  - apply (a_run_ends_completed_exactly_on_return_code_zero
             Traces.shown Traces.every_90_seconds Traces.earlier
             (Broken RuntimeError) timed_every_90_seconds).
    intros [output Hp]. discriminate.
Defined.

Lemma a_run_without_a_report_keeps_the_counts_of_the_run_before_witness :
  posts_scraped
    (public (run_scraper Traces.shown Traces.every_90_seconds
               Traces.earlier (Exited Traces.quiet_output 0))) = 24
  /\ comments_scraped
       (public (run_scraper Traces.shown Traces.every_90_seconds
                  Traces.earlier (Exited Traces.quiet_output 0))) = 130
  /\ posts_scraped
       (public (run_scraper Traces.shown Traces.every_90_seconds
                  Traces.earlier (Exited Traces.step_output 1))) = 24.
Proof.
  destruct (a_run_without_a_report_keeps_the_counts_of_the_run_before
              Traces.shown Traces.every_90_seconds Traces.earlier
              (Exited Traces.quiet_output 0)) as [_ Hquiet].
  destruct (Hquiet Traces.quiet_output eq_refl plain_quiet_output)
    as [Hposts Hcomments].
  destruct (a_run_without_a_report_keeps_the_counts_of_the_run_before
              Traces.shown Traces.every_90_seconds Traces.earlier
              (Exited Traces.step_output 1)) as [Hfailed _].
  split; [|split].
  - apply Hposts. repeat constructor.
  - apply Hcomments. repeat constructor.
  - apply Hfailed. intros [output Hp]. discriminate.
Defined.


Lemma a_run_that_has_ended_never_blocks_the_next_one_witness :
  reanalyze (with_status (public Traces.earlier) "running")
    (Samples.reanalyze_with (PInt 40))
  = refuse 400 "Scraper is already running"
  /\ status (get_scraper_status
               (run_scraper Traces.shown Traces.every_90_seconds
                  Traces.earlier (Broken RuntimeError))) <> "running"
  /\ reanalyze (get_scraper_status
                  (run_scraper Traces.shown Traces.every_90_seconds
                     Traces.earlier (Broken RuntimeError)))
       (Samples.reanalyze_with (PInt 40))
     = {| code := 200; reply := Running 40 15; started := Some (40, 15) |}.
Proof.
  apply (a_run_that_has_ended_never_blocks_the_next_one
           Traces.shown Traces.every_90_seconds Traces.earlier
           (Broken RuntimeError) _ 40 15);
    [reflexivity|reflexivity|reflexivity|lia|lia].
Defined.

End ScraperFacts.



(* ===================================================================== *)
(** * The dashboard and its sections                                      *)
(* ===================================================================== *)

Module SectionFacts.

Import Main Parts.

(** [path_get] reads the part and nothing else. *)
Lemma path_get_part path : forall v w,
  path_get v path w = (part (store w) v path, w).
Proof.
  induction path as [|key path IH]; intros v w; [done|].
  cbn [path_get part]. destruct v as [|l]; [done|].
  unfold getitem, deref.
  destruct (store w !! l) as [[entries|]|] eqn:Hl;
    unfold mbind, M_bind; rewrite Hl; [|done|done].
  destruct (entry key entries) as [x|]; [|done]. apply IH.
Qed.

Lemma part_mono (h h' : gmap loc obj) path : forall v x,
  h ⊆ h' -> part h v path = Ok x -> part h' v path = Ok x.
Proof.
  induction path as [|key path IH]; intros v x Hsub; [done|].
  cbn [part]. destruct v as [|l]; [done|].
  destruct (h !! l) as [o|] eqn:Hl; [|done].
  rewrite (lookup_weaken _ _ _ _ Hl Hsub).
  destruct o as [entries|]; [|done].
  destruct (entry key entries); [|done]. by apply IH.
Qed.

Lemma entry_set_entry_ne key key' x entries :
  key' <> key -> entry key' (set_entry key x entries) = entry key' entries.
Proof.
  intros Hne. induction entries as [|[k v] entries IH]; cbn.
  - destruct (String.eqb_spec key key'); [congruence|done].
  - destruct (String.eqb_spec k key) as [->|Hk]; cbn.
    + destruct (String.eqb_spec key key'); [congruence|done].
    + by rewrite IH.
Qed.

Lemma entry_set_entry key x entries :
  entry key (set_entry key x entries) = Some x.
Proof.
  induction entries as [|[k v] entries IH]; cbn.
  - by rewrite String.eqb_refl.
  - destruct (String.eqb_spec k key) as [->|Hk]; cbn.
    + by rewrite String.eqb_refl.
    + destruct (String.eqb_spec k key); [done|exact IH].
Qed.

Lemma section_path_head s :
  exists key rest,
    fst (section_path s) = key :: rest /\ key <> "last_updated".
Proof. destruct s; eexists; eexists; (split; [reflexivity|done]). Qed.

(** X24: when the document is a dict, [GET /api/dashboard] of the store
    answers 200 with a new dict that has the entries of the document, in
    their order, except that [last_updated] holds the first clock reading
    of the request, one reading before the timestamp of the answer. The
    document itself keeps its entries, and every path of a section route
    leads in the new dict to the part that it leads to in the document. *)
Theorem dashboard_serves_a_copy_with_the_time_of_the_request
    (isoformat : nat -> string) (root : loc)
    (entries : list (string * val)) (w : world) :
  store w !! root = Some (Dict entries) ->
  let copied := fresh (dom (store w)) in
  let served :=
    set_entry "last_updated" (Lit (PStr (isoformat (ticks w)))) entries in
  let w' := {| store := <[copied := Dict served]> (store w);
               ticks := S (S (ticks w)) |} in
  get_dashboard_data (Ref root) isoformat w
  = (Ok (answer (Ref copied) (isoformat (S (ticks w)))), w')
  /\ store w' !! root = Some (Dict entries)
  /\ entry "last_updated" served
     = Some (Lit (PStr (isoformat (ticks w))))
  /\ (forall key, key <> "last_updated" ->
        entry key served = entry key entries)
  /\ (forall s x,
        part (store w) (Ref root) (fst (section_path s)) = Ok x ->
        part (store w') (Ref copied) (fst (section_path s)) = Ok x).
Proof.
  intros Hroot. cbv zeta.
  pose proof (HandlerFacts.fresh_lookup (store w)) as Hfresh.
  pose proof (HandlerFacts.fresh_subseteq (store w)) as Hsub.
  set (copied := fresh (dom (store w))) in *.
  assert (Hne : copied <> root) by (intros Heq; congruence).
  split; [|split; [|split; [|split]]].
  - unfold get_dashboard_data, guarded, catch, copy, setitem, success,
      get_current_timestamp, deref, alloc, assign, answer.
    unfold mbind, M_bind, mret, M_ret. rewrite Hroot. cbn [store ticks].
    fold copied. rewrite lookup_insert_eq. cbn [store ticks app].
    by rewrite insert_insert_eq.
  - cbn [store]. by rewrite lookup_insert_ne.
  - apply entry_set_entry.
  - intros key Hkey. by apply entry_set_entry_ne.
  - intros s x. destruct (section_path_head s) as (key & rest & -> & Hkey).
    cbn [part store]. rewrite Hroot, lookup_insert_eq.
    rewrite (entry_set_entry_ne _ _ _ _ Hkey).
    destruct (entry key entries) as [y|]; [|done].
    apply part_mono, Hsub.
Qed.

Lemma dashboard_serves_a_copy_with_the_time_of_the_request_witness :
  fst (get_dashboard_data (Ref 1%positive) Samples.sample_clock
         Samples.sample_world)
  = Ok (answer (Ref 7%positive) "1").
Proof.
  destruct (dashboard_serves_a_copy_with_the_time_of_the_request
              Samples.sample_clock 1%positive _ Samples.sample_world
              eq_refl) as [Hrun _].
  rewrite Hrun. reflexivity.
Defined.

(** X25: each of the thirteen section routes answers 200 with the part of
    the document at its path: the part itself, or for the four routes below
    the AI overview a new dict that holds the part under its key. When a
    key of the path is missing it answers 500 with that key in quotes as
    the error. It reads the clock once and leaves the store as it was,
    apart from the new dict. *)
Theorem a_section_route_serves_its_part_or_names_the_missing_key
    (isoformat : nat -> string) (document : val) (s : section) (w : world) :
  let now := isoformat (ticks w) in
  let result := get_section document isoformat s w in
  match part (store w) document (fst (section_path s)) with
  | Ok x =>
      match snd (section_path s) with
      | None => result = (Ok (answer x now), tick w)
      | Some key =>
          let wrapped := fresh (dom (store w)) in
          result
          = (Ok (answer (Ref wrapped) now),
             tick {| store := <[wrapped := Dict [(key, x)]]> (store w);
                     ticks := ticks w |})
      end
  | Raise e =>
      exists error,
        result = (Ok (error_answer error now), tick w)
        /\ forall key, e = KeyError key -> error = "'" +:+ key +:+ "'"
  end.
Proof.
  cbv zeta. unfold get_section.
  destruct (section_path s) as [path wrap]. cbn [fst snd].
  pose proof (path_get_part path document w) as Hrun.
  unfold guarded, catch.
  destruct (part (store w) document path) as [x|e].
  - rewrite (HandlerFacts.run_bind _ _ _ _ _ Hrun).
    destruct wrap as [key|]; reflexivity.
  - rewrite (HandlerFacts.run_raise _ _ _ _ _ Hrun).
    exists (str_of_exn e). split; [reflexivity|]. by intros key ->.
Qed.

End SectionFacts.

(* ===================================================================== *)
(** * The fallback overview                                               *)
(* ===================================================================== *)

Module OverviewFacts.

Import Overview.

Lemma prefix_app sub : forall s t,
  String.prefix sub s = true -> String.prefix sub (s +:+ t) = true.
Proof.
  induction sub as [|c sub IH]; intros s t;
    [intros _; destruct s; [destruct t|]; reflexivity|].
  destruct s as [|d s]; [done|].
  change (String d s +:+ t) with (String d (s +:+ t)). cbn [String.prefix].
  destruct (Ascii.ascii_dec c d); [apply IH|done].
Qed.

Lemma contains_app_l sub s t :
  contains sub s = true -> contains sub (s +:+ t) = true.
Proof.
  induction s as [|c s IH].
  - cbn [contains]. destruct (String.prefix sub "") eqn:Hp; [|done].
    intros _. destruct sub; [|done]. by destruct t.
  - change (String c s +:+ t) with (String c (s +:+ t)). cbn [contains].
    destruct (String.prefix sub (String c s)) eqn:Hp.
    + intros _. pose proof (prefix_app _ _ t Hp) as Hp'.
      change (String c s +:+ t) with (String c (s +:+ t)) in Hp'.
      by rewrite Hp'.
    + intros Hs. rewrite (IH Hs).
      by destruct (String.prefix sub (String c (s +:+ t))).
Qed.

Lemma contains_app_r sub s t :
  contains sub t = true -> contains sub (s +:+ t) = true.
Proof.
  intros Ht. induction s as [|c s IH]; [done|].
  change (String c s +:+ t) with (String c (s +:+ t)).
  cbn [contains]. rewrite IH. by destruct (String.prefix _ _).
Qed.

Lemma lower_app s t : lower (s +:+ t) = lower s +:+ lower t.
Proof.
  induction s as [|c s IH]; [done|].
  change (String c s +:+ t) with (String c (s +:+ t)).
  cbn [lower]. by rewrite IH.
Qed.

Lemma filter_length_le {A} (f g : A -> bool) (l : list A) :
  (forall x, f x = true -> g x = true) ->
  (length (List.filter f l) <= length (List.filter g l))%nat.
Proof.
  intros Hfg. induction l as [|x l IH]; [done|]. cbn.
  destruct (f x) eqn:Hf.
  - rewrite (Hfg x Hf). cbn. lia.
  - destruct (g x); cbn; lia.
Qed.

Lemma mentions_bounds keywords text :
  0 <= mentions keywords text <= Z.of_nat (length keywords).
Proof.
  unfold mentions. pose proof (List.filter_length_le
    (fun keyword => contains keyword text) keywords). lia.
Qed.

Lemma mentions_grow keywords before content after :
  mentions keywords (lower content)
  <= mentions keywords (lower (before +:+ content +:+ after)).
Proof.
  unfold mentions. apply Nat2Z.inj_le, filter_length_le.
  intros keyword Hk. rewrite !lower_app.
  by apply contains_app_r, contains_app_l.
Qed.

(** X26: the three numbers of mentions that the fallback overview puts in
    its texts count the keywords of a list that occur in the content in
    any case, each keyword once however often it occurs and also inside a
    longer word: they are at most 9, 8 and 9, and text added before or
    after the content never lowers them. *)
Theorem fallback_mentions_count_the_keywords_that_occur
    (content before after : string) :
  0 <= inquiry_mentions content <= 9
  /\ 0 <= praise_mentions content <= 8
  /\ 0 <= complaint_mentions content <= 9
  /\ inquiry_mentions content
     <= inquiry_mentions (before +:+ content +:+ after)
  /\ praise_mentions content
     <= praise_mentions (before +:+ content +:+ after)
  /\ complaint_mentions content
     <= complaint_mentions (before +:+ content +:+ after)
  /\ inquiry_mentions "Show me? What? WHAT?" = 3.
Proof.
  unfold inquiry_mentions, praise_mentions, complaint_mentions.
  pose proof (mentions_bounds inquiry_keywords (lower content)) as Hi.
  pose proof (mentions_bounds praise_keywords (lower content)) as Hp.
  pose proof (mentions_bounds complaint_keywords (lower content)) as Hc.
  cbn [length inquiry_keywords praise_keywords complaint_keywords] in Hi, Hp, Hc.
  split; [lia|]. split; [lia|]. split; [lia|].
  split; [apply mentions_grow|]. split; [apply mentions_grow|].
  split; [apply mentions_grow|]. by vm_compute.
Qed.

End OverviewFacts.



(* ===================================================================== *)
(** * The bank mentions                                                   *)
(* ===================================================================== *)

Module MentionFacts.

Import Mentions.

(** ** The matcher and the ways of matching *)

Lemma match_here_sound p : forall s r,
  match_here p s = Some r -> matches p s r.
Proof.
  induction p as [|a p IH]; intros s r.
  - intros [= ->]. constructor.
  - destruct a as [c| |c].
    + destruct s as [|d s]; [done|]. cbn [match_here].
      destruct (same_letter c d) eqn:Hc; [|done].
      intros Hm. apply matches_char; [done|by apply IH].
    + revert r. induction s as [|d s IHs]; intros r.
      * cbn. intros Hm. apply matches_spaces_skip. by apply IH.
      * change (match_here (Spaces :: p) (String d s))
          with (if is_space d
                then match match_here (Spaces :: p) s with
                     | Some r => Some r
                     | None => match_here p (String d s)
                     end
                else match_here p (String d s)).
        destruct (is_space d) eqn:Hd.
        -- destruct (match_here (Spaces :: p) s) as [r'|] eqn:Hs.
           ++ intros [= <-]. apply matches_spaces_take; [done|].
              by apply IHs.
           ++ intros Hm. apply matches_spaces_skip. by apply IH.
        -- intros Hm. apply matches_spaces_skip. by apply IH.
    + destruct s as [|d s]; cbn [match_here].
      * intros Hm. apply matches_maybe_skip. by apply IH.
      * destruct (same_letter c d) eqn:Hc.
        -- destruct (match_here p s) as [r'|] eqn:Hs.
           ++ intros [= <-]. apply matches_maybe_take; [done|].
              by apply IH.
           ++ intros Hm. apply matches_maybe_skip. by apply IH.
        -- intros Hm. apply matches_maybe_skip. by apply IH.
Qed.

Lemma match_here_complete p s r :
  matches p s r -> exists r', match_here p s = Some r'.
Proof.
  induction 1 as [s|c d s r p Hc _ [r' IH]|c d s r p Hc _ [r' IH]
                  |c s r p _ [r' IH]|d s r p Hd _ [r' IH]|s r p _ [r' IH]].
  - by exists s.
  - exists r'. cbn [match_here]. by rewrite Hc.
  - exists r'. cbn [match_here]. by rewrite Hc, IH.
  - destruct s as [|d s]; cbn [match_here]; [by exists r'|].
    destruct (same_letter c d); [|by exists r'].
    destruct (match_here p s) as [r''|]; [by exists r''|by exists r'].
  - exists r'.
    change (match_here (Spaces :: p) (String d s))
      with (if is_space d
            then match match_here (Spaces :: p) s with
                 | Some r => Some r
                 | None => match_here p (String d s)
                 end
            else match_here p (String d s)).
    by rewrite Hd, IH.
  - destruct s as [|d s]; [by exists r'|].
    change (match_here (Spaces :: p) (String d s))
      with (if is_space d
            then match match_here (Spaces :: p) s with
                 | Some r => Some r
                 | None => match_here p (String d s)
                 end
            else match_here p (String d s)).
    destruct (is_space d); [|by exists r'].
    destruct (match_here (Spaces :: p) s) as [r''|];
      [by exists r''|by exists r'].
Qed.

Lemma matches_split pq s r :
  matches pq s r ->
  forall p q, pq = p ++ q -> exists m, matches p s m /\ matches q m r.
Proof.
  induction 1 as [s|c d s r p' Hc Hm IH|c d s r p' Hc Hm IH
                  |c s r p' Hm IH|d s r p' Hd Hm IH|s r p' Hm IH];
    intros p q Heq; destruct p as [|a p]; cbn [app] in Heq;
    simplify_eq.
  - exists s. split; constructor.
  - exists (String d s). split; [constructor|by apply matches_char].
  - destruct (IH p q eq_refl) as (m & Hp & Hq).
    exists m. split; [by apply matches_char|done].
  - exists (String d s). split; [constructor|by apply matches_maybe_take].
  - destruct (IH p q eq_refl) as (m & Hp & Hq).
    exists m. split; [by apply matches_maybe_take|done].
  - exists s. split; [constructor|by apply matches_maybe_skip].
  - destruct (IH p q eq_refl) as (m & Hp & Hq).
    exists m. split; [by apply matches_maybe_skip|done].
  - exists (String d s). split; [constructor|by apply matches_spaces_take].
  - destruct (IH (Spaces :: p) q eq_refl) as (m & Hp & Hq).
    exists m. split; [by apply matches_spaces_take|done].
  - exists s. split; [constructor|by apply matches_spaces_skip].
  - destruct (IH p q eq_refl) as (m & Hp & Hq).
    exists m. split; [by apply matches_spaces_skip|done].
Qed.

Lemma matches_app_inv p q s r :
  matches (p ++ q) s r -> exists m, matches p s m /\ matches q m r.
Proof. intros Hm. by eapply matches_split. Qed.

Lemma matches_app p q s m r :
  matches p s m -> matches q m r -> matches (p ++ q) s r.
Proof.
  intros Hp Hq. induction Hp; cbn [app]; [done|..]; by constructor; auto.
Qed.

(** A match takes characters that its atoms can take. *)
Lemma matches_region p s r :
  matches p s r ->
  exists u, s = u +:+ r
            /\ Forall (fun ch => takes p ch = true) (list_ascii_of_string u).
Proof.
  assert (Hweak : forall a p u,
    Forall (fun ch => takes p ch = true) u ->
    Forall (fun ch => takes (a :: p) ch = true) u).
  { intros a p' u Hu. eapply Forall_impl; [exact Hu|]. intros ch Hch.
    cbn [takes existsb]. fold (takes p' ch). rewrite Hch.
    by destruct a; rewrite ?orb_true_r. }
  induction 1 as [s|c d s r p Hc _ (u & -> & Hu)|c d s r p Hc _ (u & -> & Hu)
                  |c s r p _ (u & -> & Hu)|d s r p Hd _ (u & -> & Hu)
                  |s r p _ (u & -> & Hu)].
  - exists "". split; [done|constructor].
  - exists (String d u). split; [done|]. cbn [list_ascii_of_string].
    constructor; [|by apply Hweak]. cbn [takes existsb]. by rewrite Hc.
  - exists (String d u). split; [done|]. cbn [list_ascii_of_string].
    constructor; [|by apply Hweak]. cbn [takes existsb]. by rewrite Hc.
  - exists u. split; [done|]. by apply Hweak.
  - exists (String d u). split; [done|]. cbn [list_ascii_of_string].
    constructor; [|done]. cbn [takes existsb]. by rewrite Hd.
  - exists u. split; [done|]. by apply Hweak.
Qed.

Lemma length_app (u r : string) :
  String.length (u +:+ r) = (String.length u + String.length r)%nat.
Proof.
  induction u as [|c u IH]; [done|].
  change (String c u +:+ r) with (String c (u +:+ r)). cbn. by rewrite IH.
Qed.

Lemma clear_region a (u r : string) :
  Forall (fun ch => same_letter a ch = false) (list_ascii_of_string u) ->
  clear a (String.length u) (u +:+ r).
Proof.
  induction u as [|c u IH]; [done|]. cbn [list_ascii_of_string].
  intros Hu. apply Forall_cons in Hu as [Hc Hu].
  change (String c u +:+ r) with (String c (u +:+ r)). cbn. by split; [|apply IH].
Qed.

(** ** Comparing the matches of two patterns *)

Section Compare.

(** Where [pA] matches, [pB] matches; both start with the letter [a], and
    [pB] takes no more [a] after it. *)
Variables (pA pB tailB : list atom) (a : ascii).
Hypothesis pB_head : pB = Char a :: tailB.
Hypothesis pA_head : forall c s r,
  matches pA (String c s) r -> same_letter a c = true.
Hypothesis A_in_B : forall s r,
  matches pA s r -> exists r', matches pB s r'.
Hypothesis tail_clear : forall ch,
  takes tailB ch = true -> same_letter a ch = false.

Lemma count_matches_le : forall s kA kB,
  clear a kB s ->
  (count_matches pA s kA <= count_matches pB s kB)%nat.
Proof.
  induction s as [|c s IH]; intros kA kB Hclear; [done|].
  cbn [count_matches].
  assert (HA : forall k, (count_matches pA s k <= count_matches pB s 0)%nat)
    by (intros k; by apply IH; destruct s).
  destruct kB as [|kB].
  - destruct (match_here pB (String c s)) as [rB|] eqn:HB.
    + assert (Hnext : clear a (String.length s - String.length rB) s).
      { apply match_here_sound in HB. rewrite pB_head in HB.
        inversion HB as [|c' d' s' r' p' Hc Hm| | | |]; subst.
        destruct (matches_region _ _ _ Hm) as (u & -> & Hu).
        rewrite length_app.
        replace (String.length u + String.length rB - String.length rB)%nat
          with (String.length u) by lia.
        apply clear_region. eapply Forall_impl; [exact Hu|].
        intros ch. apply tail_clear. }
      destruct kA as [|kA].
      * destruct (match_here pA (String c s)) as [rA|].
        -- apply le_n_S. by apply IH.
        -- apply Nat.le_le_succ_r. by apply IH.
      * apply Nat.le_le_succ_r. by apply IH.
    + destruct kA as [|kA]; [|apply HA].
      destruct (match_here pA (String c s)) as [rA|] eqn:HAm; [|apply HA].
      apply match_here_sound, A_in_B in HAm as [r' Hr'].
      apply match_here_complete in Hr' as [r'' Hr'']. congruence.
  - cbn [clear] in Hclear. destruct Hclear as [Hc Hclear].
    destruct kA as [|kA]; [|by apply IH].
    destruct (match_here pA (String c s)) as [rA|] eqn:HAm; [|by apply IH].
    apply match_here_sound, pA_head in HAm. congruence.
Qed.

Lemma findall_le content : findall pA content <= findall pB content.
Proof. unfold findall. apply Nat2Z.inj_le, count_matches_le. by destruct content. Qed.

End Compare.

(** ** The patterns of Prime Bank *)

Lemma takes_no_p_short ch :
  takes (letters "rime" ++ [Spaces; Char "b"; Maybe "."]) ch = true ->
  same_letter "p" ch = false.
Proof. destruct ch as [[] [] [] [] [] [] [] []]; by vm_compute. Qed.

Lemma takes_no_p_words ch :
  takes (letters "rime" ++ Spaces :: letters "bank") ch = true ->
  same_letter "p" ch = false.
Proof. destruct ch as [[] [] [] [] [] [] [] []]; by vm_compute. Qed.

Lemma starts_with_p q c s r :
  matches (Char "p" :: q) (String c s) r -> same_letter "p" c = true.
Proof. inversion 1; by subst. Qed.

(** Where [prime\s*bank] matches, [prime\s*b\.?] matches. *)
Lemma words_in_short s r :
  matches prime_bank_words s r -> exists r', matches prime_bank_short s r'.
Proof.
  change prime_bank_words
    with ((letters "prime" ++ [Spaces; Char "b"]) ++ letters "ank").
  intros Hm. apply matches_app_inv in Hm as (m & Hp & _).
  exists m.
  change prime_bank_short
    with ((letters "prime" ++ [Spaces; Char "b"]) ++ [Maybe "."]).
  eapply matches_app; [exact Hp|]. apply matches_maybe_skip. constructor.
Qed.

(** Where [primebank] matches, [prime\s*bank] matches. *)
Lemma word_in_words s r :
  matches prime_bank_word s r -> exists r', matches prime_bank_words s r'.
Proof.
  change prime_bank_word with (letters "prime" ++ letters "bank").
  intros Hm. apply matches_app_inv in Hm as (m & Hp & Hq).
  exists r. unfold prime_bank_words.
  eapply matches_app; [exact Hp|]. by apply matches_spaces_skip.
Qed.

Lemma words_le_short content :
  findall prime_bank_words content <= findall prime_bank_short content.
Proof.
  apply (findall_le prime_bank_words prime_bank_short
           (letters "rime" ++ [Spaces; Char "b"; Maybe "."]) "p").
  - reflexivity.
  - intros c s r. apply starts_with_p.
  - apply words_in_short.
  - apply takes_no_p_short.
Qed.

Lemma word_le_words content :
  findall prime_bank_word content <= findall prime_bank_words content.
Proof.
  apply (findall_le prime_bank_word prime_bank_words
           (letters "rime" ++ Spaces :: letters "bank") "p").
  - reflexivity.
  - intros c s r. apply starts_with_p.
  - apply word_in_words.
  - apply takes_no_p_words.
Qed.

Lemma findall_nonneg p content : 0 <= findall p content.
Proof. unfold findall. lia. Qed.

Lemma count_bank_nonneg content patterns : 0 <= count_bank content patterns.
Proof.
  unfold count_bank.
  assert (H : forall n, 0 <= n ->
    0 <= fold_left (fun count pattern => count + findall pattern content)
                   patterns n).
  { induction patterns as [|p patterns IH]; intros n Hn; [done|].
    cbn [fold_left]. apply IH. pose proof (findall_nonneg p content). lia. }
  by apply H.
Qed.

(** X27: every bank is counted once for each of its patterns that matches,
    so the patterns of Prime Bank count one mention several times: each
    match of [prime\s*bank] in the text is also a match of [prime\s*b\.?],
    and each match of [primebank] is a match of both. The count of Prime
    Bank is hence at least twice the number of texts "prime bank" and at
    least three times the number of texts "primebank"; the total is the sum
    of the five counts. *)
Theorem a_mention_of_prime_bank_is_counted_at_least_twice (text : string) :
  let content := lower text in
  exists prime eastern brac city dutch,
    get_bank_mentions (Text text)
    = [("prime_bank", prime); ("eastern_bank", eastern);
       ("brac_bank", brac); ("city_bank", city); ("dutch_bangla", dutch);
       ("total_bank_mentions", prime + eastern + brac + city + dutch)]
    /\ 2 * findall prime_bank_words content <= prime
    /\ 3 * findall prime_bank_word content <= prime
    /\ 0 <= eastern /\ 0 <= brac /\ 0 <= city /\ 0 <= dutch.
Proof.
  cbv zeta. set (content := lower text).
  pose proof (words_le_short content) as H14.
  pose proof (word_le_words content) as H21.
  pose proof (findall_nonneg prime_bank_handle content) as H3.
  pose proof (findall_nonneg prime_bank_word content) as H2.
  eexists _, _, _, _, _. split.
  - unfold get_bank_mentions. fold content. unfold bank_patterns.
    cbn [fold_left app]. rewrite Z.add_0_l. reflexivity.
  - split; [|split; [|repeat split; apply count_bank_nonneg]].
    + unfold count_bank. cbn [fold_left]. lia.
    + unfold count_bank. cbn [fold_left]. lia.
Qed.

(** The counts of a text that names Prime Bank twice. *)
Lemma two_mentions_count_for_six :
  get_bank_mentions (Text "Prime Bank and @PrimeBank")
  = [("prime_bank", 6); ("eastern_bank", 0); ("brac_bank", 0);
     ("city_bank", 0); ("dutch_bangla", 0); ("total_bank_mentions", 6)].
Proof. by vm_compute. Qed.

End MentionFacts.
